(** * Fictitious play (fictplay.py): a shallow embedding and its properties

    The engine of [fictplay.py] keeps one belief vector per player, lets
    every player best-respond to its belief and moves each belief towards
    the point mass on the opponent's action.  The belief vectors are numpy
    arrays that are only ever mutated in place; they are modelled as lists
    of rationals held in the engine state, and a yielded tuple of arrays as
    a tuple of references into that state.  Arithmetic is exact (rationals
    compared with [==]). *)

From Stdlib Require Import ZArith QArith Lqa Lia String.
From stdpp Require Import base list.

Open Scope Q_scope.
Open Scope list_scope.

(** ** Numpy and Python primitives used by the engine *)

(** Python exceptions that can surface from the engine.  [ValueError] is
    the engine's own [raise ValueError(...)]; numpy's shape mismatch on
    assignment and failures of the external game constructor are kept
    apart from it. *)
Inductive exn : Type :=
| ValueError (msg : string)
| IndexError
| BroadcastError
| NameError
| OverflowError
| ExternalError (msg : string).

(** Result of running a piece of Python: a value, a raised exception, or
    [Diverge] when a fuel-bounded loop of the model ran out of fuel. *)
Inductive outcome (A : Type) : Type :=
| Val (a : A)
| Exc (e : exn)
| Diverge.
Arguments Val {A} a.
Arguments Exc {A} e.
Arguments Diverge {A}.

(** An n-dimensional array as far as the engine looks at it. *)
Record ndarray : Type := { shape : list nat; flat : list Q }.

Definition ndim (a : ndarray) : nat := length (shape a).

(** [np.ones(n)] and [np.empty(n)]; the content of an empty array is
    unspecified and every use below overwrites it before reading. *)
Definition np_ones (n : nat) : list Q := repeat 1 n.
Definition np_empty (n : nat) : list Q := repeat 0 n.
Definition np_empty2 (rows cols : nat) : list (list Q) := repeat (np_empty cols) rows.
Definition np_zeros_int (n : nat) : list Z := repeat 0%Z n.

(** [seq[k]] for a Python integer [k]: negative indices count from the
    end, anything outside [-n, n) is an IndexError. *)
Definition py_index (n : nat) (k : Z) : option nat :=
  if ((0 <=? k) && (k <? Z.of_nat n))%Z then Some (Z.to_nat k)
  else if ((- Z.of_nat n <=? k) && (k <? 0))%Z then Some (Z.to_nat (k + Z.of_nat n))
  else None.

(** Whether a Python integer fits an entry of an array of 64-bit
    integers, as [np.zeros(n, dtype=int)] makes one. *)
Definition int64_fitsb (a : Z) : bool := ((- 2 ^ 63 <=? a) && (a <? 2 ^ 63))%Z.

(** [dst[:] = v] and [buf[t] = v] on one-dimensional data: [v] is broadcast
    to the shape of the destination. *)
Definition broadcast_to (n : nat) (v : list Q) : option (list Q) :=
  if (length v =? n)%nat then Some v
  else match v with
       | [x] => Some (repeat x n)
       | _ => None
       end.

(** [b *= c] *)
Definition scale (c : Q) (b : list Q) : list Q := (fun x => x * c) <$> b.

(** [b[j] += s] at an index already normalised *)
Definition add_at (j : nat) (s : Q) (b : list Q) : list Q := alter (fun x => x + s) j b.

(** Sum of the entries, and what it means to be a probability vector. *)
Definition sumQ (b : list Q) : Q := foldr Qplus 0 b.

Definition is_distribution (b : list Q) : Prop :=
  Forall (fun x => 0 <= x) b /\ sumQ b == 1.

(** Entrywise equality of rational vectors. *)
Definition vec_eq (b c : list Q) : Prop := Forall2 Qeq b c.

(** The point mass on index [j] in dimension [n]. *)
Definition onehot (n j : nat) : list Q :=
  (fun k => if (k =? j)%nat then 1 else 0) <$> seq 0 n.

(** [(1 - s) * b + s * o], entry by entry. *)
Definition convex (s : Q) (b o : list Q) : list Q :=
  zip_with (fun x y => (1 - s) * x + s * y) b o.

(** What [update_beliefs] leaves in one belief array: [b *= 1 - s] followed
    by [b[j] += s]. *)
Definition updated (s : Q) (b : list Q) (j : nat) : list Q :=
  add_at j s (scale (1 - s) b).

(** The default schedule, [lambda t: 1 / (t+2)] under true division. *)
Definition default_step_size (t : nat) : Q := 1 / inject_Z (Z.of_nat t + 2).

Section Engine.

(** The random state of numpy together with whatever a player's
    [best_response] may consult (random tie-breaking): external calls take
    it and return it. *)
Context {World : Type}.

(** [np.random.dirichlet(alpha)] *)
Variable dirichlet : list Q -> World -> list Q * World.

(** A player of the game, as the engine sees it: its [best_response]
    method. *)
Record GamePlayer : Type := { gp_best_response : list Q -> World -> Z * World }.

(** The game object: the attributes [N], [players] and [nums_actions]. *)
Record NormalFormGame : Type := {
  g_N : nat;
  g_players : list GamePlayer;
  nums_actions : list nat }.

(** The constructor [NormalFormGame(payoffs)] of game_tools. *)
Variable NormalFormGame_new : ndarray -> string + NormalFormGame.

(** A player once the engine has attached [current_belief] to it. *)
Record Player : Type := {
  best_response : list Q -> World -> Z * World;
  current_belief : list Q }.

Record FictitiousPlay : Type := {
  g : NormalFormGame;
  N : nat;
  players : list Player;
  belief_sizes : list nat;
  current_actions : list Z;
  step_size : nat -> Q }.

Definition with_players (ps : list Player) (e : FictitiousPlay) : FictitiousPlay :=
  {| g := g e; N := N e; players := ps; belief_sizes := belief_sizes e;
     current_actions := current_actions e; step_size := step_size e |}.

Definition with_actions (acts : list Z) (e : FictitiousPlay) : FictitiousPlay :=
  {| g := g e; N := N e; players := players e; belief_sizes := belief_sizes e;
     current_actions := acts; step_size := step_size e |}.

Definition with_belief (b : list Q) (p : Player) : Player :=
  {| best_response := best_response p; current_belief := b |}.

(** ** The monad of engine methods: world and engine state are threaded,
    and both survive a raised exception (numpy mutates in place). *)
Definition M (A : Type) : Type := World -> FictitiousPlay -> outcome A * World * FictitiousPlay.

Definition ret {A} (a : A) : M A := fun w e => (Val a, w, e).

Definition bind {A B} (m : M A) (k : A -> M B) : M B :=
  fun w e =>
    match m w e with
    | (Val a, w', e') => k a w' e'
    | (Exc x, w', e') => (Exc x, w', e')
    | (Diverge, w', e') => (Diverge, w', e')
    end.

Definition raise {A} (x : exn) : M A := fun w e => (Exc x, w, e).
Definition diverge {A} : M A := fun w e => (Diverge, w, e).
Definition get_engine : M FictitiousPlay := fun w e => (Val e, w, e).
Definition put_engine (e' : FictitiousPlay) : M unit := fun w _ => (Val tt, w, e').
Definition external {A} (f : World -> A * World) : M A :=
  fun w e => let (a, w') := f w in (Val a, w', e).
Definition or_raise {A} (o : option A) (x : exn) : M A :=
  match o with Some a => ret a | None => raise x end.

Notation "x <- m ;; k" := (bind m (fun x => k))
  (at level 100, m at next level, right associativity).
Notation "m ;;; k" := (bind m (fun _ => k))
  (at level 100, right associativity).

(** [for i in range(start, start + k): body(i)] *)
Fixpoint for_range (k start : nat) (body : nat -> M unit) : M unit :=
  match k with
  | O => ret tt
  | S k' => body start ;;; for_range k' (S start) body
  end.

(** [for i, player in enumerate(self.players): body(i)] *)
Definition for_players (body : nat -> M unit) : M unit :=
  e <- get_engine ;; for_range (length (players e)) 0 body.

Definition get_player (i : nat) : M Player :=
  e <- get_engine ;; or_raise (players e !! i) IndexError.

Definition set_belief (i : nat) (b : list Q) : M unit :=
  e <- get_engine ;;
  put_engine (with_players (alter (with_belief b) i (players e)) e).


(** ** The methods of [FictitiousPlay] *)

(** The [current_beliefs] property builds a tuple of the players' belief
    arrays themselves, not of copies: a reference names the player whose
    array it is, and is read through the engine state at the time of
    reading. *)
Definition ref : Type := nat.

Definition current_beliefs (e : FictitiousPlay) : list ref := seq 0 (length (players e)).

Definition deref (e : FictitiousPlay) (r : ref) : option (list Q) :=
  current_belief <$> (players e !! r).

(** The values behind [current_beliefs] at state [e]. *)
Definition belief_values (e : FictitiousPlay) : list (list Q) :=
  current_belief <$> players e.

(** [[np.random.dirichlet(np.ones(belief_size)) for belief_size in sizes]] *)
Fixpoint draw_beliefs (sizes : list nat) : M (list (list Q)) :=
  match sizes with
  | [] => ret []
  | size :: rest =>
      b <- external (dirichlet (np_ones size)) ;;
      bs <- draw_beliefs rest ;;
      ret (b :: bs)
  end.

(** [for i, player in enumerate(self.players):
      player.current_belief[:] = init_beliefs[i]] *)
Definition assign_beliefs (init_beliefs : list (list Q)) : M unit :=
  for_players (fun i =>
    v <- or_raise (init_beliefs !! i) IndexError ;;
    player <- get_player i ;;
    b <- or_raise (broadcast_to (length (current_belief player)) v) BroadcastError ;;
    set_belief i b).

Definition set_init_beliefs (init_beliefs : option (list (list Q))) : M unit :=
  init <- match init_beliefs with
          | None => e <- get_engine ;; draw_beliefs (belief_sizes e)
          | Some given => ret given
          end ;;
  assign_beliefs init.

(** [for i, player in enumerate(self.players):
      self.current_actions[i] = player.best_response(player.current_belief)];
    the answer is stored as it is, see [play_int64] for the width of the
    array. *)
Definition play : M unit :=
  for_players (fun i =>
    player <- get_player i ;;
    a <- external (best_response player (current_belief player)) ;;
    e <- get_engine ;;
    if (i <? length (current_actions e))%nat
    then put_engine (with_actions (<[i := a]> (current_actions e)) e)
    else raise IndexError).

(** [play] with the width of the action array taken into account:
    [current_actions] holds 64-bit integers, and the assignment of an
    answer outside their range raises OverflowError and writes nothing.
    The properties of runs are stated with [play], where the answers are
    indices of a belief; [play_sets_actions_only] relates the two. *)
Definition play_int64 : M unit :=
  for_players (fun i =>
    player <- get_player i ;;
    a <- external (best_response player (current_belief player)) ;;
    e <- get_engine ;;
    if (i <? length (current_actions e))%nat
    then if int64_fitsb a
         then put_engine (with_actions (<[i := a]> (current_actions e)) e)
         else raise OverflowError
    else raise IndexError).

Definition update_beliefs (step : Q) : M unit :=
  for_players (fun i =>
    player <- get_player i ;;
    set_belief i (scale (1 - step) (current_belief player)) ;;;
    e <- get_engine ;;
    k <- or_raise (py_index (length (current_actions e)) (1 - Z.of_nat i)) IndexError ;;
    a <- or_raise (current_actions e !! k) IndexError ;;
    player <- get_player i ;;
    j <- or_raise (py_index (length (current_belief player)) a) IndexError ;;
    set_belief i (add_at j step (current_belief player))).

(** What the loop body of [simulate_iter] does after its [yield]:
    [self.play(); self.update_beliefs(self.step_size(t))]. *)
Definition round (t : nat) : M unit :=
  play ;;;
  e <- get_engine ;;
  update_beliefs (step_size e t).

(** *** The generator behind [simulate_iter]

    Calling [simulate_iter] runs nothing; each [next] runs the body up to
    the next [yield].  [GenSuspended t n] is the generator stopped at the
    [yield] of iteration [t] of [range(n)]. *)
Inductive generator : Type :=
| GenCreated (ts_length : nat) (init_beliefs : option (list (list Q)))
| GenSuspended (t ts_length : nat)
| GenFinished.

Definition simulate_iter (ts_length : nat) (init_beliefs : option (list (list Q))) : generator :=
  GenCreated ts_length init_beliefs.

(** Top of [for t in range(ts_length)]: yield or stop. *)
Definition loop_head (t ts_length : nat) : M (option (list ref) * generator) :=
  if (t <? ts_length)%nat
  then e <- get_engine ;; ret (Some (current_beliefs e), GenSuspended t ts_length)
  else ret (None, GenFinished).

(** [next(gen)]: [None] stands for StopIteration. *)
Definition gen_next (gen : generator) : M (option (list ref) * generator) :=
  match gen with
  | GenCreated ts_length init_beliefs =>
      set_init_beliefs init_beliefs ;;; loop_head 0 ts_length
  | GenSuspended t ts_length =>
      round t ;;; loop_head (S t) ts_length
  | GenFinished => ret (None, GenFinished)
  end.

(** The arrays behind a yielded tuple, as they are at state [e]. *)
Definition read (e : FictitiousPlay) (refs : list ref) : list (list Q) :=
  omap (deref e) refs.

(** The sequence a consumer sees when it reads every yielded tuple as soon
    as it gets it and pulls until the generator stops. *)
Fixpoint gen_values (fuel : nat) (gen : generator) : M (list (list (list Q))) :=
  match fuel with
  | O => diverge
  | S fuel' =>
      r <- gen_next gen ;;
      match r with
      | (None, _) => ret []
      | (Some beliefs, gen') =>
          e <- get_engine ;;
          rest <- gen_values fuel' gen' ;;
          ret (read e beliefs :: rest)
      end
  end.

(** The sequence a consumer holds when it keeps the yielded tuples
    themselves, as [list(gen)] does.  The tuples are the players' arrays,
    not copies of them: what an element shows depends on the state of the
    engine at the time it is read. *)
Fixpoint gen_tuples (fuel : nat) (gen : generator) : M (list (list ref)) :=
  match fuel with
  | O => diverge
  | S fuel' =>
      r <- gen_next gen ;;
      match r with
      | (None, _) => ret []
      | (Some beliefs, gen') =>
          rest <- gen_tuples fuel' gen' ;;
          ret (beliefs :: rest)
      end
  end.

(** [k] successive rounds, the first with schedule index [t]. *)
Fixpoint rounds (k t : nat) : M unit :=
  match k with
  | O => ret tt
  | S k' => round t ;;; rounds k' (S t)
  end.

(** [buf[t] = v] for a two-dimensional buffer. *)
Definition set_row (t : nat) (v : list Q) (buf : list (list Q)) : outcome (list (list Q)) :=
  match buf !! t with
  | None => Exc IndexError
  | Some row =>
      match broadcast_to (length row) v with
      | None => Exc BroadcastError
      | Some v' => Val (<[t := v']> buf)
      end
  end.

(** [for i, belief in enumerate(beliefs): belief_sequences[i][t] = belief],
    with [i] starting at [i0]; [beliefs] are the contents of the yielded
    arrays at the time of the assignment. *)
Fixpoint store_rows (t i0 : nat) (beliefs : list (list Q))
    (bufs : list (list (list Q))) : outcome (list (list (list Q))) :=
  match beliefs with
  | [] => Val bufs
  | belief :: rest =>
      match bufs !! i0 with
      | Some buf =>
          match set_row t belief buf with
          | Val buf' => store_rows t (S i0) rest (<[i0 := buf']> bufs)
          | Exc x => Exc x
          | Diverge => Diverge
          end
      | None => Exc IndexError
      end
  end.

Definition of_outcome {A} (o : outcome A) : M A := fun w e => (o, w, e).

(** [for t, beliefs in enumerate(beliefs_iter): ...] of [simulate] *)
Fixpoint simulate_loop (fuel : nat) (gen : generator) (t : nat)
    (bufs : list (list (list Q))) : M (list (list (list Q))) :=
  match fuel with
  | O => diverge
  | S fuel' =>
      r <- gen_next gen ;;
      match r with
      | (None, _) => ret bufs
      | (Some beliefs, gen') =>
          e <- get_engine ;;
          bufs' <- of_outcome (store_rows t 0 (read e beliefs) bufs) ;;
          simulate_loop fuel' gen' (S t) bufs'
      end
  end.

Definition simulate (ts_length : nat) (init_beliefs : option (list (list Q)))
    : M (list (list (list Q))) :=
  e <- get_engine ;;
  simulate_loop (S ts_length) (simulate_iter ts_length init_beliefs) 0
    ((fun belief_size => np_empty2 ts_length belief_size) <$> belief_sizes e).

(** Stacking a sequence of belief tuples into the buffers, row [t] first:
    what [simulate] is meant to compute from the sequence of
    [simulate_iter]. *)
Fixpoint stack_from (t : nat) (vs : list (list (list Q)))
    (bufs : list (list (list Q))) : outcome (list (list (list Q))) :=
  match vs with
  | [] => Val bufs
  | beliefs :: vs' =>
      match store_rows t 0 beliefs bufs with
      | Val bufs' => stack_from (S t) vs' bufs'
      | other => other
      end
  end.

(** [simulate] as the specification words it: exhaust [simulate_iter],
    then stack what it produced. *)
Definition simulate_spec (ts_length : nat) (init_beliefs : option (list (list Q)))
    : M (list (list (list Q))) :=
  e <- get_engine ;;
  vs <- gen_values (S ts_length) (simulate_iter ts_length init_beliefs) ;;
  of_outcome (stack_from 0 vs
    ((fun belief_size => np_empty2 ts_length belief_size) <$> belief_sizes e)).

(** [for beliefs in beliefs_iter: x = beliefs] of [replicate]; [x] is the
    local variable, unbound as long as it is [None]. *)
Fixpoint exhaust (fuel : nat) (gen : generator) (x : option (list ref))
    : M (option (list ref)) :=
  match fuel with
  | O => diverge
  | S fuel' =>
      r <- gen_next gen ;;
      match r with
      | (None, _) => ret x
      | (Some beliefs, gen') => exhaust fuel' gen' (Some beliefs)
      end
  end.

(** [for belief_array, belief in zip(out, x): belief_array[j] = belief];
    [x] are the contents of the arrays at the time of the assignment. *)
Fixpoint store_final (j : nat) (out : list (list (list Q)))
    (x : list (list Q)) : outcome (list (list (list Q))) :=
  match out, x with
  | belief_array :: out', belief :: x' =>
      match set_row j belief belief_array with
      | Val arr' =>
          match store_final j out' x' with
          | Val rest => Val (arr' :: rest)
          | other => other
          end
      | Exc err => Exc err
      | Diverge => Diverge
      end
  | _, _ => Val out
  end.

(** [for j in range(j, j + k): ...] of [replicate] *)
Fixpoint replicate_loop (k j T : nat) (init_beliefs : option (list (list Q)))
    (x : option (list ref)) (out : list (list (list Q))) : M (list (list (list Q))) :=
  match k with
  | O => ret out
  | S k' =>
      x' <- exhaust (S (S T)) (simulate_iter (T + 1) init_beliefs) x ;;
      refs <- or_raise x' NameError ;;
      e <- get_engine ;;
      out' <- of_outcome (store_final j out (read e refs)) ;;
      replicate_loop k' (S j) T init_beliefs x' out'
  end.

Definition replicate (T num_reps : nat) (init_beliefs : option (list (list Q)))
    : M (list (list (list Q))) :=
  e <- get_engine ;;
  replicate_loop num_reps 0 T init_beliefs None
    ((fun belief_size => np_empty2 num_reps belief_size) <$> belief_sizes e).

(** *** Construction, [__init__] *)

(** The argument [data]: a game object or something array-like. *)
Inductive game_data : Type :=
| DataGame (game : NormalFormGame)
| DataArray (payoffs : ndarray).

(** The first half of [__init__]: the game the engine will hold. *)
Definition resolve_game (data : game_data) : exn + NormalFormGame :=
  match data with
  | DataGame game =>
      if (g_N game =? 2)%nat then inr game
      else inl (ValueError "input game must be a two-player game")
  | DataArray payoffs =>
      if existsb (Nat.eqb (ndim payoffs)) [2%nat; 3%nat]
      then match NormalFormGame_new payoffs with
           | inl msg => inl (ExternalError msg)
           | inr game => inr game
           end
      else inl (ValueError "input data must be a square matrix or a bimatrix")
  end.

(** [tuple(self.g.nums_actions[1-i] for i in range(self.N))] *)
Definition opponent_sizes (game : NormalFormGame) : option (list nat) :=
  mapM (fun i : nat =>
          k ← py_index (length (nums_actions game)) (1 - Z.of_nat i);
          nums_actions game !! k)
       (seq 0 (g_N game)).

(** [for player, belief_size in zip(...): player.current_belief = np.empty(belief_size)].
    A player beyond the end of [sizes] gets no array; [set_init_beliefs]
    fails on [init_beliefs[i]] before it would touch that player's belief,
    so that player's belief is never read and is left empty here. *)
Fixpoint attach_beliefs (ps : list GamePlayer) (sizes : list nat) : list Player :=
  match ps with
  | [] => []
  | p :: ps' =>
      {| best_response := gp_best_response p;
         current_belief := np_empty (hd 0%nat sizes) |}
      :: attach_beliefs ps' (tl sizes)
  end.

Definition init (data : game_data) (w : World) : outcome FictitiousPlay * World :=
  match resolve_game data with
  | inl x => (Exc x, w)
  | inr game =>
      match opponent_sizes game with
      | None => (Exc IndexError, w)
      | Some sizes =>
          let e0 := {| g := game; N := g_N game;
                       players := attach_beliefs (g_players game) sizes;
                       belief_sizes := sizes;
                       current_actions := [];
                       step_size := default_step_size |} in
          match set_init_beliefs None w e0 with
          | (Val _, w', e1) => (Val (with_actions (np_zeros_int (N e1)) e1), w')
          | (Exc x, w', _) => (Exc x, w')
          | (Diverge, w', _) => (Diverge, w')
          end
      end
  end.

End Engine.

Arguments GamePlayer World : clear implicits.
Arguments NormalFormGame World : clear implicits.
Arguments Player World : clear implicits.
Arguments FictitiousPlay World : clear implicits.
Arguments game_data World : clear implicits.
Arguments M World A : clear implicits.

Arguments bind {World A B} m k w e /.
Arguments ret {World A} a w e /.
Arguments raise {World A} x w e /.
Arguments diverge {World A} w e /.
Arguments get_engine {World} w e /.
Arguments put_engine {World} e' w e /.
Arguments external {World A} f w e /.
Arguments of_outcome {World A} o w e /.
Arguments or_raise {World A} !o x w e /.
Arguments get_player {World} i w e /.
Arguments set_belief {World} i b w e /.
Arguments play : simpl never.
Arguments play_int64 : simpl never.
Arguments update_beliefs : simpl never.
Arguments set_init_beliefs : simpl never.
Arguments assign_beliefs : simpl never.
Arguments round : simpl never.
Arguments loop_head : simpl never.
Arguments gen_next : simpl never.



(** ** Conditions under which the properties are stated *)

(** The [best_response] of [p] only returns indices that numpy accepts for
    an array of length [n]. *)
Definition valid_response {World : Type} (p : Player World) (n : nat) : Prop :=
  forall (b : list Q) (w : World), is_Some (py_index n (best_response p b w).1).

(** An engine as construction leaves it and every method keeps it: two
    players, two actions, beliefs of the sizes recorded in [belief_sizes],
    and best responses that index the opponent's belief. *)
Definition two_player_state {World : Type} (l0 l1 : nat) (e : FictitiousPlay World) : Prop :=
  exists (p0 p1 : Player World) (a0 a1 : Z),
    players e = [p0; p1] /\ current_actions e = [a0; a1] /\
    length (current_belief p0) = l0 /\ length (current_belief p1) = l1 /\
    belief_sizes e = [l0; l1] /\
    valid_response p0 l1 /\ valid_response p1 l0.

(** What no method but [play] touches besides the beliefs. *)
Definition same_frame {World : Type} (e e' : FictitiousPlay World) : Prop :=
  g e' = g e /\ N e' = N e /\ belief_sizes e' = belief_sizes e /\
  current_actions e' = current_actions e /\ step_size e' = step_size e.

(** Outcomes that are not the engine's own [ValueError]. *)
Definition not_value_error {A : Type} (o : outcome A) : Prop :=
  forall msg, o <> Exc (ValueError msg).

(** A best response whose answer does not depend on the random state. *)
Definition deterministic {World : Type} (f : list Q -> World -> Z * World) : Prop :=
  forall (b : list Q) (w w' : World), (f b w).1 = (f b w').1.

(** The same game, schedule and best responses; beliefs and actions may
    differ. *)
Definition same_game {World : Type} (e e' : FictitiousPlay World) : Prop :=
  g e' = g e /\ N e' = N e /\ belief_sizes e' = belief_sizes e /\
  step_size e' = step_size e /\
  best_response <$> players e' = best_response <$> players e.

(** How many entries of [js] are [i]. *)
Fixpoint hits (i : nat) (js : list nat) : Q :=
  match js with
  | [] => 0
  | j :: js' => (if (j =? i)%nat then 1 else 0) + hits i js'
  end.

(** The indices at which the belief of player [who] is raised in rounds
    [t], ..., [t + k - 1] from world [w] and engine [e]: the opponent's
    action of each round, as numpy reads it as an index. *)
Fixpoint raised {World : Type} (who k t : nat) (w : World) (e : FictitiousPlay World)
    : list nat :=
  match k with
  | O => []
  | S k' =>
      match round t w e with
      | (Val _, w', e') =>
          match players e !! who, current_actions e' !! (1 - who)%nat with
          | Some p, Some a =>
              match py_index (length (current_belief p)) a with
              | Some j => j :: raised who k' (S t) w' e'
              | None => []
              end
          | _, _ => []
          end
      | _ => []
      end
  end.

(** A buffer of shape [(n, l)]. *)
Definition buffer_shape (n l : nat) (buf : list (list Q)) : Prop :=
  length buf = n /\ Forall (fun row => length row = l) buf.

(** A tuple of two beliefs of lengths [l0] and [l1]. *)
Definition belief_pair (l0 l1 : nat) (v : list (list Q)) : Prop :=
  exists b0 b1, v = [b0; b1] /\ length b0 = l0 /\ length b1 = l1.

(** Consecutive states of a run: every state is the one before it taken
    through [play()] and then [update_beliefs(step_size(t))], with round
    index [t0] for the first step, [t0 + 1] for the next, and so on. *)
Definition play_update_chain {World : Type} (t0 : nat)
    (states : list (World * FictitiousPlay World)) : Prop :=
  forall (i : nat) (wt wt' : World) (et et' : FictitiousPlay World),
    states !! i = Some (wt, et) -> states !! S i = Some (wt', et') ->
    exists (wp : World) (ep : FictitiousPlay World),
      play wt et = (Val tt, wp, ep) /\
      update_beliefs (step_size ep (t0 + i)) wp ep = (Val tt, wt', et').

(** What seeding a two-player engine with [init_beliefs] in world [w]
    leaves: each belief is the vector given for its player, or the vector
    drawn for it (player 0 first, with as many ones as the belief is long),
    broadcast to the length of the belief. *)
Definition seeded {World : Type} (dirichlet : list Q -> World -> list Q * World)
    (init_beliefs : option (list (list Q))) (l0 l1 : nat)
    (w w0 : World) (e0 : FictitiousPlay World) : Prop :=
  exists (v0 v1 c0 c1 : list Q),
    match init_beliefs with
    | Some given => given !! 0%nat = Some v0 /\ given !! 1%nat = Some v1 /\ w0 = w
    | None =>
        v0 = (dirichlet (np_ones l0) w).1 /\
        v1 = (dirichlet (np_ones l1) (dirichlet (np_ones l0) w).2).1 /\
        w0 = (dirichlet (np_ones l1) (dirichlet (np_ones l0) w).2).2
    end /\
    broadcast_to l0 v0 = Some c0 /\ broadcast_to l1 v1 = Some c1 /\
    belief_values e0 = [c0; c1].

(** The values an entry of [current_actions] can hold: the array is made
    by [np.zeros(self.N, dtype=int)], 64-bit integers. *)
Definition int64_fits (a : Z) : Prop := (- 2 ^ 63 <= a < 2 ^ 63)%Z.

(** The exceptions construction can end with once the engine's own
    validation has passed and the game object is there. *)
Definition indexing_failure (x : exn) : Prop := x = IndexError \/ x = BroadcastError.

(** ** A small game for the examples

    Two actions each; player 0 always answers 0 and player 1 always
    answers 1.  The world is trivial and the Dirichlet draw is replaced by
    the uniform vector. *)
Definition constant_response (a : Z) : list Q -> unit -> Z * unit := fun _ w => (a, w).

Definition example_game : NormalFormGame unit :=
  {| g_N := 2;
     g_players := [ {| gp_best_response := constant_response 0 |};
                    {| gp_best_response := constant_response 1 |} ];
     nums_actions := [2%nat; 2%nat] |}.

Definition uniform_dirichlet (alpha : list Q) (w : unit) : list Q * unit :=
  ((fun _ => 1 / inject_Z (Z.of_nat (length alpha))) <$> alpha, w).

(** A stand-in for the game constructor: square matrices and bimatrices
    of shape (2, n, m) are accepted, everything else is refused. *)
Definition toy_NormalFormGame_new (payoffs : ndarray) : string + NormalFormGame unit :=
  match shape payoffs with
  | [n; m] =>
      if (n =? m)%nat
      then inr {| g_N := 2;
                  g_players := [ {| gp_best_response := constant_response 0 |};
                                 {| gp_best_response := constant_response 0 |} ];
                  nums_actions := [n; n] |}
      else inl "a symmetric two-player game needs a square matrix"%string
  | [2%nat; n; m] =>
      inr {| g_N := 2;
             g_players := [ {| gp_best_response := constant_response 0 |};
                            {| gp_best_response := constant_response 0 |} ];
             nums_actions := [n; m] |}
  | _ => inl "unsupported payoff array"%string
  end.

(** A second stand-in, for arrays with a single column.  The constructor
    of game_tools takes a matrix for the payoffs of a symmetric two-player
    game only when it has at least two columns; an array of shape (n, 1)
    is a payoff array whose last axis holds one payoff per player, that is
    a game of one player with [n] actions.  Other arrays go the way of
    [toy_NormalFormGame_new]. *)
Definition column_NormalFormGame_new (payoffs : ndarray) : string + NormalFormGame unit :=
  match shape payoffs with
  | [n; 1%nat] =>
      inr {| g_N := 1;
             g_players := [ {| gp_best_response := constant_response 0 |} ];
             nums_actions := [n] |}
  | _ => toy_NormalFormGame_new payoffs
  end.

Definition example_player (a : Z) (b : list Q) : Player unit :=
  {| best_response := constant_response a; current_belief := b |}.

(** The engine of [example_game] with beliefs [b0], [b1]. *)
Definition example_engine (b0 b1 : list Q) : FictitiousPlay unit :=
  {| g := example_game; N := 2;
     players := [example_player 0 b0; example_player 1 b1];
     belief_sizes := [2%nat; 2%nat];
     current_actions := [0%Z; 0%Z];
     step_size := default_step_size |}.

(** * Properties *)

(** ** Indexing and vectors *)

Lemma py_index_nonneg (n : nat) (k : Z) :
  (0 <= k < Z.of_nat n)%Z -> py_index n k = Some (Z.to_nat k).
Proof.
  intros [H0 H1]. unfold py_index.
  destruct (Z.leb_spec 0 k); [|lia].
  destruct (Z.ltb_spec k (Z.of_nat n)); [reflexivity|lia].
Qed.

Lemma py_index_lt (n : nat) (k : Z) (j : nat) :
  py_index n k = Some j -> (j < n)%nat.
Proof.
  unfold py_index.
  destruct (Z.leb_spec 0 k), (Z.ltb_spec k (Z.of_nat n)); simpl;
    try (intros [= <-]; lia).
  all: destruct (Z.leb_spec (- Z.of_nat n) k), (Z.ltb_spec k 0); simpl;
    try discriminate; intros [= <-]; lia.
Qed.

Lemma length_scale (c : Q) (b : list Q) : length (scale c b) = length b.
Proof. unfold scale. apply length_fmap. Qed.

Lemma length_updated (s : Q) (b : list Q) (j : nat) : length (updated s b j) = length b.
Proof. unfold updated, add_at. rewrite length_alter. apply length_scale. Qed.

Lemma vec_eq_refl (b : list Q) : vec_eq b b.
Proof. induction b; constructor; [reflexivity|assumption]. Qed.

(** Scaling then adding [s] at [j] is the convex combination with the
    point mass on [j]; [st] is the index of the head of [b]. *)
Lemma updated_convex_from (s : Q) (b : list Q) :
  forall (j st : nat),
    vec_eq (alter (fun x => x + s) j (scale (1 - s) b))
           (zip_with (fun x y => (1 - s) * x + s * y) b
              ((fun k => if (k =? st + j)%nat then 1 else 0) <$> seq st (length b))).
Proof.
  induction b as [|x b IH]; intros j st; simpl.
  - constructor.
  - destruct j as [|j]; simpl.
    + rewrite Nat.add_0_r, Nat.eqb_refl. constructor; [ring|].
      clear IH. generalize (Nat.lt_succ_diag_r st). generalize (S st) as m.
      induction b as [|y b IH]; intros m Hm; simpl; constructor.
      * destruct (Nat.eqb_spec m st); [lia|]. ring.
      * apply IH. lia.
    + destruct (Nat.eqb_spec st (st + S j)); [lia|]. constructor; [ring|].
      replace (st + S j)%nat with (S st + j)%nat by lia. apply IH.
Qed.

Lemma updated_convex (s : Q) (b : list Q) (j : nat) :
  vec_eq (updated s b j) (convex s b (onehot (length b) j)).
Proof. apply (updated_convex_from s b j 0). Qed.

Lemma sumQ_cons (x : Q) (b : list Q) : sumQ (x :: b) = x + sumQ b.
Proof. reflexivity. Qed.

Lemma sumQ_scale (c : Q) (b : list Q) : sumQ (scale c b) == sumQ b * c.
Proof.
  induction b as [|x b IH]; [unfold sumQ; simpl; ring|].
  change (scale c (x :: b)) with (x * c :: scale c b).
  rewrite !sumQ_cons, IH. ring.
Qed.

Lemma sumQ_add_at (s : Q) (b : list Q) :
  forall j : nat, (j < length b)%nat -> sumQ (add_at j s b) == sumQ b + s.
Proof.
  induction b as [|x b IH]; intros j Hj; simpl in *; [lia|].
  destruct j as [|j].
  - change (add_at 0 s (x :: b)) with ((x + s) :: b). rewrite !sumQ_cons. ring.
  - change (add_at (S j) s (x :: b)) with (x :: add_at j s b).
    rewrite !sumQ_cons, IH by lia. ring.
Qed.

Lemma nonneg_scale (c : Q) (b : list Q) :
  0 <= c -> Forall (fun x => 0 <= x) b -> Forall (fun x => 0 <= x) (scale c b).
Proof.
  intros Hc Hb. unfold scale. induction Hb; simpl; constructor; [|assumption].
  apply Qmult_le_0_compat; assumption.
Qed.

Lemma nonneg_add_at (s : Q) (b : list Q) (j : nat) :
  0 <= s -> Forall (fun x => 0 <= x) b -> Forall (fun x => 0 <= x) (add_at j s b).
Proof.
  intros Hs Hb. revert j. unfold add_at.
  induction Hb as [|x b Hx Hb IH]; intros [|j]; simpl; constructor; auto.
  - lra.
  - apply IH.
Qed.

(** One update keeps a probability vector a probability vector. *)
Lemma updated_distribution (s : Q) (b : list Q) (j : nat) :
  0 <= s <= 1 -> (j < length b)%nat ->
  is_distribution b -> is_distribution (updated s b j).
Proof.
  intros [Hs0 Hs1] Hj [Hnn Hsum]. unfold updated. split.
  - apply nonneg_add_at; [assumption|]. apply nonneg_scale; [lra|assumption].
  - rewrite sumQ_add_at by (rewrite length_scale; assumption).
    rewrite sumQ_scale, Hsum. ring.
Qed.

(** One update leaves a vector as it is exactly when the step is zero or
    the vector is already the point mass it is pulled towards. *)
Lemma convex_fixed_iff (s : Q) (b o : list Q) :
  length b = length o ->
  vec_eq (convex s b o) b <-> (s == 0 \/ vec_eq b o).
Proof.
  intros Hlen. unfold convex, vec_eq. split.
  - intros H. destruct (Qeq_dec s 0) as [Hs|Hs]; [left; assumption|right].
    revert o Hlen H. induction b as [|x b IH]; intros [|y o] Hlen H;
      simpl in *; try discriminate; [constructor|].
    inversion H as [|? ? ? ? Hxy Hrest]; subst. constructor.
    + assert (Hz : s * (y - x) == 0) by lra.
      apply Qmult_integral in Hz. destruct Hz as [Hz|Hz]; [contradiction|lra].
    + apply IH; [lia|assumption].
  - intros [Hs|H].
    + revert o Hlen. induction b as [|x b IH]; intros [|y o] Hlen; simpl in *;
        try discriminate; constructor; [rewrite Hs; ring|apply IH; lia].
    + induction H as [|x y b o Hxy H IH]; simpl; constructor.
      * rewrite Hxy. ring.
      * apply IH. simpl in Hlen. lia.
Qed.

Lemma vec_eq_trans (a b c : list Q) : vec_eq a b -> vec_eq b c -> vec_eq a c.
Proof.
  unfold vec_eq. intros H. revert c. induction H; intros c Hc; inversion Hc; subst;
    constructor; [etransitivity; eassumption|auto].
Qed.

Lemma vec_eq_sym (a b : list Q) : vec_eq a b -> vec_eq b a.
Proof. unfold vec_eq. induction 1; constructor; [symmetry|]; assumption. Qed.

Lemma length_onehot (n j : nat) : length (onehot n j) = n.
Proof. unfold onehot. rewrite length_fmap. apply length_seq. Qed.

Lemma updated_fixed_iff (s : Q) (b : list Q) (j : nat) :
  vec_eq (updated s b j) b <-> (s == 0 \/ vec_eq b (onehot (length b) j)).
Proof.
  rewrite <- convex_fixed_iff by (rewrite length_onehot; reflexivity).
  split; intros H.
  - eapply vec_eq_trans; [apply vec_eq_sym, updated_convex|assumption].
  - eapply vec_eq_trans; [apply updated_convex|assumption].
Qed.

Lemma default_step_size_eq (t : nat) :
  default_step_size t = 1 * (1 # Z.to_pos (Z.of_nat t + 2)).
Proof.
  unfold default_step_size, Qdiv, Qinv, inject_Z. simpl Qnum.
  destruct (Z.of_nat t + 2)%Z eqn:E; try lia. reflexivity.
Qed.

Lemma default_step_size_range (t : nat) :
  0 < default_step_size t /\ default_step_size t <= 1#2.
Proof.
  rewrite default_step_size_eq. unfold Qlt, Qle. simpl. split; lia.
Qed.

(** ** Buffers *)

Lemma broadcast_to_length (n : nat) (v b : list Q) :
  broadcast_to n v = Some b -> length b = n.
Proof.
  unfold broadcast_to. destruct (Nat.eqb_spec (length v) n) as [Hn|Hn].
  - intros [= <-]. exact Hn.
  - destruct v as [|x [|y v]]; try discriminate. intros [= <-]. apply repeat_length.
Qed.

Lemma broadcast_to_same (v : list Q) : broadcast_to (length v) v = Some v.
Proof. unfold broadcast_to. rewrite Nat.eqb_refl. reflexivity. Qed.


Lemma np_empty2_shape (n l : nat) : buffer_shape n l (np_empty2 n l).
Proof.
  unfold buffer_shape, np_empty2, np_empty. split; [apply repeat_length|].
  apply Forall_forall. intros row Hin. apply list_elem_of_In in Hin.
  apply repeat_spec in Hin. subst row. apply repeat_length.
Qed.

Lemma set_row_shape (n l t : nat) (v : list Q) (buf : list (list Q)) :
  buffer_shape n l buf -> (t < n)%nat -> length v = l ->
  set_row t v buf = Val (<[t := v]> buf) /\ buffer_shape n l (<[t := v]> buf).
Proof.
  intros [Hlen Hrows] Ht Hv. subst l. unfold set_row.
  destruct (lookup_lt_is_Some_2 buf t ltac:(lia)) as [row Hrow]. rewrite Hrow.
  assert (Hl : length row = length v).
  { exact (Forall_lookup_1 _ _ t row Hrows Hrow). }
  rewrite Hl, broadcast_to_same. split; [reflexivity|].
  split; [rewrite length_insert; exact Hlen|].
  apply Forall_insert; [assumption|reflexivity].
Qed.

(** Stacking pairs of beliefs into two buffers of the right shapes fills
    rows [t], [t+1], ... and touches nothing below [t]. *)
Lemma stack_from_two (n l0 l1 : nat) (vs : list (list (list Q))) :
  forall (t : nat) (buf0 buf1 : list (list Q)),
    Forall (belief_pair l0 l1) vs ->
    (t + length vs <= n)%nat ->
    buffer_shape n l0 buf0 -> buffer_shape n l1 buf1 ->
    exists buf0' buf1',
      stack_from t vs [buf0; buf1] = Val [buf0'; buf1'] /\
      buffer_shape n l0 buf0' /\ buffer_shape n l1 buf1' /\
      (forall i v, vs !! i = Some v ->
         buf0' !! (t + i)%nat = v !! 0%nat /\ buf1' !! (t + i)%nat = v !! 1%nat) /\
      (forall t', (t' < t)%nat ->
         buf0' !! t' = buf0 !! t' /\ buf1' !! t' = buf1 !! t').
Proof.
  induction vs as [|v vs IH]; intros t buf0 buf1 Hvs Hn Hb0 Hb1.
  - exists buf0, buf1. split; [reflexivity|]. split; [assumption|]. split; [assumption|].
    split; [intros i v Hv; discriminate|intros t' _; split; reflexivity].
  - inversion Hvs as [|? ? (b0 & b1 & -> & Hl0 & Hl1) Hvs']; subst. cbn in Hn.
    destruct (set_row_shape n _ t b0 buf0 Hb0 ltac:(lia) eq_refl) as [Hs0 Hb0'].
    destruct (set_row_shape n _ t b1 buf1 Hb1 ltac:(lia) eq_refl) as [Hs1 Hb1'].
    destruct (IH (S t) _ _ Hvs' ltac:(lia) Hb0' Hb1')
      as (buf0' & buf1' & Hst & Hs0' & Hs1' & Hnew & Hold).
    exists buf0', buf1'. split; [|split; [assumption|split; [assumption|split]]].
    + cbn. rewrite Hs0. cbn. rewrite Hs1. cbn. exact Hst.
    + intros [|i] w Hw.
      * cbn in Hw. injection Hw as <-. rewrite Nat.add_0_r.
        destruct (Hold t ltac:(lia)) as [-> ->].
        destruct Hb0 as [Hlen0 _], Hb1 as [Hlen1 _].
        rewrite !list_lookup_insert_eq by lia. split; reflexivity.
      * cbn in Hw. replace (t + S i)%nat with (S t + i)%nat by lia.
        apply Hnew. exact Hw.
    + intros t' Ht'. destruct (Hold t' ltac:(lia)) as [-> ->].
      rewrite !list_lookup_insert_ne by lia. split; reflexivity.
Qed.

Lemma default_step_size_frac (t : nat) :
  default_step_size t == 1 # Pos.of_succ_nat (S t).
Proof.
  rewrite default_step_size_eq. unfold Qeq, Qmult. cbn [Qnum Qden].
  rewrite Pos.mul_1_l, Z2Pos.id, Zpos_P_of_succ_nat by lia. lia.
Qed.

Lemma default_step_size_decreasing (t : nat) :
  default_step_size (S t) < default_step_size t.
Proof.
  rewrite !default_step_size_frac. unfold Qlt. cbn [Qnum Qden].
  rewrite !Zpos_P_of_succ_nat. lia.
Qed.

Lemma default_step_size_vanishes (eps : Q) :
  0 < eps -> exists T : nat, forall t, (T <= t)%nat -> default_step_size t < eps.
Proof.
  destruct eps as [p q]. intros Hp. unfold Qlt in Hp. cbn [Qnum Qden] in Hp.
  exists (Pos.to_nat q). intros t Ht.
  rewrite default_step_size_frac. unfold Qlt. cbn [Qnum Qden].
  rewrite Zpos_P_of_succ_nat. nia.
Qed.

Section Props.

Context {World : Type}.
Variable dirichlet : list Q -> World -> list Q * World.
Variable NormalFormGame_new : ndarray -> string + NormalFormGame World.

Implicit Types (e : FictitiousPlay World) (w : World) (p : Player World).

(** ** One call of [update_beliefs] and of [play] on a two-player engine *)

Lemma update_beliefs_two (s : Q) w e p0 p1 (a0 a1 : Z) (j0 j1 : nat) :
  players e = [p0; p1] ->
  current_actions e = [a0; a1] ->
  py_index (length (current_belief p0)) a1 = Some j0 ->
  py_index (length (current_belief p1)) a0 = Some j1 ->
  update_beliefs s w e =
    (Val tt, w,
     with_players [with_belief (updated s (current_belief p0) j0) p0;
                   with_belief (updated s (current_belief p1) j1) p1] e).
Proof.
  intros Hp Ha H0 H1. destruct e as [g0 n0 ps sizes acts st]. simpl in *. subst ps acts.
  unfold update_beliefs, for_players. cbn.
  change (py_index 2 (1 - Z.of_nat 0)) with (Some 1%nat). cbn.
  rewrite length_scale, H0. cbn.
  change (py_index 2 (1 - Z.of_nat 1)) with (Some 0%nat). cbn.
  rewrite length_scale, H1. cbn.
  reflexivity.
Qed.

Lemma play_two w e p0 p1 (a0 a1 : Z) :
  players e = [p0; p1] ->
  current_actions e = [a0; a1] ->
  play w e =
    (Val tt,
     (best_response p1 (current_belief p1) (best_response p0 (current_belief p0) w).2).2,
     with_actions
       [(best_response p0 (current_belief p0) w).1;
        (best_response p1 (current_belief p1) (best_response p0 (current_belief p0) w).2).1]
       e).
Proof.
  intros Hp Ha. destruct e as [g0 n0 ps sizes acts st]. simpl in *. subst ps acts.
  unfold play, for_players. cbn.
  destruct (best_response p0 (current_belief p0) w) as [b0 w1]. cbn.
  destruct (best_response p1 (current_belief p1) w1) as [b1 w2]. cbn.
  reflexivity.
Qed.

(** One round on a two-player engine: it raises nothing, and leaves each
    belief updated at the index of the opponent's fresh action. *)
Lemma round_two (t : nat) w e (l0 l1 : nat) :
  two_player_state l0 l1 e ->
  exists p0 p1 (a0 a1 : Z) (j0 j1 : nat) w',
    players e = [p0; p1] /\
    length (current_belief p0) = l0 /\ length (current_belief p1) = l1 /\
    py_index l0 a1 = Some j0 /\ py_index l1 a0 = Some j1 /\
    round t w e =
      (Val tt, w',
       with_players
         [with_belief (updated (step_size e t) (current_belief p0) j0) p0;
          with_belief (updated (step_size e t) (current_belief p1) j1) p1]
         (with_actions [a0; a1] e)).
Proof.
  intros (p0 & p1 & a0 & a1 & Hp & Ha & H0 & H1 & Hs & Hv0 & Hv1).
  pose (r0 := best_response p0 (current_belief p0) w).
  pose (r1 := best_response p1 (current_belief p1) r0.2).
  destruct (Hv0 (current_belief p0) w) as [j1 Hj1].
  destruct (Hv1 (current_belief p1) r0.2) as [j0 Hj0].
  exists p0, p1, r0.1, r1.1, j0, j1, r1.2.
  repeat split; try assumption.
  unfold round, bind. rewrite (play_two w e p0 p1 a0 a1 Hp Ha). cbn.
  fold r0. fold r1.
  erewrite update_beliefs_two; [reflexivity| | |subst l0; exact Hj0|subst l1; exact Hj1].
  - destruct e; assumption.
  - reflexivity.
Qed.

Lemma round_two_state (t : nat) w e (l0 l1 : nat) :
  two_player_state l0 l1 e ->
  exists w' e',
    round t w e = (Val tt, w', e') /\ two_player_state l0 l1 e' /\
    step_size e' = step_size e.
Proof.
  intros Hwf. pose proof Hwf as (q0 & q1 & c0 & c1 & Hq & _ & _ & _ & Hs & Hv0 & Hv1).
  destruct (round_two t w e l0 l1 Hwf)
    as (p0 & p1 & a0 & a1 & j0 & j1 & w' & Hp & H0 & H1 & Hj0 & Hj1 & Hr).
  rewrite Hp in Hq. injection Hq as <- <-.
  eexists _, _. split; [exact Hr|]. split; [|destruct e; reflexivity].
  eexists _, _, a0, a1. repeat split; cbn; try reflexivity.
  - rewrite length_updated. assumption.
  - rewrite length_updated. assumption.
  - destruct e; assumption.
  - assumption.
  - assumption.
Qed.

Lemma rounds_two (k : nat) :
  forall (t : nat) w e (l0 l1 : nat),
    two_player_state l0 l1 e ->
    exists w' e',
      rounds k t w e = (Val tt, w', e') /\ two_player_state l0 l1 e' /\
      step_size e' = step_size e.
Proof.
  induction k as [|k IH]; intros t w e l0 l1 Hwf.
  - exists w, e. repeat split; [assumption].
  - destruct (round_two_state t w e l0 l1 Hwf) as (w1 & e1 & Hr & Hwf1 & Hs1).
    destruct (IH (S t) w1 e1 l0 l1 Hwf1) as (w' & e' & Hrs & Hwf' & Hs').
    exists w', e'. cbn. rewrite Hr. repeat split; [assumption..|congruence].
Qed.

(** [rounds] splits at its last round. *)
Lemma rounds_snoc (k : nat) :
  forall (t : nat) w e,
    rounds (S k) t w e =
      match rounds k t w e with
      | (Val _, w', e') => round (t + k) w' e'
      | other => other
      end.
Proof.
  induction k as [|k IH]; intros t w e.
  - cbn. rewrite Nat.add_0_r. destruct (round t w e) as [[[[]| |] w'] e']; reflexivity.
  - change (rounds (S (S k)) t w e) with (bind (round t) (fun _ => rounds (S k) (S t)) w e).
    change (rounds (S k) t w e) with (bind (round t) (fun _ => rounds k (S t)) w e).
    unfold bind. destruct (round t w e) as [[[[]| |] w1] e1]; try reflexivity.
    rewrite IH. replace (S t + k)%nat with (t + S k)%nat by lia. reflexivity.
Qed.

(** A round that raises nothing is [play()] followed by
    [update_beliefs(step_size(t))], the schedule being the one the engine
    holds when [play] has returned. *)
Lemma round_play_update (t : nat) w e w' e' :
  round t w e = (Val tt, w', e') ->
  exists wp ep,
    play w e = (Val tt, wp, ep) /\
    update_beliefs (step_size ep t) wp ep = (Val tt, w', e').
Proof.
  unfold round, bind. destruct (play w e) as [[[[]| |] wp] ep]; try discriminate.
  cbn. intros H. exists wp, ep. split; [reflexivity|exact H].
Qed.

(** The states a run of [k] rounds goes through, the first and the last
    included. *)
Lemma rounds_chain (k : nat) :
  forall (t : nat) w e w' e',
    rounds k t w e = (Val tt, w', e') ->
    exists states : list (World * FictitiousPlay World),
      length states = S k /\
      states !! 0%nat = Some (w, e) /\
      states !! k = Some (w', e') /\
      play_update_chain t states /\
      (forall i wi ei, states !! i = Some (wi, ei) ->
         rounds i t w e = (Val tt, wi, ei)).
Proof.
  induction k as [|k IH]; intros t w e w' e' Hr.
  - cbn in Hr. injection Hr as <- <-. exists [(w, e)].
    split; [reflexivity|]. split; [reflexivity|]. split; [reflexivity|]. split.
    + intros i wt wt' et et' _ H. destruct i; discriminate.
    + intros [|i] wi ei H; [|destruct i; discriminate].
      cbn in H. injection H as <- <-. reflexivity.
  - change (rounds (S k) t w e) with (bind (round t) (fun _ => rounds k (S t)) w e) in Hr.
    unfold bind in Hr. destruct (round t w e) as [[[[]| |] w1] e1] eqn:Hround; try discriminate.
    destruct (IH (S t) w1 e1 w' e' Hr) as (states & Hlen & Hfirst & Hlast & Hchain & Hrounds).
    exists ((w, e) :: states).
    split; [cbn; congruence|]. split; [reflexivity|]. split; [exact Hlast|]. split.
    + intros [|i] wt wt' et et' Hi HSi.
      * change (states !! 0%nat = Some (wt', et')) in HSi.
        cbn in Hi. injection Hi as <- <-. rewrite Hfirst in HSi. injection HSi as <- <-.
        rewrite Nat.add_0_r. apply round_play_update. exact Hround.
      * change (states !! i = Some (wt, et)) in Hi.
        change (states !! S i = Some (wt', et')) in HSi.
        replace (t + S i)%nat with (S t + i)%nat by lia.
        exact (Hchain i wt wt' et et' Hi HSi).
    + intros [|i] wi ei Hi.
      * cbn in Hi. injection Hi as <- <-. reflexivity.
      * change (states !! i = Some (wi, ei)) in Hi.
        change (rounds (S i) t w e) with (bind (round t) (fun _ => rounds i (S t)) w e).
        unfold bind. rewrite Hround. exact (Hrounds i wi ei Hi).
Qed.

(** ** Seeding the beliefs *)

Lemma assign_beliefs_two (init : list (list Q)) w e p0 p1 :
  players e = [p0; p1] ->
  assign_beliefs init w e =
    match init !! 0%nat with
    | None => (Exc IndexError, w, e)
    | Some v0 =>
        match broadcast_to (length (current_belief p0)) v0 with
        | None => (Exc BroadcastError, w, e)
        | Some b0 =>
            match init !! 1%nat with
            | None => (Exc IndexError, w, with_players [with_belief b0 p0; p1] e)
            | Some v1 =>
                match broadcast_to (length (current_belief p1)) v1 with
                | None => (Exc BroadcastError, w, with_players [with_belief b0 p0; p1] e)
                | Some b1 =>
                    (Val tt, w, with_players [with_belief b0 p0; with_belief b1 p1] e)
                end
            end
        end
    end.
Proof.
  intros Hp. destruct e as [g0 n0 ps sizes acts st]. simpl in *. subst ps.
  unfold assign_beliefs, for_players. cbn.
  destruct (init !! 0%nat) as [v0|]; cbn; [|reflexivity].
  destruct (broadcast_to (length (current_belief p0)) v0) as [b0|]; cbn; [|reflexivity].
  destruct (init !! 1%nat) as [v1|]; cbn; [|reflexivity].
  destruct (broadcast_to (length (current_belief p1)) v1) as [b1|]; cbn; reflexivity.
Qed.

Lemma draw_beliefs_val (sizes : list nat) :
  forall w e, exists bs w', draw_beliefs dirichlet sizes w e = (Val bs, w', e).
Proof.
  induction sizes as [|n sizes IH]; intros w e; cbn.
  - eexists _, _. reflexivity.
  - destruct (dirichlet (np_ones n) w) as [b w1]. cbn.
    destruct (IH w1 e) as (bs & w' & ->). cbn. eexists _, _. reflexivity.
Qed.

(** Whatever the argument, a seeding that raises nothing leaves a
    two-player engine a two-player engine with beliefs of the same sizes. *)
Lemma set_init_beliefs_two_state ib w e w0 e0 (l0 l1 : nat) :
  two_player_state l0 l1 e ->
  set_init_beliefs dirichlet ib w e = (Val tt, w0, e0) ->
  two_player_state l0 l1 e0 /\ step_size e0 = step_size e.
Proof.
  intros (p0 & p1 & a0 & a1 & Hp & Ha & H0 & H1 & Hs & Hv0 & Hv1) Hset.
  assert (Hassign : exists init w1, assign_beliefs init w1 e = (Val tt, w0, e0)).
  { unfold set_init_beliefs, bind in Hset. destruct ib as [given|].
    - cbn in Hset. eauto.
    - cbn in Hset. destruct (draw_beliefs_val (belief_sizes e) w e) as (bs & w1 & Hd).
      rewrite Hd in Hset. eauto. }
  destruct Hassign as (init & w1 & Hassign).
  rewrite (assign_beliefs_two init w1 e p0 p1 Hp) in Hassign.
  destruct (init !! 0%nat) as [v0|]; [|discriminate].
  destruct (broadcast_to _ v0) as [b0|] eqn:Hb0; [|discriminate].
  destruct (init !! 1%nat) as [v1|]; [|discriminate].
  destruct (broadcast_to _ v1) as [b1|] eqn:Hb1; [|discriminate].
  injection Hassign as <- <-.
  apply broadcast_to_length in Hb0, Hb1.
  split; [|destruct e; reflexivity].
  exists (with_belief b0 p0), (with_belief b1 p1), a0, a1.
  repeat split; cbn; try congruence; destruct e; assumption.
Qed.

(** A loop over the players keeps what its body keeps. *)
Lemma for_range_spec (P : FictitiousPlay World -> Prop) (Q : outcome unit -> Prop)
    (body : nat -> M World unit) :
  Q (Val tt) ->
  (forall i w e o w' e', P e -> body i w e = (o, w', e') -> P e' /\ Q o) ->
  forall (k start : nat) w e o w' e',
    P e -> for_range k start body w e = (o, w', e') -> P e' /\ Q o.
Proof.
  intros HQ Hbody. induction k as [|k IH]; intros start w e o w' e' HP Hrun.
  - cbn in Hrun. injection Hrun as <- <- <-. split; assumption.
  - cbn in Hrun. destruct (body start w e) as [[o1 w1] e1] eqn:Hb.
    destruct (Hbody start w e o1 w1 e1 HP Hb) as [HP1 HQ1].
    destruct o1 as [[]| |].
    + exact (IH (S start) w1 e1 o w' e' HP1 Hrun).
    + injection Hrun as <- <- <-. split; assumption.
    + injection Hrun as <- <- <-. split; assumption.
Qed.

(** Seeding changes nothing but beliefs and never raises the engine's
    [ValueError], whatever engine it runs on. *)
Lemma assign_beliefs_frame (init : list (list Q)) w e o w' e' :
  assign_beliefs init w e = (o, w', e') -> same_frame e e' /\ not_value_error o.
Proof.
  unfold assign_beliefs, for_players. cbn.
  apply (for_range_spec (same_frame e) not_value_error).
  - intros msg. discriminate.
  - clear. intros i w1 e1 o1 w2 e2 Hf Hb. cbn in Hb.
    destruct (init !! i) as [v|]; cbn in Hb;
      [|injection Hb as <- <- <-; split; [exact Hf|intros msg; discriminate]].
    destruct (players e1 !! i) as [p|]; cbn in Hb;
      [|injection Hb as <- <- <-; split; [exact Hf|intros msg; discriminate]].
    destruct (broadcast_to (length (current_belief p)) v) as [b|]; cbn in Hb;
      injection Hb as <- <- <-; (split; [|intros msg; discriminate]).
    + destruct Hf as (? & ? & ? & ? & ?). repeat split; cbn; assumption.
    + exact Hf.
  - repeat split.
Qed.

Lemma set_init_beliefs_frame ib w e o w' e' :
  set_init_beliefs dirichlet ib w e = (o, w', e') -> same_frame e e' /\ not_value_error o.
Proof.
  unfold set_init_beliefs, bind. destruct ib as [given|]; cbn.
  - apply assign_beliefs_frame.
  - destruct (draw_beliefs_val (belief_sizes e) w e) as (bs & w1 & ->).
    apply assign_beliefs_frame.
Qed.

(** A seeding that raises nothing has installed the vectors it was given,
    or the vectors it drew, broadcast to the lengths of the beliefs. *)
Lemma set_init_beliefs_seeded ib w e w0 e0 (l0 l1 : nat) :
  two_player_state l0 l1 e ->
  set_init_beliefs dirichlet ib w e = (Val tt, w0, e0) ->
  seeded dirichlet ib l0 l1 w w0 e0.
Proof.
  intros (p0 & p1 & a0 & a1 & Hp & Ha & H0 & H1 & Hs & _) Hset.
  unfold set_init_beliefs, bind in Hset. unfold seeded. destruct ib as [given|].
  - cbn in Hset. rewrite (assign_beliefs_two given w e p0 p1 Hp), H0, H1 in Hset.
    destruct (given !! 0%nat) as [v0|]; [|discriminate].
    destruct (broadcast_to l0 v0) as [c0|] eqn:Hb0; [|discriminate].
    destruct (given !! 1%nat) as [v1|]; [|discriminate].
    destruct (broadcast_to l1 v1) as [c1|] eqn:Hb1; [|discriminate].
    injection Hset as <- <-. exists v0, v1, c0, c1. repeat split; assumption.
  - cbn in Hset. rewrite Hs in Hset. cbn in Hset.
    destruct (dirichlet (np_ones l0) w) as [d0 w1]. cbn in Hset |- *.
    destruct (dirichlet (np_ones l1) w1) as [d1 w2]. cbn in Hset |- *.
    rewrite (assign_beliefs_two _ w2 e p0 p1 Hp), H0, H1 in Hset. cbn in Hset.
    destruct (broadcast_to l0 d0) as [c0|] eqn:Hb0; [|discriminate].
    destruct (broadcast_to l1 d1) as [c1|] eqn:Hb1; [|discriminate].
    injection Hset as <- <-. exists d0, d1, c0, c1. repeat split; assumption.
Qed.

(** Seeding ends, and when it raises, it raises what indexing
    [init_beliefs] or the numpy assignment raise. *)
Lemma assign_beliefs_raises (init : list (list Q)) w e o w' e' :
  assign_beliefs init w e = (o, w', e') ->
  o = Val tt \/ exists x, o = Exc x /\ indexing_failure x.
Proof.
  unfold assign_beliefs, for_players. cbn. intros H.
  refine (proj2 (for_range_spec (fun _ => True)
            (fun o => o = Val tt \/ exists x, o = Exc x /\ indexing_failure x)
            _ _ _ _ 0%nat w e o w' e' I H)).
  - left. reflexivity.
  - clear. intros i w1 e1 o1 w2 e2 _ Hb. split; [exact I|]. cbn in Hb.
    destruct (init !! i) as [v|]; cbn in Hb;
      [|injection Hb as <- <- <-; right; exists IndexError; split; [reflexivity|left; reflexivity]].
    destruct (players e1 !! i) as [p|]; cbn in Hb;
      [|injection Hb as <- <- <-; right; exists IndexError; split; [reflexivity|left; reflexivity]].
    destruct (broadcast_to (length (current_belief p)) v) as [b|]; cbn in Hb;
      injection Hb as <- <- <-.
    + left. reflexivity.
    + right. exists BroadcastError. split; [reflexivity|right; reflexivity].
Qed.

Lemma set_init_beliefs_raises ib w e o w' e' :
  set_init_beliefs dirichlet ib w e = (o, w', e') ->
  o = Val tt \/ exists x, o = Exc x /\ indexing_failure x.
Proof.
  unfold set_init_beliefs, bind. destruct ib as [given|]; cbn.
  - apply assign_beliefs_raises.
  - destruct (draw_beliefs_val (belief_sizes e) w e) as (bs & w1 & ->).
    apply assign_beliefs_raises.
Qed.

(** ** The generator *)

Lemma read_current_beliefs e : read e (current_beliefs e) = belief_values e.
Proof.
  unfold read, current_beliefs, belief_values, deref.
  generalize (players e) as ps. intros ps.
  enough (H : forall (l pre : list (Player World)),
             omap (fun r => current_belief <$> ((pre ++ l) !! r)) (seq (length pre) (length l))
             = current_belief <$> l) by apply (H ps []).
  induction l as [|p l IH]; intros pre; [reflexivity|].
  cbn [length seq omap list_omap].
  rewrite list_lookup_middle by reflexivity. cbn.
  f_equal. specialize (IH (pre ++ [p])).
  rewrite length_app, <- app_assoc in IH. cbn in IH.
  rewrite Nat.add_1_r in IH. exact IH.
Qed.

Lemma loop_head_yield (t n : nat) w e :
  (t < n)%nat ->
  loop_head t n w e = (Val (Some (current_beliefs e), GenSuspended t n), w, e).
Proof. intros H. unfold loop_head. destruct (Nat.ltb_spec t n); [reflexivity|lia]. Qed.

Lemma loop_head_stop (t n : nat) w e :
  (n <= t)%nat -> loop_head t n w e = (Val (None, GenFinished), w, e).
Proof. intros H. unfold loop_head. destruct (Nat.ltb_spec t n); [lia|reflexivity]. Qed.

Lemma gen_next_suspended (t n : nat) w e w1 e1 :
  round t w e = (Val tt, w1, e1) ->
  gen_next dirichlet (GenSuspended t n) w e = loop_head (S t) n w1 e1.
Proof. intros H. unfold gen_next, bind. rewrite H. reflexivity. Qed.

Lemma gen_next_created (n : nat) ib w e w0 e0 :
  set_init_beliefs dirichlet ib w e = (Val tt, w0, e0) ->
  gen_next dirichlet (GenCreated n ib) w e = loop_head 0 n w0 e0.
Proof. intros H. unfold gen_next, bind. rewrite H. reflexivity. Qed.

Lemma gen_values_stop (fuel : nat) gen w e w' e' gen' :
  gen_next dirichlet gen w e = (Val (None, gen'), w', e') ->
  gen_values dirichlet (S fuel) gen w e = (Val [], w', e').
Proof. intros H. cbn. rewrite H. reflexivity. Qed.

Lemma gen_values_yield (fuel : nat) gen w e refs gen' w1 e1 vs w' e' :
  gen_next dirichlet gen w e = (Val (Some refs, gen'), w1, e1) ->
  gen_values dirichlet fuel gen' w1 e1 = (Val vs, w', e') ->
  gen_values dirichlet (S fuel) gen w e = (Val (read e1 refs :: vs), w', e').
Proof. intros H Hrest. cbn. rewrite H. cbn. rewrite Hrest. reflexivity. Qed.

(** From the [yield] of iteration [t] with [S k] more pulls to come: the
    generator yields [k] more tuples, the i-th of them after [S i] rounds. *)
Lemma gen_values_suspended (k : nat) :
  forall (t : nat) w e w' e',
    rounds (S k) t w e = (Val tt, w', e') ->
    exists vs,
      gen_values dirichlet (S k) (GenSuspended t (t + S k)) w e = (Val vs, w', e') /\
      length vs = k /\
      forall i, (i < k)%nat ->
        exists wi ei, rounds (S i) t w e = (Val tt, wi, ei) /\
                      vs !! i = Some (belief_values ei).
Proof.
  induction k as [|k IH]; intros t w e w' e' Hr.
  - exists []. cbn in Hr.
    destruct (round t w e) as [[[[]| |] w1] e1] eqn:Hround; try discriminate.
    injection Hr as -> ->.
    split; [|split; [reflexivity|intros i Hi; lia]].
    eapply gen_values_stop. rewrite (gen_next_suspended _ _ _ _ _ _ Hround).
    apply loop_head_stop. lia.
  - change (rounds (S (S k)) t w e) with (bind (round t) (fun _ => rounds (S k) (S t)) w e) in Hr.
    cbn in Hr. destruct (round t w e) as [[[[]| |] w1] e1] eqn:Hround; try discriminate.
    destruct (IH (S t) w1 e1 w' e' Hr) as (vs & Hg & Hlen & Hvs).
    exists (belief_values e1 :: vs).
    replace (S t + S k)%nat with (t + S (S k))%nat in Hg by lia.
    split; [|split].
    + rewrite <- read_current_beliefs. eapply gen_values_yield; [|exact Hg].
      rewrite (gen_next_suspended _ _ _ _ _ _ Hround).
      apply loop_head_yield. lia.
    + cbn. congruence.
    + intros [|i] Hi.
      * exists w1, e1. cbn. rewrite Hround. split; reflexivity.
      * destruct (Hvs i ltac:(lia)) as (wi & ei & Hri & Hi').
        exists wi, ei. split; [|exact Hi'].
        change (rounds (S (S i)) t w e) with (bind (round t) (fun _ => rounds (S i) (S t)) w e).
        cbn. rewrite Hround. exact Hri.
Qed.

(** The whole run of the generator of [simulate_iter] on a two-player
    engine, seen by a consumer that reads each tuple when it gets it. *)
Lemma gen_values_created (n : nat) ib w e w0 e0 (l0 l1 : nat) :
  set_init_beliefs dirichlet ib w e = (Val tt, w0, e0) ->
  two_player_state l0 l1 e0 ->
  exists vs wn en,
    gen_values dirichlet (S n) (simulate_iter n ib) w e = (Val vs, wn, en) /\
    length vs = n /\
    rounds n 0 w0 e0 = (Val tt, wn, en) /\
    forall t, (t < n)%nat ->
      exists wt et, rounds t 0 w0 e0 = (Val tt, wt, et) /\
                    two_player_state l0 l1 et /\
                    step_size et = step_size e0 /\
                    vs !! t = Some (belief_values et).
Proof.
  intros Hset Hwf. unfold simulate_iter. destruct n as [|k].
  - exists [], w0, e0. split; [|split; [reflexivity|split; [reflexivity|intros t Ht; lia]]].
    eapply gen_values_stop. rewrite (gen_next_created _ _ _ _ _ _ Hset).
    apply loop_head_stop. lia.
  - destruct (rounds_two (S k) 0 w0 e0 l0 l1 Hwf) as (wn & en & Hr & _ & _).
    destruct (gen_values_suspended k 0 w0 e0 wn en Hr) as (vs & Hg & Hlen & Hvs).
    exists (belief_values e0 :: vs), wn, en. split; [|split; [|split]].
    + rewrite <- read_current_beliefs. eapply gen_values_yield; [|exact Hg].
      rewrite (gen_next_created _ _ _ _ _ _ Hset). apply loop_head_yield. lia.
    + cbn. congruence.
    + exact Hr.
    + intros [|t] Ht.
      * exists w0, e0. repeat split; assumption.
      * destruct (Hvs t ltac:(lia)) as (wt & et & Hrt & Ht').
        destruct (rounds_two (S t) 0 w0 e0 l0 l1 Hwf) as (wt' & et' & Hrt' & Hwft & Hst).
        rewrite Hrt in Hrt'. injection Hrt' as <- <-.
        exists wt, et. repeat split; assumption.
Qed.

Lemma current_beliefs_two e (l0 l1 : nat) :
  two_player_state l0 l1 e -> current_beliefs e = [0%nat; 1%nat].
Proof.
  intros (p0 & p1 & ? & ? & Hp & _). unfold current_beliefs. rewrite Hp. reflexivity.
Qed.

Lemma read_two e (l0 l1 : nat) :
  two_player_state l0 l1 e -> read e [0%nat; 1%nat] = belief_values e.
Proof.
  intros Hwf. rewrite <- (current_beliefs_two e l0 l1 Hwf). apply read_current_beliefs.
Qed.

Lemma gen_tuples_stop (fuel : nat) gen w e w' e' gen' :
  gen_next dirichlet gen w e = (Val (None, gen'), w', e') ->
  gen_tuples dirichlet (S fuel) gen w e = (Val [], w', e').
Proof. intros H. cbn. rewrite H. reflexivity. Qed.

Lemma gen_tuples_yield (fuel : nat) gen w e refs gen' w1 e1 ts w' e' :
  gen_next dirichlet gen w e = (Val (Some refs, gen'), w1, e1) ->
  gen_tuples dirichlet fuel gen' w1 e1 = (Val ts, w', e') ->
  gen_tuples dirichlet (S fuel) gen w e = (Val (refs :: ts), w', e').
Proof. intros H Hrest. cbn. rewrite H. cbn. rewrite Hrest. reflexivity. Qed.

(** Kept as they are, the tuples the generator yields are one and the same
    pair of arrays, once per round. *)
Lemma gen_tuples_suspended (k : nat) :
  forall (t : nat) w e (l0 l1 : nat),
    two_player_state l0 l1 e ->
    exists w' e',
      gen_tuples dirichlet (S k) (GenSuspended t (t + S k)) w e
        = (Val (repeat [0%nat; 1%nat] k), w', e') /\
      rounds (S k) t w e = (Val tt, w', e').
Proof.
  induction k as [|k IH]; intros t w e l0 l1 Hwf.
  - destruct (round_two_state t w e l0 l1 Hwf) as (w1 & e1 & Hr & Hwf1 & _).
    exists w1, e1. split; [|cbn; rewrite Hr; reflexivity].
    eapply gen_tuples_stop. rewrite (gen_next_suspended _ _ _ _ _ _ Hr).
    apply loop_head_stop. lia.
  - destruct (round_two_state t w e l0 l1 Hwf) as (w1 & e1 & Hr & Hwf1 & _).
    destruct (IH (S t) w1 e1 l0 l1 Hwf1) as (w' & e' & Hg & Hrs).
    exists w', e'. split.
    + replace (S t + S k)%nat with (t + S (S k))%nat in Hg by lia.
      refine (gen_tuples_yield _ _ _ _ _ _ _ _ _ _ _ _ Hg).
      rewrite (gen_next_suspended _ _ _ _ _ _ Hr), loop_head_yield by lia.
      rewrite (current_beliefs_two e1 l0 l1 Hwf1). reflexivity.
    + change (rounds (S (S k)) t w e) with (bind (round t) (fun _ => rounds (S k) (S t)) w e).
      unfold bind. rewrite Hr. exact Hrs.
Qed.

Lemma gen_tuples_created (n : nat) ib w e w0 e0 (l0 l1 : nat) :
  set_init_beliefs dirichlet ib w e = (Val tt, w0, e0) ->
  two_player_state l0 l1 e0 ->
  exists wn en,
    gen_tuples dirichlet (S n) (simulate_iter n ib) w e
      = (Val (repeat [0%nat; 1%nat] n), wn, en) /\
    rounds n 0 w0 e0 = (Val tt, wn, en).
Proof.
  intros Hset Hwf. unfold simulate_iter. destruct n as [|k].
  - exists w0, e0. split; [|reflexivity].
    eapply gen_tuples_stop. rewrite (gen_next_created _ _ _ _ _ _ Hset).
    apply loop_head_stop. lia.
  - destruct (gen_tuples_suspended k 0 w0 e0 l0 l1 Hwf) as (wn & en & Hg & Hr).
    exists wn, en. split; [|exact Hr].
    refine (gen_tuples_yield _ _ _ _ _ _ _ _ _ _ _ _ Hg).
    rewrite (gen_next_created _ _ _ _ _ _ Hset), loop_head_yield by lia.
    rewrite (current_beliefs_two e0 l0 l1 Hwf). reflexivity.
Qed.

(** ** Probability vectors along a run *)

Lemma round_two_distribution (t : nat) w e w' e' (l0 l1 : nat) :
  two_player_state l0 l1 e ->
  0 <= step_size e t <= 1 ->
  Forall is_distribution (belief_values e) ->
  round t w e = (Val tt, w', e') ->
  Forall is_distribution (belief_values e').
Proof.
  intros Hwf Hs Hd Hr.
  destruct (round_two t w e l0 l1 Hwf)
    as (p0 & p1 & a0 & a1 & j0 & j1 & w1 & Hp & H0 & H1 & Hj0 & Hj1 & Hr').
  rewrite Hr in Hr'. injection Hr' as -> ->.
  unfold belief_values in Hd |- *. rewrite Hp in Hd. cbn in Hd |- *.
  inversion Hd as [|? ? Hd0 Hd']; subst. inversion Hd' as [|? ? Hd1 _]; subst.
  apply py_index_lt in Hj0, Hj1.
  repeat constructor; apply updated_distribution; try assumption; lia.
Qed.

Lemma rounds_two_distribution (k : nat) :
  forall (t : nat) w e w' e' (l0 l1 : nat),
    two_player_state l0 l1 e ->
    (forall i, 0 <= step_size e i <= 1) ->
    Forall is_distribution (belief_values e) ->
    rounds k t w e = (Val tt, w', e') ->
    Forall is_distribution (belief_values e').
Proof.
  induction k as [|k IH]; intros t w e w' e' l0 l1 Hwf Hs Hd Hr.
  - cbn in Hr. injection Hr as <- <-. exact Hd.
  - destruct (round_two_state t w e l0 l1 Hwf) as (w1 & e1 & Hr1 & Hwf1 & Hs1).
    change (rounds (S k) t w e) with (bind (round t) (fun _ => rounds k (S t)) w e) in Hr.
    unfold bind in Hr. rewrite Hr1 in Hr.
    apply (IH (S t) w1 e1 w' e' l0 l1 Hwf1); try assumption.
    + intros i. rewrite Hs1. apply Hs.
    + apply (round_two_distribution t w e w1 e1 l0 l1); auto.
Qed.

(** ** Construction *)

Lemma init_resolve_error data w (x : exn) :
  resolve_game NormalFormGame_new data = inl x ->
  init dirichlet NormalFormGame_new data w = (Exc x, w).
Proof. intros H. unfold init. rewrite H. reflexivity. Qed.

Lemma init_value_error data w (msg : string) :
  (init dirichlet NormalFormGame_new data w).1 = Exc (ValueError msg) ->
  resolve_game NormalFormGame_new data = inl (ValueError msg).
Proof.
  unfold init. destruct (resolve_game NormalFormGame_new data) as [x|game].
  - cbn. intros [= ->]. reflexivity.
  - destruct (opponent_sizes game) as [sizes|]; [|discriminate].
    match goal with |- context [set_init_beliefs dirichlet None w ?e0] =>
      destruct (set_init_beliefs dirichlet None w e0) as [[o w1] e1] eqn:Hset end.
    apply set_init_beliefs_frame in Hset. destruct Hset as [_ Hno].
    destruct o as [[]| |]; cbn; try discriminate.
    intros [= ->]. exfalso. exact (Hno msg eq_refl).
Qed.

Lemma resolve_game_value_error data :
  (exists msg, resolve_game NormalFormGame_new data = inl (ValueError msg)) <->
  match data with
  | DataGame game => g_N game <> 2%nat
  | DataArray payoffs => ndim payoffs <> 2%nat /\ ndim payoffs <> 3%nat
  end.
Proof.
  destruct data as [game|payoffs]; cbn.
  - destruct (Nat.eqb_spec (g_N game) 2) as [H|H]; split.
    + intros [msg Hm]. discriminate.
    + intros Hn. contradiction.
    + intros _. exact H.
    + intros _. eexists. reflexivity.
  - rewrite orb_false_r.
    destruct (Nat.eqb_spec (ndim payoffs) 2) as [H2|H2];
      destruct (Nat.eqb_spec (ndim payoffs) 3) as [H3|H3]; cbn; split;
      try (intros [Ha Hb]; contradiction);
      try (intros _; split; assumption);
      try (intros _; eexists; reflexivity).
    all: intros [msg Hm]; destruct (NormalFormGame_new payoffs); discriminate.
Qed.

Lemma init_installs data w e w' :
  init dirichlet NormalFormGame_new data w = (Val e, w') ->
  step_size e = default_step_size /\ N e = g_N (g e) /\
  current_actions e = np_zeros_int (N e) /\
  resolve_game NormalFormGame_new data = inr (g e).
Proof.
  unfold init. destruct (resolve_game NormalFormGame_new data) as [x|game]; [discriminate|].
  destruct (opponent_sizes game) as [sizes|]; [|discriminate].
  match goal with |- context [set_init_beliefs dirichlet None w ?e0] =>
    destruct (set_init_beliefs dirichlet None w e0) as [[o w1] e1] eqn:Hset end.
  apply set_init_beliefs_frame in Hset. destruct Hset as [(Hg & HN & _ & _ & Hs) _].
  destruct o as [[]| |]; try discriminate. intros [= <- <-]. cbn in *.
  repeat split; congruence.
Qed.

Lemma resolve_game_errors data (x : exn) :
  resolve_game NormalFormGame_new data = inl x ->
  (exists msg, x = ValueError msg) \/ (exists msg, x = ExternalError msg).
Proof.
  destruct data as [game|payoffs]; cbn.
  - destruct (g_N game =? 2)%nat; [discriminate|]. intros [= <-]. left. eexists. reflexivity.
  - destruct (_ || _); [|intros [= <-]; left; eexists; reflexivity].
    destruct (NormalFormGame_new payoffs) as [msg|game]; [|discriminate].
    intros [= <-]. right. eexists. reflexivity.
Qed.

(** A game without an action count of the opponent for each of its [N]
    players stops construction at [nums_actions[1-i]]. *)
Lemma init_no_opponent_size data w game :
  resolve_game NormalFormGame_new data = inr game ->
  opponent_sizes game = None ->
  init dirichlet NormalFormGame_new data w = (Exc IndexError, w).
Proof. intros Hres Hsizes. unfold init. rewrite Hres, Hsizes. reflexivity. Qed.

(** Once the game object is there, construction ends with an engine or
    with what indexing and the numpy assignment raise. *)
Lemma init_after_resolve data w game o w' :
  resolve_game NormalFormGame_new data = inr game ->
  init dirichlet NormalFormGame_new data w = (o, w') ->
  (exists e, o = Val e) \/ (exists x, o = Exc x /\ indexing_failure x).
Proof.
  intros Hres. unfold init. rewrite Hres.
  destruct (opponent_sizes game) as [sizes|];
    [|intros [= <- <-]; right; exists IndexError; split; [reflexivity|left; reflexivity]].
  match goal with |- context [set_init_beliefs dirichlet None w ?e0] =>
    destruct (set_init_beliefs dirichlet None w e0) as [[o1 w1] e1] eqn:Hset end.
  apply set_init_beliefs_raises in Hset. destruct Hset as [->|(x & -> & Hx)].
  - intros [= <- <-]. left. eexists. reflexivity.
  - intros [= <- <-]. right. exists x. split; [reflexivity|exact Hx].
Qed.

(** The engine built from a well-formed two-player game when the
    Dirichlet sampler returns vectors of the length it is asked for. *)
Lemma init_two_player data w game (n0 n1 : nat) q0 q1 :
  resolve_game NormalFormGame_new data = inr game ->
  g_N game = 2%nat ->
  nums_actions game = [n0; n1] ->
  g_players game = [q0; q1] ->
  (forall alpha w1, length (dirichlet alpha w1).1 = length alpha) ->
  exists b0 b1 w',
    init dirichlet NormalFormGame_new data w =
      (Val {| g := game; N := 2;
              players := [ {| best_response := gp_best_response q0; current_belief := b0 |};
                           {| best_response := gp_best_response q1; current_belief := b1 |} ];
              belief_sizes := [n1; n0];
              current_actions := [0%Z; 0%Z];
              step_size := default_step_size |}, w') /\
    length b0 = n1 /\ length b1 = n0.
Proof.
  intros Hres HN Hnums Hps Hdir. unfold init. rewrite Hres.
  destruct game as [gn gps gnums]. cbn in HN, Hnums, Hps. subst gn gps gnums.
  cbn [opponent_sizes g_N nums_actions g_players mapM seq length].
  change (py_index 2 (1 - Z.of_nat 0)) with (Some 1%nat).
  change (py_index 2 (1 - Z.of_nat 1)) with (Some 0%nat). cbn.
  unfold set_init_beliefs, bind. cbn.
  pose proof (Hdir (np_ones n1) w) as H0.
  destruct (dirichlet (np_ones n1) w) as [b0 w1]. cbn in H0 |- *.
  pose proof (Hdir (np_ones n0) w1) as H1.
  destruct (dirichlet (np_ones n0) w1) as [b1 w2]. cbn in H1 |- *.
  unfold np_ones in H0, H1. rewrite repeat_length in H0, H1.
  erewrite assign_beliefs_two by reflexivity. cbn.
  unfold np_empty. rewrite !repeat_length. subst n0 n1.
  rewrite !broadcast_to_same. cbn.
  exists b0, b1, w2. repeat split.
Qed.

(** ** The claims about single methods *)

(** C1. On a two-player engine whose current actions index the opponents'
    beliefs, [update_beliefs s] raises nothing, leaves everything but the
    two belief vectors as it was (world, actions, schedule, players'
    best responses), and puts in place of each belief [b_i] the convex
    combination [(1 - s) * b_i + s * onehot(action[1-i])]; both updates
    read the actions of the state before the call. *)
Theorem update_beliefs_convex (s : Q) w e p0 p1 (a0 a1 : Z) :
  players e = [p0; p1] ->
  current_actions e = [a0; a1] ->
  (0 <= a1 < Z.of_nat (length (current_belief p0)))%Z ->
  (0 <= a0 < Z.of_nat (length (current_belief p1)))%Z ->
  exists b0' b1',
    update_beliefs s w e =
      (Val tt, w, with_players [with_belief b0' p0; with_belief b1' p1] e) /\
    vec_eq b0' (convex s (current_belief p0)
                  (onehot (length (current_belief p0)) (Z.to_nat a1))) /\
    vec_eq b1' (convex s (current_belief p1)
                  (onehot (length (current_belief p1)) (Z.to_nat a0))).
Proof.
  intros Hp Ha H1 H0.
  exists (updated s (current_belief p0) (Z.to_nat a1)),
         (updated s (current_belief p1) (Z.to_nat a0)).
  split; [|split; apply updated_convex].
  apply (update_beliefs_two s w e p0 p1 a0 a1); try assumption;
    apply py_index_nonneg; assumption.
Qed.

(** C7. With an explicit pair [[b0, b1]] of vectors of the beliefs' lengths,
    [set_init_beliefs] raises nothing and leaves exactly [b0] and [b1] as
    the players' beliefs, whatever their entries are; a vector with a
    single entry is accepted as well and fills the whole belief. *)
Theorem set_init_beliefs_explicit w e p0 p1 (b0 b1 : list Q) :
  players e = [p0; p1] ->
  length b0 = length (current_belief p0) ->
  length b1 = length (current_belief p1) ->
  (exists e',
     set_init_beliefs dirichlet (Some [b0; b1]) w e = (Val tt, w, e') /\
     belief_values e' = [b0; b1] /\
     e' = with_players [with_belief b0 p0; with_belief b1 p1] e) /\
  (forall x y : Q, exists e',
     set_init_beliefs dirichlet (Some [[x]; [y]]) w e = (Val tt, w, e') /\
     belief_values e' = [repeat x (length b0); repeat y (length b1)]).
Proof.
  intros Hp H0 H1. split.
  - eexists. split; [|split; [|reflexivity]].
    + unfold set_init_beliefs, bind. cbn.
      rewrite (assign_beliefs_two _ w e p0 p1 Hp). cbn.
      rewrite <- H0, <- H1, !broadcast_to_same. reflexivity.
    + reflexivity.
  - intros x y.
    assert (Hb : forall (n : nat) (z : Q), broadcast_to n [z] = Some (repeat z n)).
    { intros n z. unfold broadcast_to. change (length [z]) with 1%nat.
      destruct (Nat.eqb_spec 1 n) as [<-|]; reflexivity. }
    eexists. split.
    + unfold set_init_beliefs, bind. cbn.
      rewrite (assign_beliefs_two _ w e p0 p1 Hp). cbn.
      rewrite !Hb. reflexivity.
    + cbn. rewrite H0, H1. reflexivity.
Qed.

(** ** The claims about [simulate_iter] *)

(** C2, as the code has it.  On a two-player engine, whatever
    [init_beliefs] is, as long as the seeding raises nothing: the generator
    first seeds the beliefs from [init_beliefs], then yields exactly
    [ts_length] tuples and stops.  Between two yields it runs [play()] and
    then [update_beliefs(step_size(t))], [t] counted from 0 in every call:
    [states] lists the states at the yields and the state at the end.
    Read when it is yielded, element [t] holds the beliefs after exactly
    [t] updates, element 0 the seeded pair.  Every yielded tuple is the
    pair of the players' live arrays: kept and read once the generator has
    stopped, each element shows the beliefs after all [ts_length]
    updates. *)
Theorem simulate_iter_sequence (ts_length : nat) init_beliefs w e w0 e0 (l0 l1 : nat) :
  two_player_state l0 l1 e ->
  set_init_beliefs dirichlet init_beliefs w e = (Val tt, w0, e0) ->
  exists (states : list (World * FictitiousPlay World)) vs wn en,
    gen_values dirichlet (S ts_length) (simulate_iter ts_length init_beliefs) w e
      = (Val vs, wn, en) /\
    gen_tuples dirichlet (S ts_length) (simulate_iter ts_length init_beliefs) w e
      = (Val (repeat [0%nat; 1%nat] ts_length), wn, en) /\
    length vs = ts_length /\
    seeded dirichlet init_beliefs l0 l1 w w0 e0 /\
    length states = S ts_length /\
    states !! 0%nat = Some (w0, e0) /\
    states !! ts_length = Some (wn, en) /\
    play_update_chain 0 states /\
    rounds ts_length 0 w0 e0 = (Val tt, wn, en) /\
    ((0 < ts_length)%nat -> vs !! 0%nat = Some (belief_values e0)) /\
    (forall t wt et, (t < ts_length)%nat -> states !! t = Some (wt, et) ->
       vs !! t = Some (belief_values et) /\
       read et [0%nat; 1%nat] = belief_values et) /\
    read en [0%nat; 1%nat] = belief_values en.
Proof.
  intros Hwf Hset.
  destruct (set_init_beliefs_two_state _ _ _ _ _ _ _ Hwf Hset) as [Hwf0 _].
  destruct (gen_values_created ts_length _ _ _ _ _ _ _ Hset Hwf0)
    as (vs & wn & en & Hg & Hlen & Hr & Hvs).
  destruct (gen_tuples_created ts_length _ _ _ _ _ _ _ Hset Hwf0)
    as (wn' & en' & Htup & Hr').
  rewrite Hr in Hr'. injection Hr' as <- <-.
  destruct (rounds_chain ts_length 0 w0 e0 wn en Hr)
    as (states & Hslen & Hfirst & Hlast & Hchain & Hrounds).
  destruct (rounds_two ts_length 0 w0 e0 l0 l1 Hwf0) as (wn2 & en2 & Hr2 & Hwfn & _).
  rewrite Hr in Hr2. injection Hr2 as <- <-.
  exists states, vs, wn, en.
  split; [exact Hg|]. split; [exact Htup|]. split; [exact Hlen|].
  split; [exact (set_init_beliefs_seeded _ _ _ _ _ _ _ Hwf Hset)|].
  split; [exact Hslen|]. split; [exact Hfirst|]. split; [exact Hlast|].
  split; [exact Hchain|]. split; [exact Hr|]. split; [|split].
  - intros Hpos. destruct (Hvs 0%nat Hpos) as (wt & et & Hrt & _ & _ & Hv).
    cbn in Hrt. injection Hrt as <- <-. exact Hv.
  - intros t wt et Ht Hst. destruct (Hvs t Ht) as (wt' & et' & Hrt & Hwft & _ & Hv).
    rewrite (Hrounds t wt et Hst) in Hrt. injection Hrt as <- <-.
    split; [exact Hv|exact (read_two _ l0 l1 Hwft)].
  - exact (read_two _ l0 l1 Hwfn).
Qed.

(** ** [simulate] *)

(** Whatever the generator, [simulate]'s loop returns the stacking of what
    the generator produces, whenever that stacking raises nothing. *)
Lemma simulate_loop_stack (fuel : nat) :
  forall gen (t : nat) bufs w e vs w' e' bufs',
    gen_values dirichlet fuel gen w e = (Val vs, w', e') ->
    stack_from t vs bufs = Val bufs' ->
    simulate_loop dirichlet fuel gen t bufs w e = (Val bufs', w', e').
Proof.
  induction fuel as [|fuel IH]; intros gen t bufs w e vs w' e' bufs' Hg Hst.
  - discriminate.
  - cbn in Hg |- *.
    destruct (gen_next dirichlet gen w e) as [[[[[refs|] gen']| |] w1] e1]; try discriminate.
    + cbn in Hg |- *.
      destruct (gen_values dirichlet fuel gen' w1 e1) as [[[rest| |] w2] e2] eqn:Hrest;
        try discriminate.
      injection Hg as <- <- <-. cbn in Hst.
      destruct (store_rows t 0 (read e1 refs) bufs) as [bufs1| |]; try discriminate.
      cbn. apply (IH gen' (S t) bufs1 w1 e1 rest w2 e2 bufs' Hrest Hst).
    + cbn in Hg |- *. injection Hg as <- <- <-. cbn in Hst. congruence.
Qed.

(** [simulate] on a two-player engine, next to the sequence of
    [simulate_iter] from the same engine and world. *)
Lemma simulate_two (ts_length : nat) init_beliefs w e w0 e0 (l0 l1 : nat) :
  two_player_state l0 l1 e ->
  set_init_beliefs dirichlet init_beliefs w e = (Val tt, w0, e0) ->
  exists vs buf0 buf1 wn en,
    gen_values dirichlet (S ts_length) (simulate_iter ts_length init_beliefs) w e
      = (Val vs, wn, en) /\
    simulate dirichlet ts_length init_beliefs w e = (Val [buf0; buf1], wn, en) /\
    simulate_spec dirichlet ts_length init_beliefs w e = (Val [buf0; buf1], wn, en) /\
    belief_sizes e = [l0; l1] /\
    buffer_shape ts_length l0 buf0 /\ buffer_shape ts_length l1 buf1 /\
    (forall t v, vs !! t = Some v ->
       buf0 !! t = v !! 0%nat /\ buf1 !! t = v !! 1%nat) /\
    ((0 < ts_length)%nat ->
       buf0 !! 0%nat = belief_values e0 !! 0%nat /\
       buf1 !! 0%nat = belief_values e0 !! 1%nat).
Proof.
  intros Hwf Hset.
  destruct (set_init_beliefs_two_state _ _ _ _ _ _ _ Hwf Hset) as [Hwf0 _].
  destruct (gen_values_created ts_length _ _ _ _ _ _ _ Hset Hwf0)
    as (vs & wn & en & Hg & Hlen & Hr & Hvs).
  assert (Hsizes : belief_sizes e = [l0; l1]).
  { destruct Hwf as (? & ? & ? & ? & _ & _ & _ & _ & Hs & _). exact Hs. }
  assert (Hpairs : Forall (belief_pair l0 l1) vs).
  { apply Forall_lookup_2. intros t v Hv.
    assert (Ht : (t < ts_length)%nat) by (rewrite <- Hlen; eapply lookup_lt_Some; eassumption).
    destruct (Hvs t Ht) as (wt & et & _ & Hwft & _ & Hv').
    rewrite Hv in Hv'. injection Hv' as ->.
    destruct Hwft as (p0 & p1 & ? & ? & Hp & _ & H0 & H1 & _).
    exists (current_belief p0), (current_belief p1).
    unfold belief_values. rewrite Hp. repeat split; assumption. }
  destruct (stack_from_two ts_length l0 l1 vs 0 _ _ Hpairs ltac:(lia)
              (np_empty2_shape ts_length l0) (np_empty2_shape ts_length l1))
    as (buf0 & buf1 & Hst & Hb0 & Hb1 & Hnew & _).
  exists vs, buf0, buf1, wn, en.
  split; [exact Hg|]. split; [|split; [|split; [exact Hsizes|split; [exact Hb0|split; [exact Hb1|split]]]]].
  - unfold simulate, bind. cbn. rewrite Hsizes. cbn.
    apply (simulate_loop_stack (S ts_length) _ 0 _ w e vs wn en _ Hg Hst).
  - unfold simulate_spec, bind. cbn - [gen_values]. rewrite Hg, Hsizes. cbn. rewrite Hst.
    reflexivity.
  - intros t v Hv. exact (Hnew t v Hv).
  - intros Hpos. destruct (Hvs 0%nat Hpos) as (wt & et & Hrt & _ & _ & Hv).
    cbn in Hrt. injection Hrt as <- <-. exact (Hnew 0%nat _ Hv).
Qed.

(** C6. One [update_beliefs] with a step in [0, 1] turns a probability
    vector into a probability vector, for each player, as long as the
    opponent's action is an index numpy accepts; and with the default
    schedule every pair the generator of [simulate_iter] produces from
    seeded probability vectors consists of probability vectors, the
    generator producing all [ts_length] of them. *)
Theorem beliefs_stay_distributions :
  (forall (s : Q) w e p0 p1 (a0 a1 : Z) (j0 j1 : nat),
     players e = [p0; p1] ->
     current_actions e = [a0; a1] ->
     py_index (length (current_belief p0)) a1 = Some j0 ->
     py_index (length (current_belief p1)) a0 = Some j1 ->
     0 <= s <= 1 ->
     exists c0 c1,
       update_beliefs s w e =
         (Val tt, w, with_players [with_belief c0 p0; with_belief c1 p1] e) /\
       (is_distribution (current_belief p0) -> is_distribution c0) /\
       (is_distribution (current_belief p1) -> is_distribution c1)) /\
  (forall (ts_length : nat) init_beliefs w e w0 e0 (l0 l1 : nat),
     two_player_state l0 l1 e ->
     step_size e = default_step_size ->
     set_init_beliefs dirichlet init_beliefs w e = (Val tt, w0, e0) ->
     Forall is_distribution (belief_values e0) ->
     exists vs wn en,
       gen_values dirichlet (S ts_length) (simulate_iter ts_length init_beliefs) w e
         = (Val vs, wn, en) /\
       length vs = ts_length /\
       Forall (Forall is_distribution) vs).
Proof.
  split.
  - intros s w e p0 p1 a0 a1 j0 j1 Hp Ha Hj0 Hj1 Hs.
    eexists _, _. split; [apply (update_beliefs_two s w e p0 p1 a0 a1 j0 j1); assumption|].
    apply py_index_lt in Hj0, Hj1.
    split; intros Hd; apply updated_distribution; assumption.
  - intros n ib w e w0 e0 l0 l1 Hwf Hstep Hset Hd.
    destruct (set_init_beliefs_two_state _ _ _ _ _ _ _ Hwf Hset) as [Hwf0 Hs0].
    destruct (gen_values_created n _ _ _ _ _ _ _ Hset Hwf0)
      as (vs & wn & en & Hg & Hlen & Hr & Hvs).
    exists vs, wn, en. split; [exact Hg|]. split; [exact Hlen|].
    apply Forall_lookup_2. intros t v Hv.
    assert (Ht : (t < n)%nat) by (rewrite <- Hlen; eapply lookup_lt_Some; eassumption).
    destruct (Hvs t Ht) as (wt & et & Hrt & _ & _ & Hv').
    rewrite Hv in Hv'. injection Hv' as ->.
    apply (rounds_two_distribution t 0 w0 e0 wt et l0 l1); try assumption.
    intros i. rewrite Hs0, Hstep.
    destruct (default_step_size_range i) as [Hlo Hhi]. split; lra.
Qed.


Lemma last_repeat {A : Type} (x : A) (n : nat) : last (repeat x (S n)) = Some x.
Proof.
  induction n as [|n IH]; [reflexivity|].
  change (repeat x (S (S n))) with (x :: repeat x (S n)).
  destruct (repeat x (S n)) eqn:E; [discriminate|exact IH].
Qed.

(** C10, as the code has it.  After [simulate(ts_length)] with
    [ts_length = n + 1] has returned, the engine has gone through [n + 1]
    rounds of [play()] and [update_beliefs(step_size(t))], while the last
    row recorded holds the beliefs after [n] of them: the live beliefs are
    the last rows taken through the one further round, each moved towards
    the point mass on the opponent's action of that round.  Whether that
    round changes them is left to the beliefs and the step.  The same
    holds of the generator pulled to its end as far as the state goes; but
    the last tuple it yielded is the pair of live arrays, which showed the
    beliefs after [n] updates when it was yielded and shows the live state,
    [n + 1] updates, afterwards. *)
Theorem live_state_after_run (n : nat) init_beliefs w e w0 e0 (l0 l1 : nat) :
  two_player_state l0 l1 e ->
  set_init_beliefs dirichlet init_beliefs w e = (Val tt, w0, e0) ->
  exists (states : list (World * FictitiousPlay World)) vs tuples refs buf0 buf1
         wl el wp ep wn en b0 b1 (a0 a1 : Z) (j0 j1 : nat),
    simulate dirichlet (S n) init_beliefs w e = (Val [buf0; buf1], wn, en) /\
    gen_values dirichlet (S (S n)) (simulate_iter (S n) init_beliefs) w e
      = (Val vs, wn, en) /\
    gen_tuples dirichlet (S (S n)) (simulate_iter (S n) init_beliefs) w e
      = (Val tuples, wn, en) /\
    length states = S (S n) /\
    states !! 0%nat = Some (w0, e0) /\
    states !! n = Some (wl, el) /\
    states !! S n = Some (wn, en) /\
    play_update_chain 0 states /\
    belief_values el = [b0; b1] /\
    last vs = Some [b0; b1] /\ last buf0 = Some b0 /\ last buf1 = Some b1 /\
    play wl el = (Val tt, wp, ep) /\
    current_actions ep = [a0; a1] /\ belief_values ep = [b0; b1] /\
    update_beliefs (step_size ep n) wp ep = (Val tt, wn, en) /\
    py_index (length b0) a1 = Some j0 /\ py_index (length b1) a0 = Some j1 /\
    belief_values en =
      [updated (step_size ep n) b0 j0; updated (step_size ep n) b1 j1] /\
    length tuples = S n /\ last tuples = Some refs /\
    read el refs = [b0; b1] /\
    read en refs = belief_values en.
Proof.
  intros Hwf Hset.
  destruct (set_init_beliefs_two_state _ _ _ _ _ _ _ Hwf Hset) as [Hwf0 _].
  destruct (simulate_two (S n) init_beliefs w e w0 e0 l0 l1 Hwf Hset)
    as (vs & buf0 & buf1 & wn & en & Hg & Hsim & _ & _ & [Hlen0 _] & [Hlen1 _] & Hrows & _).
  destruct (gen_values_created (S n) _ _ _ _ _ _ _ Hset Hwf0)
    as (vs' & wn' & en' & Hg' & Hlen & Hr & Hvs).
  rewrite Hg in Hg'. injection Hg' as <- <- <-.
  destruct (gen_tuples_created (S n) _ _ _ _ _ _ _ Hset Hwf0)
    as (wn' & en' & Htup & Hr').
  rewrite Hr in Hr'. injection Hr' as <- <-.
  destruct (rounds_chain (S n) 0 w0 e0 wn en Hr)
    as (states & Hslen & Hfirst & Hlast & Hchain & Hrounds).
  destruct (Hvs n ltac:(lia)) as (wl & el & Hrl & Hwfl & _ & Hv).
  assert (Hstl : states !! n = Some (wl, el)).
  { destruct (lookup_lt_is_Some_2 states n ltac:(lia)) as [[wl' el'] Hst].
    rewrite (Hrounds n wl' el' Hst) in Hrl. injection Hrl as <- <-. exact Hst. }
  destruct (Hchain n wl wn el en Hstl Hlast) as (wp & ep & Hplay & Hupd).
  change (0 + n)%nat with n in Hupd.
  pose proof Hwfl as (p0 & p1 & c0 & c1 & Hp & Ha & H0 & H1 & _ & Hv0 & Hv1).
  pose proof (play_two wl el p0 p1 c0 c1 Hp Ha) as Hplay'.
  rewrite Hplay in Hplay'. injection Hplay' as Hwp Hep.
  set (r0 := best_response p0 (current_belief p0) wl) in *.
  set (r1 := best_response p1 (current_belief p1) r0.2) in *.
  destruct (Hv0 (current_belief p0) wl) as [j1 Hj1]. fold r0 in Hj1.
  destruct (Hv1 (current_belief p1) r0.2) as [j0 Hj0]. fold r1 in Hj0.
  rewrite <- H0 in Hj0. rewrite <- H1 in Hj1.
  assert (Hpe : players ep = [p0; p1]) by (rewrite Hep; exact Hp).
  assert (Hae : current_actions ep = [r0.1; r1.1]) by (rewrite Hep; reflexivity).
  pose proof (update_beliefs_two (step_size ep n) wp ep p0 p1 r0.1 r1.1 j0 j1
                Hpe Hae Hj0 Hj1) as Hupd'.
  rewrite Hupd in Hupd'. injection Hupd' as Hwn Hen.
  assert (Hbl : belief_values el = [current_belief p0; current_belief p1]).
  { unfold belief_values. rewrite Hp. reflexivity. }
  assert (Hbn : belief_values en =
                [updated (step_size ep n) (current_belief p0) j0;
                 updated (step_size ep n) (current_belief p1) j1]).
  { rewrite Hen. reflexivity. }
  destruct (rounds_two (S n) 0 w0 e0 l0 l1 Hwf0) as (wn2 & en2 & Hr2 & Hwfn & _).
  rewrite Hr in Hr2. injection Hr2 as <- <-.
  destruct (Hrows n _ Hv) as [Hr0 Hr1]. rewrite Hbl in Hr0, Hr1, Hv. cbn in Hr0, Hr1.
  exists states, vs, (repeat [0%nat; 1%nat] (S n)), [0%nat; 1%nat], buf0, buf1,
         wl, el, wp, ep, wn, en, (current_belief p0), (current_belief p1),
         r0.1, r1.1, j0, j1.
  split; [exact Hsim|]. split; [exact Hg|]. split; [exact Htup|].
  split; [exact Hslen|]. split; [exact Hfirst|]. split; [exact Hstl|].
  split; [exact Hlast|]. split; [exact Hchain|]. split; [exact Hbl|].
  split; [rewrite last_lookup, Hlen; exact Hv|].
  split; [rewrite last_lookup, Hlen0; exact Hr0|].
  split; [rewrite last_lookup, Hlen1; exact Hr1|].
  split; [exact Hplay|]. split; [exact Hae|].
  split; [unfold belief_values; rewrite Hpe; reflexivity|].
  split; [exact Hupd|]. split; [exact Hj0|]. split; [exact Hj1|].
  split; [exact Hbn|]. split; [apply repeat_length|]. split; [apply last_repeat|].
  split; [rewrite (read_two _ l0 l1 Hwfl); exact Hbl|].
  exact (read_two _ l0 l1 Hwfn).
Qed.

(** ** [replicate] *)

Lemma exhaust_stop (fuel : nat) gen x w e w' e' gen' :
  gen_next dirichlet gen w e = (Val (None, gen'), w', e') ->
  exhaust dirichlet (S fuel) gen x w e = (Val x, w', e').
Proof. intros H. cbn. rewrite H. reflexivity. Qed.

Lemma exhaust_yield (fuel : nat) gen x w e refs gen' w1 e1 :
  gen_next dirichlet gen w e = (Val (Some refs, gen'), w1, e1) ->
  exhaust dirichlet (S fuel) gen x w e = exhaust dirichlet fuel gen' (Some refs) w1 e1.
Proof. intros H. cbn. rewrite H. reflexivity. Qed.

(** Pulling the generator to its end leaves [x] bound to the last tuple
    yielded, while the engine has gone through every round. *)
Lemma exhaust_suspended (k : nat) :
  forall (t : nat) w e (l0 l1 : nat),
    two_player_state l0 l1 e ->
    exists w' e',
      exhaust dirichlet (S k) (GenSuspended t (t + S k)) (Some [0%nat; 1%nat]) w e
        = (Val (Some [0%nat; 1%nat]), w', e') /\
      rounds (S k) t w e = (Val tt, w', e') /\
      two_player_state l0 l1 e'.
Proof.
  induction k as [|k IH]; intros t w e l0 l1 Hwf.
  - destruct (round_two_state t w e l0 l1 Hwf) as (w1 & e1 & Hr & Hwf1 & _).
    exists w1, e1. split; [|split; [cbn; rewrite Hr; reflexivity|exact Hwf1]].
    eapply exhaust_stop. rewrite (gen_next_suspended _ _ _ _ _ _ Hr).
    apply loop_head_stop. lia.
  - destruct (round_two_state t w e l0 l1 Hwf) as (w1 & e1 & Hr & Hwf1 & _).
    destruct (IH (S t) w1 e1 l0 l1 Hwf1) as (w' & e' & Hex & Hrs & Hwf').
    exists w', e'. split; [|split; [|exact Hwf']].
    + erewrite exhaust_yield
        by (rewrite (gen_next_suspended _ _ _ _ _ _ Hr); apply loop_head_yield; lia).
      rewrite (current_beliefs_two e1 l0 l1 Hwf1).
      replace (t + S (S k))%nat with (S t + S k)%nat by lia. exact Hex.
    + change (rounds (S (S k)) t w e) with (bind (round t) (fun _ => rounds (S k) (S t)) w e).
      unfold bind. rewrite Hr. exact Hrs.
Qed.

Lemma exhaust_created (T : nat) ib x w e w0 e0 (l0 l1 : nat) :
  set_init_beliefs dirichlet ib w e = (Val tt, w0, e0) ->
  two_player_state l0 l1 e0 ->
  exists wn en,
    exhaust dirichlet (S (S T)) (simulate_iter (T + 1) ib) x w e
      = (Val (Some [0%nat; 1%nat]), wn, en) /\
    rounds (S T) 0 w0 e0 = (Val tt, wn, en) /\
    two_player_state l0 l1 en.
Proof.
  intros Hset Hwf0.
  destruct (exhaust_suspended T 0 w0 e0 l0 l1 Hwf0) as (wn & en & Hex & Hr & Hwfn).
  exists wn, en. split; [|split; assumption].
  unfold simulate_iter. erewrite exhaust_yield
    by (rewrite (gen_next_created _ _ _ _ _ _ Hset); apply loop_head_yield; lia).
  rewrite (current_beliefs_two e0 l0 l1 Hwf0).
  replace (T + 1)%nat with (0 + S T)%nat by lia. exact Hex.
Qed.

(** Every run of [replicate] on a two-player engine seeds the beliefs,
    goes through [T + 1] rounds, and only then records the beliefs: row
    [j] holds the beliefs after [T + 1] updates of run [j]. *)
Lemma replicate_loop_two (T n : nat) ib (l0 l1 : nat) :
  (forall w e, two_player_state l0 l1 e ->
     exists w0 e0, set_init_beliefs dirichlet ib w e = (Val tt, w0, e0)) ->
  forall (k j : nat) x out0 out1 w e,
    two_player_state l0 l1 e ->
    (j + k <= n)%nat ->
    buffer_shape n l0 out0 -> buffer_shape n l1 out1 ->
    exists out0' out1' w' e',
      replicate_loop dirichlet k j T ib x [out0; out1] w e
        = (Val [out0'; out1'], w', e') /\
      buffer_shape n l0 out0' /\ buffer_shape n l1 out1' /\
      (forall j', (j' < j)%nat -> out0' !! j' = out0 !! j' /\ out1' !! j' = out1 !! j') /\
      (forall i, (i < k)%nat ->
         exists wi ei w0 e0 wn en,
           set_init_beliefs dirichlet ib wi ei = (Val tt, w0, e0) /\
           rounds (S T) 0 w0 e0 = (Val tt, wn, en) /\
           out0' !! (j + i)%nat = belief_values en !! 0%nat /\
           out1' !! (j + i)%nat = belief_values en !! 1%nat).
Proof.
  intros Hseed. induction k as [|k IH]; intros j x out0 out1 w e Hwf Hn Hb0 Hb1.
  - exists out0, out1, w, e. split; [reflexivity|]. split; [assumption|]. split; [assumption|].
    split; [intros j' _; split; reflexivity|intros i Hi; lia].
  - destruct (Hseed w e Hwf) as (w0 & e0 & Hset).
    destruct (set_init_beliefs_two_state _ _ _ _ _ _ _ Hwf Hset) as [Hwf0 _].
    destruct (exhaust_created T ib x w e w0 e0 l0 l1 Hset Hwf0) as (wn & en & Hex & Hr & Hwfn).
    pose proof Hwfn as (p0 & p1 & ? & ? & Hp & _ & H0 & H1 & _).
    assert (Hread : read en [0%nat; 1%nat] = [current_belief p0; current_belief p1]).
    { rewrite <- (current_beliefs_two en l0 l1 Hwfn), read_current_beliefs.
      unfold belief_values. rewrite Hp. reflexivity. }
    destruct (set_row_shape n l0 j (current_belief p0) out0 Hb0 ltac:(lia) H0) as [Hs0 Hb0'].
    destruct (set_row_shape n l1 j (current_belief p1) out1 Hb1 ltac:(lia) H1) as [Hs1 Hb1'].
    destruct (IH (S j) (Some [0%nat; 1%nat]) _ _ wn en Hwfn ltac:(lia) Hb0' Hb1')
      as (out0' & out1' & w' & e' & Hloop & Hs0' & Hs1' & Hold & Hnew).
    exists out0', out1', w', e'. split; [|split; [assumption|split; [assumption|split]]].
    + cbn [replicate_loop]. unfold bind at 1. rewrite Hex.
      cbn - [read replicate_loop set_row]. rewrite Hread.
      cbn - [replicate_loop set_row]. rewrite Hs0, Hs1. exact Hloop.
    + intros j' Hj'. destruct (Hold j' ltac:(lia)) as [-> ->].
      rewrite !list_lookup_insert_ne by lia. split; reflexivity.
    + intros [|i] Hi.
      * exists w, e, w0, e0, wn, en. split; [exact Hset|]. split; [exact Hr|].
        rewrite Nat.add_0_r. destruct (Hold j ltac:(lia)) as [-> ->].
        destruct Hb0 as [Hl0 _], Hb1 as [Hl1 _].
        rewrite !list_lookup_insert_eq by lia.
        unfold belief_values. rewrite Hp. split; reflexivity.
      * destruct (Hnew i ltac:(lia)) as (wi & ei & wi0 & ei0 & win & ein & Ha & Hb & Hc & Hd).
        exists wi, ei, wi0, ei0, win, ein.
        replace (j + S i)%nat with (S j + i)%nat by lia. repeat split; assumption.
Qed.

Lemma replicate_two (T num_reps : nat) ib w e (l0 l1 : nat) :
  two_player_state l0 l1 e ->
  (forall w1 e1, two_player_state l0 l1 e1 ->
     exists w0 e0, set_init_beliefs dirichlet ib w1 e1 = (Val tt, w0, e0)) ->
  exists out0 out1 w' e',
    replicate dirichlet T num_reps ib w e = (Val [out0; out1], w', e') /\
    buffer_shape num_reps l0 out0 /\ buffer_shape num_reps l1 out1 /\
    forall j, (j < num_reps)%nat ->
      exists wj ej w0 e0 wn en,
        set_init_beliefs dirichlet ib wj ej = (Val tt, w0, e0) /\
        rounds (S T) 0 w0 e0 = (Val tt, wn, en) /\
        out0 !! j = belief_values en !! 0%nat /\
        out1 !! j = belief_values en !! 1%nat.
Proof.
  intros Hwf Hseed.
  assert (Hsizes : belief_sizes e = [l0; l1]).
  { destruct Hwf as (? & ? & ? & ? & _ & _ & _ & _ & Hs & _). exact Hs. }
  destruct (replicate_loop_two T num_reps ib l0 l1 Hseed num_reps 0 None
              (np_empty2 num_reps l0) (np_empty2 num_reps l1) w e Hwf ltac:(lia)
              (np_empty2_shape num_reps l0) (np_empty2_shape num_reps l1))
    as (out0 & out1 & w' & e' & Hloop & Hb0 & Hb1 & _ & Hrows).
  exists out0, out1, w', e'. split; [|split; [exact Hb0|split; [exact Hb1|exact Hrows]]].
  unfold replicate, bind. cbn - [replicate_loop]. rewrite Hsizes. exact Hloop.
Qed.

(** ** The claims about construction *)

(** C5, as the code has it.  Construction raises the engine's own error
    exactly when a game object has a number of players other than 2 or a
    raw array has a number of dimensions other than 2 or 3, and then
    nothing else has happened (no engine, the world untouched).  In the
    other cases no error of the engine is raised, but construction need not
    succeed: a refusal of the external game constructor is passed on, a
    game that lacks an action count of the opponent for one of its [N]
    players fails with IndexError at [nums_actions[1-i]], and a
    well-formed two-player game yields an engine.  With a Dirichlet
    sampler that returns, construction ends in every case, with an engine,
    the engine's error, the constructor's error, or an error of indexing
    or of the numpy assignment. *)
Theorem init_error_exactly data w :
  ((exists msg, (init dirichlet NormalFormGame_new data w).1 = Exc (ValueError msg)) <->
   match data with
   | DataGame game => g_N game <> 2%nat
   | DataArray payoffs => ndim payoffs <> 2%nat /\ ndim payoffs <> 3%nat
   end) /\
  (forall msg, (init dirichlet NormalFormGame_new data w).1 = Exc (ValueError msg) ->
     init dirichlet NormalFormGame_new data w = (Exc (ValueError msg), w)) /\
  (forall payoffs msg, data = DataArray payoffs ->
     (ndim payoffs = 2%nat \/ ndim payoffs = 3%nat) ->
     NormalFormGame_new payoffs = inl msg ->
     init dirichlet NormalFormGame_new data w = (Exc (ExternalError msg), w)) /\
  (forall game,
     resolve_game NormalFormGame_new data = inr game ->
     opponent_sizes game = None ->
     init dirichlet NormalFormGame_new data w = (Exc IndexError, w)) /\
  (forall game (n0 n1 : nat) q0 q1,
     resolve_game NormalFormGame_new data = inr game ->
     g_N game = 2%nat -> nums_actions game = [n0; n1] -> g_players game = [q0; q1] ->
     (forall alpha w1, length (dirichlet alpha w1).1 = length alpha) ->
     exists e w',
       init dirichlet NormalFormGame_new data w = (Val e, w') /\
       g e = game /\ N e = 2%nat /\ belief_sizes e = [n1; n0] /\
       current_actions e = [0%Z; 0%Z]) /\
  (forall o w', init dirichlet NormalFormGame_new data w = (o, w') ->
     (exists e, o = Val e) \/
     (exists msg, o = Exc (ValueError msg)) \/
     (exists msg, o = Exc (ExternalError msg)) \/
     (exists x, o = Exc x /\ indexing_failure x)).
Proof.
  split; [|split; [|split; [|split; [|split]]]].
  - rewrite <- resolve_game_value_error. split; intros [msg H]; exists msg.
    + apply init_value_error with (w := w). exact H.
    + rewrite (init_resolve_error _ _ _ H). reflexivity.
  - intros msg H. apply init_resolve_error. apply init_value_error with (w := w). exact H.
  - intros payoffs msg -> Hnd Hnew. apply init_resolve_error. cbn. rewrite Hnew.
    destruct Hnd as [-> | ->]; reflexivity.
  - intros game Hres Hsizes. exact (init_no_opponent_size data w game Hres Hsizes).
  - intros game n0 n1 q0 q1 Hres HN Hnums Hps Hdir.
    destruct (init_two_player data w game n0 n1 q0 q1 Hres HN Hnums Hps Hdir)
      as (b0 & b1 & w' & Hinit & _ & _).
    eexists _, w'. split; [exact Hinit|]. repeat split.
  - intros o w' Hinit.
    destruct (resolve_game NormalFormGame_new data) as [x|game] eqn:Hres.
    + rewrite (init_resolve_error _ _ _ Hres) in Hinit. injection Hinit as <- <-.
      destruct (resolve_game_errors data x Hres) as [[msg ->]|[msg ->]].
      * right. left. exists msg. reflexivity.
      * right. right. left. exists msg. reflexivity.
    + destruct (init_after_resolve data w game o w' Hres Hinit) as [He|Hx].
      * left. exact He.
      * right. right. right. exact Hx.
Qed.

(** C9, as the code has it.  For a raw array with two dimensions,
    whatever its shape, the engine's own validation passes: construction
    never raises the engine's error and the array goes to the external
    game constructor as it is.  A refusal by that constructor is passed
    on; it is not the only failure there is: when the constructor
    returns a game, construction can still fail later, with an error of
    indexing or of the numpy assignment, as it does with IndexError for a
    game that lacks an action count of the opponent for one of its
    players. *)
Theorem init_rank2_no_square_check payoffs w :
  ndim payoffs = 2%nat ->
  not_value_error (init dirichlet NormalFormGame_new (DataArray payoffs) w).1 /\
  resolve_game NormalFormGame_new (DataArray payoffs) =
    match NormalFormGame_new payoffs with
    | inl msg => inl (ExternalError msg)
    | inr game => inr game
    end /\
  (forall msg, NormalFormGame_new payoffs = inl msg ->
     init dirichlet NormalFormGame_new (DataArray payoffs) w = (Exc (ExternalError msg), w)) /\
  (forall game, NormalFormGame_new payoffs = inr game ->
     opponent_sizes game = None ->
     init dirichlet NormalFormGame_new (DataArray payoffs) w = (Exc IndexError, w)) /\
  (forall game o w', NormalFormGame_new payoffs = inr game ->
     init dirichlet NormalFormGame_new (DataArray payoffs) w = (o, w') ->
     (exists e, o = Val e) \/ (exists x, o = Exc x /\ indexing_failure x)).
Proof.
  intros Hnd.
  assert (Hres : resolve_game NormalFormGame_new (DataArray payoffs) =
                 match NormalFormGame_new payoffs with
                 | inl msg => inl (ExternalError msg)
                 | inr game => inr game
                 end).
  { cbn. rewrite Hnd. reflexivity. }
  split; [|split; [exact Hres|split; [|split]]].
  - intros msg H. apply init_value_error in H. rewrite Hres in H.
    destruct (NormalFormGame_new payoffs); discriminate.
  - intros msg Hnew. apply init_resolve_error. rewrite Hres, Hnew. reflexivity.
  - intros game Hnew Hsizes. rewrite Hnew in Hres.
    exact (init_no_opponent_size _ w game Hres Hsizes).
  - intros game o w' Hnew Hinit. rewrite Hnew in Hres.
    exact (init_after_resolve _ w game o w' Hres Hinit).
Qed.

(** C8. The schedule construction installs is [t -> 1/(t+2)]: its value
    times [t+2] is 1, it lies in (0, 1] for every [t], it is 1/2 at
    [t = 0], it decreases strictly and it falls below every positive
    bound. *)
Theorem default_step_size_schedule :
  (forall data w e w',
     init dirichlet NormalFormGame_new data w = (Val e, w') ->
     step_size e = default_step_size) /\
  (forall t : nat, default_step_size t * (inject_Z (Z.of_nat t) + 2) == 1) /\
  (forall t : nat, 0 < default_step_size t /\ default_step_size t <= 1) /\
  default_step_size 0 == 1#2 /\
  (0 < default_step_size 0 /\ default_step_size 0 < 1) /\
  (forall t : nat, default_step_size (S t) < default_step_size t) /\
  (forall eps : Q, 0 < eps ->
     exists T : nat, forall t, (T <= t)%nat -> default_step_size t < eps).
Proof.
  split; [|split; [|split; [|split; [|split; [|split]]]]].
  - intros data w e w' H. apply (init_installs data w e w' H).
  - intros t. rewrite default_step_size_frac. unfold Qeq, Qmult, Qplus, inject_Z.
    cbn [Qnum Qden]. rewrite Pos2Z.inj_mul, Zpos_P_of_succ_nat. lia.
  - intros t. destruct (default_step_size_range t) as [Hlo Hhi]. split; [exact Hlo|lra].
  - reflexivity.
  - split; reflexivity.
  - apply default_step_size_decreasing.
  - apply default_step_size_vanishes.
Qed.

(** * Further properties of the methods *)

(** ** [play] *)

Lemma int64_fitsb_spec (a : Z) : int64_fitsb a = true <-> int64_fits a.
Proof.
  unfold int64_fitsb, int64_fits.
  rewrite andb_true_iff, Z.leb_le, Z.ltb_lt. reflexivity.
Qed.

(** [play] asks player 0, then player 1, for a best response to its own
    belief, threading the world in that order.  When both answers fit the
    64-bit action array it overwrites both current actions, whatever they
    were, and touches nothing else; there the model without the width of
    the array does the same.  An answer that does not fit raises
    OverflowError at its assignment: the first before anything is written
    and before player 1 is asked, the second after action 0 has been
    overwritten. *)
Theorem play_sets_actions_only w e p0 p1 (a0 a1 : Z) :
  players e = [p0; p1] ->
  current_actions e = [a0; a1] ->
  exists (r0 r1 : Z) w1 w2,
    best_response p0 (current_belief p0) w = (r0, w1) /\
    best_response p1 (current_belief p1) w1 = (r1, w2) /\
    (int64_fits r0 -> int64_fits r1 ->
     exists e',
       play_int64 w e = (Val tt, w2, e') /\
       play w e = (Val tt, w2, e') /\
       e' = with_actions [r0; r1] e /\
       current_actions e' = [r0; r1] /\
       players e' = players e /\ same_frame (with_actions [r0; r1] e) e') /\
    (~ int64_fits r0 -> play_int64 w e = (Exc OverflowError, w1, e)) /\
    (int64_fits r0 -> ~ int64_fits r1 ->
     play_int64 w e = (Exc OverflowError, w2, with_actions [r0; a1] e)).
Proof.
  intros Hp Ha.
  destruct (best_response p0 (current_belief p0) w) as [r0 w1] eqn:H0.
  destruct (best_response p1 (current_belief p1) w1) as [r1 w2] eqn:H1.
  exists r0, r1, w1, w2. split; [reflexivity|]. split; [exact H1|].
  assert (Hrun : play_int64 w e =
            if int64_fitsb r0
            then if int64_fitsb r1
                 then (Val tt, w2, with_actions [r0; r1] e)
                 else (Exc OverflowError, w2, with_actions [r0; a1] e)
            else (Exc OverflowError, w1, e)).
  { destruct e as [g0 n0 ps sizes acts st]. simpl in *. subst ps acts.
    unfold play_int64, for_players. cbn. rewrite H0. cbn.
    destruct (int64_fitsb r0); cbn; [|reflexivity].
    rewrite H1. cbn. destruct (int64_fitsb r1); reflexivity. }
  split; [|split].
  - intros F0 F1. apply int64_fitsb_spec in F0, F1. rewrite F0, F1 in Hrun.
    exists (with_actions [r0; r1] e). split; [exact Hrun|].
    split; [rewrite (play_two w e p0 p1 a0 a1 Hp Ha), H0; cbn; rewrite H1; reflexivity|].
    repeat split.
  - intros F0. rewrite Hrun.
    destruct (int64_fitsb r0) eqn:E; [|reflexivity].
    apply int64_fitsb_spec in E. contradiction.
  - intros F0 F1. apply int64_fitsb_spec in F0. rewrite F0 in Hrun. rewrite Hrun.
    destruct (int64_fitsb r1) eqn:E; [|reflexivity].
    apply int64_fitsb_spec in E. contradiction.
Qed.

(** ** [update_beliefs] off the expected path *)

(** An action numpy refuses as an index raises IndexError in the middle of
    the update: the belief concerned has already been scaled by [1 - s],
    and the beliefs of the players before it have been fully updated. *)
Theorem update_beliefs_index_error (s : Q) w e p0 p1 (a0 a1 : Z) :
  players e = [p0; p1] ->
  current_actions e = [a0; a1] ->
  (py_index (length (current_belief p0)) a1 = None ->
   update_beliefs s w e =
     (Exc IndexError, w,
      with_players [with_belief (scale (1 - s) (current_belief p0)) p0; p1] e)) /\
  (forall j0 : nat,
     py_index (length (current_belief p0)) a1 = Some j0 ->
     py_index (length (current_belief p1)) a0 = None ->
     update_beliefs s w e =
       (Exc IndexError, w,
        with_players [with_belief (updated s (current_belief p0) j0) p0;
                      with_belief (scale (1 - s) (current_belief p1)) p1] e)).
Proof.
  intros Hp Ha. destruct e as [g0 n0 ps sizes acts st]. simpl in *. subst ps acts.
  split.
  - intros H0. unfold update_beliefs, for_players. cbn.
    change (py_index 2 (1 - Z.of_nat 0)) with (Some 1%nat). cbn.
    rewrite length_scale, H0. cbn. reflexivity.
  - intros j0 H0 H1. unfold update_beliefs, for_players. cbn.
    change (py_index 2 (1 - Z.of_nat 0)) with (Some 1%nat). cbn.
    rewrite length_scale, H0. cbn.
    change (py_index 2 (1 - Z.of_nat 1)) with (Some 0%nat). cbn.
    rewrite length_scale, H1. cbn. reflexivity.
Qed.

(** A negative action within [-len, 0) is not refused: it counts from the
    end of the opponent's belief, which moves towards the point mass on
    index [len + action]. *)
Theorem update_beliefs_negative_action (s : Q) w e p0 p1 (a0 a1 : Z) :
  players e = [p0; p1] ->
  current_actions e = [a0; a1] ->
  (- Z.of_nat (length (current_belief p0)) <= a1 < 0)%Z ->
  (- Z.of_nat (length (current_belief p1)) <= a0 < 0)%Z ->
  exists c0 c1,
    update_beliefs s w e =
      (Val tt, w, with_players [with_belief c0 p0; with_belief c1 p1] e) /\
    vec_eq c0 (convex s (current_belief p0)
                 (onehot (length (current_belief p0))
                    (Z.to_nat (a1 + Z.of_nat (length (current_belief p0)))))) /\
    vec_eq c1 (convex s (current_belief p1)
                 (onehot (length (current_belief p1))
                    (Z.to_nat (a0 + Z.of_nat (length (current_belief p1)))))).
Proof.
  intros Hp Ha H1 H0.
  assert (Hneg : forall (n : nat) (k : Z), (- Z.of_nat n <= k < 0)%Z ->
                   py_index n k = Some (Z.to_nat (k + Z.of_nat n))).
  { intros n k [Hlo Hhi]. unfold py_index.
    destruct (Z.leb_spec 0 k); [lia|]. cbn.
    destruct (Z.leb_spec (- Z.of_nat n) k); [|lia].
    destruct (Z.ltb_spec k 0); [reflexivity|lia]. }
  eexists _, _. split; [|split; apply updated_convex].
  apply (update_beliefs_two s w e p0 p1 a0 a1); try assumption; apply Hneg; assumption.
Qed.

(** Whatever the step, also outside [0, 1], a successful update keeps the
    length of each belief and turns its sum [S] into [(1 - s) * S + s]: a
    belief that sums to 1 sums to 1 afterwards. *)
Theorem update_beliefs_sum (s : Q) w e p0 p1 (a0 a1 : Z) (j0 j1 : nat) :
  players e = [p0; p1] ->
  current_actions e = [a0; a1] ->
  py_index (length (current_belief p0)) a1 = Some j0 ->
  py_index (length (current_belief p1)) a0 = Some j1 ->
  exists c0 c1,
    update_beliefs s w e =
      (Val tt, w, with_players [with_belief c0 p0; with_belief c1 p1] e) /\
    length c0 = length (current_belief p0) /\
    length c1 = length (current_belief p1) /\
    sumQ c0 == (1 - s) * sumQ (current_belief p0) + s /\
    sumQ c1 == (1 - s) * sumQ (current_belief p1) + s /\
    (sumQ (current_belief p0) == 1 -> sumQ c0 == 1) /\
    (sumQ (current_belief p1) == 1 -> sumQ c1 == 1).
Proof.
  intros Hp Ha H0 H1.
  assert (Hsum : forall (b : list Q) (j : nat), (j < length b)%nat ->
                   sumQ (updated s b j) == (1 - s) * sumQ b + s).
  { intros b j Hj. unfold updated.
    rewrite sumQ_add_at by (rewrite length_scale; exact Hj).
    rewrite sumQ_scale. ring. }
  pose proof (py_index_lt _ _ _ H0) as Hj0. pose proof (py_index_lt _ _ _ H1) as Hj1.
  eexists _, _. split; [apply (update_beliefs_two s w e p0 p1 a0 a1 j0 j1); assumption|].
  split; [apply length_updated|]. split; [apply length_updated|].
  split; [apply Hsum; exact Hj0|]. split; [apply Hsum; exact Hj1|].
  split; intros H; rewrite Hsum by assumption; rewrite H; ring.
Qed.

(** The two ends of the step range: with step 0 the update changes no
    entry, with step 1 it forgets the belief and leaves the point mass on
    the opponent's action. *)
Theorem update_beliefs_extreme_steps w e p0 p1 (a0 a1 : Z) (j0 j1 : nat) :
  players e = [p0; p1] ->
  current_actions e = [a0; a1] ->
  py_index (length (current_belief p0)) a1 = Some j0 ->
  py_index (length (current_belief p1)) a0 = Some j1 ->
  (exists c0 c1,
     update_beliefs 0 w e =
       (Val tt, w, with_players [with_belief c0 p0; with_belief c1 p1] e) /\
     vec_eq c0 (current_belief p0) /\ vec_eq c1 (current_belief p1)) /\
  (exists c0 c1,
     update_beliefs 1 w e =
       (Val tt, w, with_players [with_belief c0 p0; with_belief c1 p1] e) /\
     vec_eq c0 (onehot (length (current_belief p0)) j0) /\
     vec_eq c1 (onehot (length (current_belief p1)) j1)).
Proof.
  intros Hp Ha H0 H1. split.
  - eexists _, _. split; [apply (update_beliefs_two 0 w e p0 p1 a0 a1 j0 j1); assumption|].
    split; apply updated_fixed_iff; left; reflexivity.
  - assert (Hone : forall (b : list Q) (j : nat),
                     vec_eq (updated 1 b j) (onehot (length b) j)).
    { intros b j. eapply vec_eq_trans; [apply updated_convex|].
      pose proof (length_onehot (length b) j) as Hlen. revert Hlen.
      generalize (onehot (length b) j) as o. unfold convex, vec_eq. clear.
      induction b as [|x b IH]; intros [|y o] Hlen; cbn in *; try discriminate;
        constructor; [ring|apply IH; lia]. }
    eexists _, _. split; [apply (update_beliefs_two 1 w e p0 p1 a0 a1 j0 j1); assumption|].
    split; apply Hone.
Qed.

(** ** [set_init_beliefs] off the expected path *)

(** With explicit vectors: a missing vector raises IndexError, after the
    beliefs of the players before it have been overwritten; a vector whose
    length is neither the belief's nor 1 is refused by numpy before anything
    is written; vectors beyond the second are ignored. *)
Theorem set_init_beliefs_bad_arguments w e p0 p1 :
  players e = [p0; p1] ->
  set_init_beliefs dirichlet (Some []) w e = (Exc IndexError, w, e) /\
  (forall v0 b0,
     broadcast_to (length (current_belief p0)) v0 = Some b0 ->
     set_init_beliefs dirichlet (Some [v0]) w e =
       (Exc IndexError, w, with_players [with_belief b0 p0; p1] e)) /\
  (forall v0 rest,
     length v0 <> length (current_belief p0) -> length v0 <> 1%nat ->
     set_init_beliefs dirichlet (Some (v0 :: rest)) w e = (Exc BroadcastError, w, e)) /\
  (forall v0 v1 rest,
     set_init_beliefs dirichlet (Some (v0 :: v1 :: rest)) w e =
     set_init_beliefs dirichlet (Some [v0; v1]) w e).
Proof.
  intros Hp.
  assert (Hset : forall given,
            set_init_beliefs dirichlet (Some given) w e = assign_beliefs given w e).
  { intros given. reflexivity. }
  split; [|split; [|split]].
  - rewrite Hset, (assign_beliefs_two _ w e p0 p1 Hp). reflexivity.
  - intros v0 b0 Hb. rewrite Hset, (assign_beliefs_two _ w e p0 p1 Hp). cbn.
    rewrite Hb. reflexivity.
  - intros v0 rest Hlen H1. rewrite Hset, (assign_beliefs_two _ w e p0 p1 Hp). cbn.
    unfold broadcast_to. destruct (Nat.eqb_spec (length v0) (length (current_belief p0)));
      [contradiction|].
    destruct v0 as [|x [|y v0]]; [reflexivity|cbn in H1; lia|reflexivity].
  - intros v0 v1 rest. rewrite !Hset, !(assign_beliefs_two _ w e p0 p1 Hp). reflexivity.
Qed.

Lemma set_init_beliefs_none_two w e p0 p1 (s0 s1 : nat) :
  players e = [p0; p1] ->
  belief_sizes e = [s0; s1] ->
  length (dirichlet (np_ones s0) w).1 = length (current_belief p0) ->
  length (dirichlet (np_ones s1) (dirichlet (np_ones s0) w).2).1
    = length (current_belief p1) ->
  set_init_beliefs dirichlet None w e =
    (Val tt, (dirichlet (np_ones s1) (dirichlet (np_ones s0) w).2).2,
     with_players
       [with_belief (dirichlet (np_ones s0) w).1 p0;
        with_belief (dirichlet (np_ones s1) (dirichlet (np_ones s0) w).2).1 p1] e).
Proof.
  intros Hp Hs H0 H1. unfold set_init_beliefs, bind. cbn. rewrite Hs. cbn.
  destruct (dirichlet (np_ones s0) w) as [d0 w1]. cbn in *.
  destruct (dirichlet (np_ones s1) w1) as [d1 w2]. cbn in *.
  rewrite (assign_beliefs_two _ w2 e p0 p1 Hp). cbn.
  rewrite <- H0, <- H1, !broadcast_to_same. reflexivity.
Qed.

(** Without an argument, [set_init_beliefs] draws one Dirichlet sample per
    player, player 0 first, each with as many ones as [belief_sizes] says,
    and installs the samples as the beliefs; the random state moves by
    exactly these two draws. *)
Theorem set_init_beliefs_draws w e p0 p1 (s0 s1 : nat) :
  players e = [p0; p1] ->
  belief_sizes e = [s0; s1] ->
  length (dirichlet (np_ones s0) w).1 = length (current_belief p0) ->
  length (dirichlet (np_ones s1) (dirichlet (np_ones s0) w).2).1
    = length (current_belief p1) ->
  exists e',
    set_init_beliefs dirichlet None w e =
      (Val tt, (dirichlet (np_ones s1) (dirichlet (np_ones s0) w).2).2, e') /\
    belief_values e' =
      [(dirichlet (np_ones s0) w).1;
       (dirichlet (np_ones s1) (dirichlet (np_ones s0) w).2).1] /\
    same_frame e e'.
Proof.
  intros Hp Hs H0 H1. eexists. split; [apply set_init_beliefs_none_two; eassumption|].
  split; [reflexivity|repeat split].
Qed.

(** ** Runs of length zero *)

(** [simulate(0)] returns one empty buffer per player, but it has pulled
    the generator once: the beliefs have been seeded (and a failing seeding
    fails the call).  [replicate(T, 0)] returns its empty buffers without
    running anything: engine and random state are as before. *)
Theorem zero_length_runs init_beliefs (T : nat) w e :
  simulate dirichlet 0 init_beliefs w e =
    match set_init_beliefs dirichlet init_beliefs w e with
    | (Val _, w0, e0) => (Val ((fun _ => []) <$> belief_sizes e), w0, e0)
    | (Exc x, w0, e0) => (Exc x, w0, e0)
    | (Diverge, w0, e0) => (Diverge, w0, e0)
    end /\
  replicate dirichlet T 0 init_beliefs w e =
    (Val ((fun _ => []) <$> belief_sizes e), w, e).
Proof.
  split.
  - unfold simulate, simulate_iter, bind. cbn - [gen_next].
    unfold gen_next, bind.
    destruct (set_init_beliefs dirichlet init_beliefs w e) as [[[[]| |] w0] e0]; reflexivity.
  - reflexivity.
Qed.

(** ** Construction followed by a run *)

Lemma init_two_player_draws data w game (n0 n1 : nat) q0 q1 :
  resolve_game NormalFormGame_new data = inr game ->
  g_N game = 2%nat ->
  nums_actions game = [n0; n1] ->
  g_players game = [q0; q1] ->
  (forall alpha w1, length (dirichlet alpha w1).1 = length alpha) ->
  init dirichlet NormalFormGame_new data w =
    (Val {| g := game; N := 2;
            players :=
              [ {| best_response := gp_best_response q0;
                   current_belief := (dirichlet (np_ones n1) w).1 |};
                {| best_response := gp_best_response q1;
                   current_belief :=
                     (dirichlet (np_ones n0) (dirichlet (np_ones n1) w).2).1 |} ];
            belief_sizes := [n1; n0];
            current_actions := [0%Z; 0%Z];
            step_size := default_step_size |},
     (dirichlet (np_ones n0) (dirichlet (np_ones n1) w).2).2).
Proof.
  intros Hres HN Hnums Hps Hdir. unfold init. rewrite Hres.
  destruct game as [gn gps gnums]. cbn in HN, Hnums, Hps. subst gn gps gnums.
  cbn [opponent_sizes g_N nums_actions g_players mapM seq length].
  change (py_index 2 (1 - Z.of_nat 0)) with (Some 1%nat).
  change (py_index 2 (1 - Z.of_nat 1)) with (Some 0%nat). cbn - [set_init_beliefs].
  match goal with |- context [set_init_beliefs dirichlet None w ?e0] =>
    rewrite (set_init_beliefs_none_two w e0 _ _ n1 n0 eq_refl eq_refl) end.
  - reflexivity.
  - cbn. rewrite Hdir. unfold np_ones, np_empty. rewrite !repeat_length. reflexivity.
  - cbn. rewrite Hdir. unfold np_ones, np_empty. rewrite !repeat_length. reflexivity.
Qed.

(** Construction from a well-formed two-player game, with a sampler that
    returns vectors of the length asked for and best responses inside each
    player's own action set, leaves an engine that holds the game, [N = 2],
    the players' best responses, belief sizes [(n1, n0)] (the opponents'
    action counts), current actions [[0, 0]] and the default schedule, in
    the state every method keeps; its beliefs are the two Dirichlet draws,
    player 0 first, hence probability vectors when the sampler returns
    such, and the random state has moved by these two draws. *)
Theorem init_establishes_state data w game (n0 n1 : nat) q0 q1 :
  resolve_game NormalFormGame_new data = inr game ->
  g_N game = 2%nat ->
  nums_actions game = [n0; n1] ->
  g_players game = [q0; q1] ->
  (forall alpha w1, length (dirichlet alpha w1).1 = length alpha) ->
  (forall b w1, (0 <= (gp_best_response q0 b w1).1 < Z.of_nat n0)%Z) ->
  (forall b w1, (0 <= (gp_best_response q1 b w1).1 < Z.of_nat n1)%Z) ->
  exists e w',
    init dirichlet NormalFormGame_new data w = (Val e, w') /\
    w' = (dirichlet (np_ones n0) (dirichlet (np_ones n1) w).2).2 /\
    g e = game /\ N e = 2%nat /\
    belief_sizes e = [n1; n0] /\
    current_actions e = [0%Z; 0%Z] /\
    best_response <$> players e = [gp_best_response q0; gp_best_response q1] /\
    two_player_state n1 n0 e /\
    step_size e = default_step_size /\
    belief_values e =
      [(dirichlet (np_ones n1) w).1;
       (dirichlet (np_ones n0) (dirichlet (np_ones n1) w).2).1] /\
    ((forall n w1, n = n0 \/ n = n1 -> is_distribution (dirichlet (np_ones n) w1).1) ->
     Forall is_distribution (belief_values e)).
Proof.
  intros Hres HN Hnums Hps Hdir Hq0 Hq1.
  eexists _, _. split; [apply (init_two_player_draws data w game n0 n1 q0 q1); assumption|].
  do 6 (split; [reflexivity|]).
  split; [|split; [reflexivity|split; [reflexivity|]]].
  - eexists _, _, 0%Z, 0%Z. split; [reflexivity|]. split; [reflexivity|].
    cbn. rewrite !Hdir. unfold np_ones. rewrite !repeat_length.
    split; [reflexivity|]. split; [reflexivity|]. split; [reflexivity|].
    split; intros b w1; cbn; rewrite py_index_nonneg by auto; eexists; reflexivity.
  - intros Hdist. cbn. repeat constructor; apply Hdist; auto.
Qed.

(** End to end: construct the engine from such a game and call
    [simulate(ts_length)] without initial beliefs.  The call returns two
    buffers of shapes [(ts_length, n1)] and [(ts_length, n0)], and every
    row of both is a probability vector. *)
Theorem init_then_simulate data w game (n0 n1 ts_length : nat) q0 q1 :
  resolve_game NormalFormGame_new data = inr game ->
  g_N game = 2%nat ->
  nums_actions game = [n0; n1] ->
  g_players game = [q0; q1] ->
  (forall alpha w1, length (dirichlet alpha w1).1 = length alpha) ->
  (forall n w1, n = n0 \/ n = n1 -> is_distribution (dirichlet (np_ones n) w1).1) ->
  (forall b w1, (0 <= (gp_best_response q0 b w1).1 < Z.of_nat n0)%Z) ->
  (forall b w1, (0 <= (gp_best_response q1 b w1).1 < Z.of_nat n1)%Z) ->
  exists e w' buf0 buf1 wn en,
    init dirichlet NormalFormGame_new data w = (Val e, w') /\
    simulate dirichlet ts_length None w' e = (Val [buf0; buf1], wn, en) /\
    buffer_shape ts_length n1 buf0 /\ buffer_shape ts_length n0 buf1 /\
    Forall is_distribution buf0 /\ Forall is_distribution buf1.
Proof.
  intros Hres HN Hnums Hps Hdir Hdist Hq0 Hq1.
  pose proof (init_two_player_draws data w game n0 n1 q0 q1 Hres HN Hnums Hps Hdir) as Hinit.
  match type of Hinit with _ = (Val ?E, ?W) => set (e := E) in *; set (w' := W) in * end.
  assert (Hwf : two_player_state n1 n0 e).
  { eexists _, _, 0%Z, 0%Z. split; [reflexivity|]. split; [reflexivity|].
    cbn. rewrite !Hdir. unfold np_ones. rewrite !repeat_length.
    split; [reflexivity|]. split; [reflexivity|]. split; [reflexivity|].
    split; intros b w1; cbn; rewrite py_index_nonneg by auto; eexists; reflexivity. }
  assert (Hset : exists w0 e0, set_init_beliefs dirichlet None w' e = (Val tt, w0, e0) /\
                               Forall is_distribution (belief_values e0)).
  { eexists _, _. split.
    - eapply (set_init_beliefs_none_two w' e) with (s0 := n1) (s1 := n0);
        [reflexivity|reflexivity|..];
        cbn; rewrite !Hdir; unfold np_ones; rewrite !repeat_length; reflexivity.
    - cbn. repeat constructor; apply Hdist; auto. }
  destruct Hset as (w0 & e0 & Hset & Hd0).
  destruct (set_init_beliefs_two_state _ _ _ _ _ _ _ Hwf Hset) as [Hwf0 Hs0].
  destruct (simulate_two ts_length None w' e w0 e0 n1 n0 Hwf Hset)
    as (vs & buf0 & buf1 & wn & en & Hg & Hsim & _ & _ & Hb0 & Hb1 & Hrows & _).
  destruct (gen_values_created ts_length _ _ _ _ _ _ _ Hset Hwf0)
    as (vs' & wn' & en' & Hg' & Hlen & _ & Hvs).
  rewrite Hg in Hg'. injection Hg' as <- <- <-.
  assert (Hrow : forall t, (t < ts_length)%nat ->
            exists b0 b1, buf0 !! t = Some b0 /\ buf1 !! t = Some b1 /\
                          is_distribution b0 /\ is_distribution b1).
  { intros t Ht. destruct (Hvs t Ht) as (wt & et & Hrt & Hwft & _ & Hv).
    destruct (Hrows t _ Hv) as [Hr0 Hr1].
    assert (Hdt : Forall is_distribution (belief_values et)).
    { apply (rounds_two_distribution t 0 w0 e0 wt et n1 n0); try assumption.
      intros i. rewrite Hs0. cbn.
      destruct (default_step_size_range i) as [Hlo Hhi]. split; lra. }
    destruct Hwft as (p0 & p1 & ? & ? & Hp & _).
    unfold belief_values in Hdt, Hr0, Hr1. rewrite Hp in Hdt, Hr0, Hr1. cbn in *.
    inversion Hdt as [|? ? Hd Hdt']; subst. inversion Hdt' as [|? ? Hd' _]; subst.
    exists (current_belief p0), (current_belief p1).
    split; [exact Hr0|split; [exact Hr1|split; [exact Hd|exact Hd']]]. }
  exists e, w', buf0, buf1, wn, en.
  split; [exact Hinit|]. split; [exact Hsim|]. split; [exact Hb0|]. split; [exact Hb1|].
  split; apply Forall_lookup_2; intros t row Hrow'.
  - assert (Ht : (t < ts_length)%nat).
    { destruct Hb0 as [<- _]. eapply lookup_lt_Some; eassumption. }
    destruct (Hrow t Ht) as (b0 & b1 & H0 & _ & Hd & _). congruence.
  - assert (Ht : (t < ts_length)%nat).
    { destruct Hb1 as [<- _]. eapply lookup_lt_Some; eassumption. }
    destruct (Hrow t Ht) as (b0 & b1 & _ & H1 & _ & Hd). congruence.
Qed.

(** ** Runs that do not depend on the random state *)

Lemma round_two_explicit (t : nat) w e p0 p1 (c0 c1 : Z) (j0 j1 : nat) :
  players e = [p0; p1] ->
  current_actions e = [c0; c1] ->
  py_index (length (current_belief p0))
    (best_response p1 (current_belief p1) (best_response p0 (current_belief p0) w).2).1
    = Some j0 ->
  py_index (length (current_belief p1)) (best_response p0 (current_belief p0) w).1
    = Some j1 ->
  round t w e =
    (Val tt,
     (best_response p1 (current_belief p1) (best_response p0 (current_belief p0) w).2).2,
     with_players
       [with_belief (updated (step_size e t) (current_belief p0) j0) p0;
        with_belief (updated (step_size e t) (current_belief p1) j1) p1]
       (with_actions
          [(best_response p0 (current_belief p0) w).1;
           (best_response p1 (current_belief p1)
              (best_response p0 (current_belief p0) w).2).1] e)).
Proof.
  intros Hp Ha Hj0 Hj1.
  unfold round, bind. rewrite (play_two w e p0 p1 c0 c1 Hp Ha). cbn.
  erewrite update_beliefs_two; [reflexivity| | |exact Hj0|exact Hj1].
  - destruct e; assumption.
  - reflexivity.
Qed.

(** A round from two engines with the same players (beliefs included) and
    the same schedule ends with the same players and the same actions,
    whatever the actions before, provided the random states are the same
    or the best responses ignore the random state. *)
Lemma round_deterministic (t : nat) w w' e e' (l0 l1 : nat) :
  two_player_state l0 l1 e ->
  two_player_state l0 l1 e' ->
  players e' = players e ->
  step_size e' = step_size e ->
  w' = w \/ Forall deterministic (best_response <$> players e) ->
  exists w1 e1 w1' e1',
    round t w e = (Val tt, w1, e1) /\ round t w' e' = (Val tt, w1', e1') /\
    two_player_state l0 l1 e1 /\ two_player_state l0 l1 e1' /\
    players e1' = players e1 /\ step_size e1' = step_size e1 /\
    step_size e1 = step_size e /\
    best_response <$> players e1 = best_response <$> players e /\
    (w' = w -> w1' = w1).
Proof.
  intros Hwf Hwf' Hps Hst Hdet.
  pose proof Hwf as (p0 & p1 & c0 & c1 & Hp & Ha & H0 & H1 & _ & Hv0 & Hv1).
  pose proof Hwf' as (p0' & p1' & c0' & c1' & Hp' & Ha' & _).
  rewrite Hps, Hp in Hp'. injection Hp' as <- <-.
  rewrite Hp in Hdet. cbn in Hdet.
  rewrite <- H0 in Hv1. rewrite <- H1 in Hv0.
  set (r0 := best_response p0 (current_belief p0) w).
  set (r0' := best_response p0 (current_belief p0) w').
  set (r1 := best_response p1 (current_belief p1) r0.2).
  set (r1' := best_response p1 (current_belief p1) r0'.2).
  assert (E0 : r0'.1 = r0.1).
  { destruct Hdet as [->|Hdet]; [reflexivity|]. apply (Forall_inv Hdet). }
  assert (E1 : r1'.1 = r1.1).
  { destruct Hdet as [Hw|Hdet].
    - unfold r1', r1, r0', r0. rewrite Hw. reflexivity.
    - apply (Forall_inv (Forall_inv_tail Hdet)). }
  assert (E2 : w' = w -> r1'.2 = r1.2).
  { intros Hw. unfold r1', r1, r0', r0. rewrite Hw. reflexivity. }
  destruct (Hv0 (current_belief p0) w) as [j1 Hj1]. fold r0 in Hj1.
  destruct (Hv1 (current_belief p1) r0.2) as [j0 Hj0]. fold r1 in Hj0.
  pose proof (round_two_explicit t w e p0 p1 c0 c1 j0 j1 Hp Ha Hj0 Hj1) as Hr.
  assert (Hp2 : players e' = [p0; p1]) by congruence.
  pose proof (round_two_explicit t w' e' p0 p1 c0' c1' j0 j1 Hp2 Ha') as Hr'.
  fold r0' r1' in Hr'. rewrite E0, E1 in Hr'.
  specialize (Hr' Hj0 Hj1). fold r0 r1 in Hr.
  destruct (round_two_state t w e l0 l1 Hwf) as (w1 & e1 & Hr1 & Hwf1 & Hs1).
  destruct (round_two_state t w' e' l0 l1 Hwf') as (w1' & e1' & Hr1' & Hwf1' & Hs1').
  exists w1, e1, w1', e1'.
  split; [exact Hr1|]. split; [exact Hr1'|]. split; [exact Hwf1|]. split; [exact Hwf1'|].
  rewrite Hr in Hr1. rewrite Hr' in Hr1'.
  injection Hr1 as <- <-. injection Hr1' as <- <-. cbn.
  rewrite Hst, Hp. repeat split. exact E2.
Qed.

Lemma rounds_deterministic (k : nat) :
  forall (t : nat) w w' e e' (l0 l1 : nat),
    two_player_state l0 l1 e ->
    two_player_state l0 l1 e' ->
    players e' = players e ->
    step_size e' = step_size e ->
    w' = w \/ Forall deterministic (best_response <$> players e) ->
    exists wn en wn' en',
      rounds k t w e = (Val tt, wn, en) /\ rounds k t w' e' = (Val tt, wn', en') /\
      two_player_state l0 l1 en /\ two_player_state l0 l1 en' /\
      players en' = players en /\
      step_size en = step_size e /\ step_size en' = step_size e /\
      best_response <$> players en = best_response <$> players e.
Proof.
  induction k as [|k IH]; intros t w w' e e' l0 l1 Hwf Hwf' Hps Hst Hdet.
  - exists w, e, w', e'. repeat split; assumption.
  - destruct (round_deterministic t w w' e e' l0 l1 Hwf Hwf' Hps Hst Hdet)
      as (w1 & e1 & w1' & e1' & Hr & Hr' & Hwf1 & Hwf1' & Hps1 & Hst1 & Hst1e & Hbr1 & Hw1).
    assert (Hdet1 : w1' = w1 \/ Forall deterministic (best_response <$> players e1)).
    { destruct Hdet as [Hw|Hdet]; [left; exact (Hw1 Hw)|right; rewrite Hbr1; exact Hdet]. }
    destruct (IH (S t) w1 w1' e1 e1' l0 l1 Hwf1 Hwf1' Hps1 Hst1 Hdet1)
      as (wn & en & wn' & en' & Hrs & Hrs' & Hwfn & Hwfn' & Hpsn & Hstn & Hstn' & Hbrn).
    exists wn, en, wn', en'.
    change (rounds (S k) t w e) with (bind (round t) (fun _ => rounds k (S t)) w e).
    change (rounds (S k) t w' e') with (bind (round t) (fun _ => rounds k (S t)) w' e').
    unfold bind. rewrite Hr, Hr'.
    repeat split; try assumption; congruence.
Qed.

(** Seeding two engines of the same game with the same explicit vectors
    makes their players equal. *)
Lemma set_init_beliefs_same_players (b0 b1 : list Q) w w' e e' (l0 l1 : nat) :
  two_player_state l0 l1 e ->
  two_player_state l0 l1 e' ->
  best_response <$> players e' = best_response <$> players e ->
  length b0 = l0 -> length b1 = l1 ->
  exists e0 e0',
    set_init_beliefs dirichlet (Some [b0; b1]) w e = (Val tt, w, e0) /\
    set_init_beliefs dirichlet (Some [b0; b1]) w' e' = (Val tt, w', e0') /\
    players e0' = players e0 /\ belief_values e0 = [b0; b1] /\
    two_player_state l0 l1 e0 /\ two_player_state l0 l1 e0' /\
    step_size e0 = step_size e /\ step_size e0' = step_size e' /\
    best_response <$> players e0 = best_response <$> players e.
Proof.
  intros Hwf Hwf' Hbr Hb0 Hb1.
  pose proof Hwf as (p0 & p1 & c0 & c1 & Hp & _ & H0 & H1 & _).
  pose proof Hwf' as (p0' & p1' & c0' & c1' & Hp' & _ & H0' & H1' & _).
  rewrite Hp, Hp' in Hbr. cbn in Hbr. injection Hbr as Hbr0 Hbr1.
  assert (Hset : set_init_beliefs dirichlet (Some [b0; b1]) w e =
                 (Val tt, w, with_players [with_belief b0 p0; with_belief b1 p1] e)).
  { change (set_init_beliefs dirichlet (Some [b0; b1]) w e)
      with (assign_beliefs [b0; b1] w e).
    rewrite (assign_beliefs_two _ w e p0 p1 Hp). cbn.
    rewrite H0, H1, <- Hb0, <- Hb1, !broadcast_to_same. reflexivity. }
  assert (Hset' : set_init_beliefs dirichlet (Some [b0; b1]) w' e' =
                  (Val tt, w', with_players [with_belief b0 p0'; with_belief b1 p1'] e')).
  { change (set_init_beliefs dirichlet (Some [b0; b1]) w' e')
      with (assign_beliefs [b0; b1] w' e').
    rewrite (assign_beliefs_two _ w' e' p0' p1' Hp'). cbn.
    rewrite H0', H1', <- Hb0, <- Hb1, !broadcast_to_same. reflexivity. }
  eexists _, _. split; [exact Hset|]. split; [exact Hset'|].
  destruct (set_init_beliefs_two_state _ _ _ _ _ _ _ Hwf Hset) as [Hwf0 Hs0].
  destruct (set_init_beliefs_two_state _ _ _ _ _ _ _ Hwf' Hset') as [Hwf0' Hs0'].
  split; [|split; [reflexivity|split; [exact Hwf0|split; [exact Hwf0'|
    split; [exact Hs0|split; [exact Hs0'|]]]]]].
  - cbn. unfold with_belief. rewrite Hbr0, Hbr1. reflexivity.
  - cbn. rewrite Hp. reflexivity.
Qed.

(** Two engines of the same game seeded with the same explicit vectors
    give [simulate] the same buffers. *)
Lemma simulate_same_buffers (ts_length : nat) (b0 b1 : list Q) w w' e e' (l0 l1 : nat) :
  two_player_state l0 l1 e ->
  two_player_state l0 l1 e' ->
  best_response <$> players e' = best_response <$> players e ->
  step_size e' = step_size e ->
  length b0 = l0 -> length b1 = l1 ->
  w' = w \/ Forall deterministic (best_response <$> players e) ->
  exists buf0 buf1 wn en wn' en',
    simulate dirichlet ts_length (Some [b0; b1]) w e = (Val [buf0; buf1], wn, en) /\
    simulate dirichlet ts_length (Some [b0; b1]) w' e' = (Val [buf0; buf1], wn', en').
Proof.
  intros Hwf Hwf' Hbr Hst Hb0 Hb1 Hdet.
  destruct (set_init_beliefs_same_players b0 b1 w w' e e' l0 l1 Hwf Hwf' Hbr Hb0 Hb1)
    as (e0 & e0' & Hset & Hset' & Hps0 & _ & Hwf0 & Hwf0' & Hs0 & Hs0' & Hbr0).
  destruct (simulate_two ts_length _ w e w e0 l0 l1 Hwf Hset)
    as (vs & buf0 & buf1 & wn & en & Hg & Hsim & _ & _ & Hsh0 & Hsh1 & Hrows & _).
  destruct (simulate_two ts_length _ w' e' w' e0' l0 l1 Hwf' Hset')
    as (vs' & buf0' & buf1' & wn' & en' & Hg' & Hsim' & _ & _ & Hsh0' & Hsh1' & Hrows' & _).
  destruct (gen_values_created ts_length _ _ _ _ _ _ _ Hset Hwf0)
    as (vs1 & ? & ? & Hg1 & Hlen & _ & Hvs).
  rewrite Hg in Hg1. injection Hg1 as <- <- <-.
  destruct (gen_values_created ts_length _ _ _ _ _ _ _ Hset' Hwf0')
    as (vs1 & ? & ? & Hg1 & Hlen' & _ & Hvs').
  rewrite Hg' in Hg1. injection Hg1 as <- <- <-.
  assert (Hdet0 : w' = w \/ Forall deterministic (best_response <$> players e0))
    by (rewrite Hbr0; exact Hdet).
  assert (Hst0 : step_size e0' = step_size e0) by congruence.
  assert (Hsame : forall t, (t < ts_length)%nat -> vs' !! t = vs !! t).
  { intros t Ht.
    destruct (Hvs t Ht) as (wt & et & Hrt & _ & _ & Hv).
    destruct (Hvs' t Ht) as (wt' & et' & Hrt' & _ & _ & Hv').
    destruct (rounds_deterministic t 0 w w' e0 e0' l0 l1 Hwf0 Hwf0' Hps0 Hst0 Hdet0)
      as (w1 & e1 & w1' & e1' & Hr1 & Hr1' & _ & _ & Hps1 & _).
    rewrite Hrt in Hr1. rewrite Hrt' in Hr1'.
    injection Hr1 as <- <-. injection Hr1' as <- <-.
    rewrite Hv, Hv'. unfold belief_values. rewrite Hps1. reflexivity. }
  assert (Hbuf : buf0' = buf0 /\ buf1' = buf1).
  { destruct Hsh0 as [Hl0 _], Hsh1 as [Hl1 _], Hsh0' as [Hl0' _], Hsh1' as [Hl1' _].
    split; apply list_eq; intros t; destruct (Nat.lt_ge_cases t ts_length) as [Ht|Ht].
    - destruct (Hvs t Ht) as (? & et & _ & _ & _ & Hv).
      pose proof (Hsame t Ht) as Hv'. rewrite Hv in Hv'.
      rewrite (proj1 (Hrows t _ Hv)), (proj1 (Hrows' t _ Hv')). reflexivity.
    - rewrite !lookup_ge_None_2 by lia. reflexivity.
    - destruct (Hvs t Ht) as (? & et & _ & _ & _ & Hv).
      pose proof (Hsame t Ht) as Hv'. rewrite Hv in Hv'.
      rewrite (proj2 (Hrows t _ Hv)), (proj2 (Hrows' t _ Hv')). reflexivity.
    - rewrite !lookup_ge_None_2 by lia. reflexivity. }
  destruct Hbuf as [-> ->].
  exists buf0, buf1, wn, en, wn', en'. split; assumption.
Qed.

(** [simulate] with explicit initial beliefs is a restart: two engines of
    the same game and schedule return the same buffers, whatever beliefs
    and actions earlier runs left in them, when they start from the same
    random state or the best responses ignore the random state. *)
Theorem simulate_restarts (ts_length : nat) (b0 b1 : list Q) w w' e e' (l0 l1 : nat) :
  two_player_state l0 l1 e ->
  two_player_state l0 l1 e' ->
  best_response <$> players e' = best_response <$> players e ->
  step_size e' = step_size e ->
  length b0 = l0 -> length b1 = l1 ->
  w' = w \/ Forall deterministic (best_response <$> players e) ->
  exists buf0 buf1 wn en wn' en',
    simulate dirichlet ts_length (Some [b0; b1]) w e = (Val [buf0; buf1], wn, en) /\
    simulate dirichlet ts_length (Some [b0; b1]) w' e' = (Val [buf0; buf1], wn', en').
Proof. apply simulate_same_buffers. Qed.

(** The loop of [replicate] under an invariant [I] of the engine that every
    run restores, with [P] holding of the beliefs each run ends with. *)
Lemma replicate_loop_inv (T n : nat) ib (l0 l1 : nat)
    (I : FictitiousPlay World -> Prop) (P : list Q -> list Q -> Prop) :
  (forall w e, two_player_state l0 l1 e -> I e ->
     exists w0 e0 wn en c0 c1,
       set_init_beliefs dirichlet ib w e = (Val tt, w0, e0) /\
       rounds (S T) 0 w0 e0 = (Val tt, wn, en) /\
       belief_values en = [c0; c1] /\ I en /\ P c0 c1) ->
  forall (k j : nat) x out0 out1 w e,
    two_player_state l0 l1 e -> I e ->
    (j + k <= n)%nat ->
    buffer_shape n l0 out0 -> buffer_shape n l1 out1 ->
    exists out0' out1' w' e',
      replicate_loop dirichlet k j T ib x [out0; out1] w e
        = (Val [out0'; out1'], w', e') /\
      buffer_shape n l0 out0' /\ buffer_shape n l1 out1' /\
      (forall j', (j' < j)%nat -> out0' !! j' = out0 !! j' /\ out1' !! j' = out1 !! j') /\
      (forall i, (i < k)%nat ->
         exists c0 c1, out0' !! (j + i)%nat = Some c0 /\
                       out1' !! (j + i)%nat = Some c1 /\ P c0 c1).
Proof.
  intros Hrun. induction k as [|k IH]; intros j x out0 out1 w e Hwf HI Hn Hb0 Hb1.
  - exists out0, out1, w, e. split; [reflexivity|]. split; [assumption|]. split; [assumption|].
    split; [intros j' _; split; reflexivity|intros i Hi; lia].
  - destruct (Hrun w e Hwf HI) as (w0 & e0 & wn & en & c0 & c1 & Hset & Hr & Hbv & HIn & HP).
    destruct (set_init_beliefs_two_state _ _ _ _ _ _ _ Hwf Hset) as [Hwf0 _].
    destruct (exhaust_created T ib x w e w0 e0 l0 l1 Hset Hwf0)
      as (wn' & en' & Hex & Hr' & Hwfn).
    rewrite Hr in Hr'. injection Hr' as <- <-.
    pose proof Hwfn as (p0 & p1 & ? & ? & Hp & _ & H0 & H1 & _).
    assert (Hc : c0 = current_belief p0 /\ c1 = current_belief p1).
    { unfold belief_values in Hbv. rewrite Hp in Hbv. cbn in Hbv.
      injection Hbv as <- <-. split; reflexivity. }
    destruct Hc as [-> ->].
    assert (Hread : read en [0%nat; 1%nat] = [current_belief p0; current_belief p1]).
    { rewrite <- (current_beliefs_two en l0 l1 Hwfn), read_current_beliefs. exact Hbv. }
    destruct (set_row_shape n l0 j (current_belief p0) out0 Hb0 ltac:(lia) H0) as [Hs0 Hb0'].
    destruct (set_row_shape n l1 j (current_belief p1) out1 Hb1 ltac:(lia) H1) as [Hs1 Hb1'].
    destruct (IH (S j) (Some [0%nat; 1%nat]) _ _ wn en Hwfn HIn ltac:(lia) Hb0' Hb1')
      as (out0' & out1' & w' & e' & Hloop & Hs0' & Hs1' & Hold & Hnew).
    exists out0', out1', w', e'. split; [|split; [assumption|split; [assumption|split]]].
    + cbn [replicate_loop]. unfold bind at 1. rewrite Hex.
      cbn - [read replicate_loop set_row]. rewrite Hread.
      cbn - [replicate_loop set_row]. rewrite Hs0, Hs1. exact Hloop.
    + intros j' Hj'. destruct (Hold j' ltac:(lia)) as [-> ->].
      rewrite !list_lookup_insert_ne by lia. split; reflexivity.
    + intros [|i] Hi.
      * exists (current_belief p0), (current_belief p1).
        rewrite Nat.add_0_r. destruct (Hold j ltac:(lia)) as [-> ->].
        destruct Hb0 as [Hl0 _], Hb1 as [Hl1 _].
        rewrite !list_lookup_insert_eq by lia. repeat split. exact HP.
      * replace (j + S i)%nat with (S j + i)%nat by lia. apply Hnew. lia.
Qed.

(** With explicit initial beliefs and best responses that ignore the
    random state, every run of [replicate] ends with the same beliefs: all
    [num_reps] rows of a player's buffer are equal, namely to that player's
    belief after [T + 1] rounds from the given initial beliefs. *)
Theorem replicate_rows_identical (T num_reps : nat) (b0 b1 : list Q) w e (l0 l1 : nat) :
  two_player_state l0 l1 e ->
  Forall deterministic (best_response <$> players e) ->
  length b0 = l0 -> length b1 = l1 ->
  exists out0 out1 w' e' e0 wn en c0 c1,
    replicate dirichlet T num_reps (Some [b0; b1]) w e = (Val [out0; out1], w', e') /\
    set_init_beliefs dirichlet (Some [b0; b1]) w e = (Val tt, w, e0) /\
    rounds (S T) 0 w e0 = (Val tt, wn, en) /\
    belief_values en = [c0; c1] /\
    length out0 = num_reps /\ length out1 = num_reps /\
    Forall (fun row => row = c0) out0 /\ Forall (fun row => row = c1) out1.
Proof.
  intros Hwf Hdet Hb0 Hb1.
  destruct (set_init_beliefs_same_players b0 b1 w w e e l0 l1 Hwf Hwf eq_refl Hb0 Hb1)
    as (e0 & _ & Hset & _ & _ & _ & Hwf0 & _ & Hs0 & _ & Hbr0).
  destruct (rounds_two (S T) 0 w e0 l0 l1 Hwf0) as (wn & en & Hr & Hwfn & _).
  pose proof Hwfn as (q0 & q1 & ? & ? & Hq & _).
  set (I := fun e1 : FictitiousPlay World =>
              best_response <$> players e1 = best_response <$> players e /\
              step_size e1 = step_size e).
  set (P := fun c0 c1 : list Q => c0 = current_belief q0 /\ c1 = current_belief q1).
  assert (Hrun : forall w1 e1, two_player_state l0 l1 e1 -> I e1 ->
            exists w0 e0' wn' en' c0 c1,
              set_init_beliefs dirichlet (Some [b0; b1]) w1 e1 = (Val tt, w0, e0') /\
              rounds (S T) 0 w0 e0' = (Val tt, wn', en') /\
              belief_values en' = [c0; c1] /\ I en' /\ P c0 c1).
  { intros w1 e1 Hwf1 [Hbr1 Hst1].
    destruct (set_init_beliefs_same_players b0 b1 w w1 e e1 l0 l1 Hwf Hwf1 Hbr1 Hb0 Hb1)
      as (e0a & e0' & Hseta & Hset1 & Hps & _ & _ & Hwf0' & _ & Hs0' & _).
    rewrite Hset in Hseta. injection Hseta as <-.
    assert (Hdet0 : w1 = w \/ Forall deterministic (best_response <$> players e0))
      by (right; rewrite Hbr0; exact Hdet).
    destruct (rounds_deterministic (S T) 0 w w1 e0 e0' l0 l1 Hwf0 Hwf0' Hps
                ltac:(congruence) Hdet0)
      as (wa & ea & wn' & en' & Hra & Hr' & _ & _ & Hpsn & Hsta & Hstn' & Hbrn).
    rewrite Hr in Hra. injection Hra as <- <-.
    exists w1, e0', wn', en', (current_belief q0), (current_belief q1).
    split; [exact Hset1|]. split; [exact Hr'|].
    split; [unfold belief_values; rewrite Hpsn, Hq; reflexivity|].
    split; [|split; reflexivity].
    split; [rewrite Hpsn; congruence|congruence]. }
  assert (Hsizes : belief_sizes e = [l0; l1]).
  { destruct Hwf as (? & ? & ? & ? & _ & _ & _ & _ & Hs & _). exact Hs. }
  destruct (replicate_loop_inv T num_reps (Some [b0; b1]) l0 l1 I P Hrun num_reps 0 None
              (np_empty2 num_reps l0) (np_empty2 num_reps l1) w e Hwf
              ltac:(split; reflexivity) ltac:(lia)
              (np_empty2_shape num_reps l0) (np_empty2_shape num_reps l1))
    as (out0 & out1 & w' & e' & Hloop & [Hl0 _] & [Hl1 _] & _ & Hrows).
  exists out0, out1, w', e', e0, wn, en, (current_belief q0), (current_belief q1).
  split; [unfold replicate, bind; cbn - [replicate_loop]; rewrite Hsizes; exact Hloop|].
  split; [exact Hset|]. split; [exact Hr|].
  split; [unfold belief_values; rewrite Hq; reflexivity|].
  split; [exact Hl0|]. split; [exact Hl1|].
  split; apply Forall_lookup_2; intros j row Hrow.
  - assert (Hj : (j < num_reps)%nat) by (rewrite <- Hl0; eapply lookup_lt_Some; eassumption).
    destruct (Hrows j Hj) as (c0 & c1 & H0 & _ & [-> _]). cbn in H0. congruence.
  - assert (Hj : (j < num_reps)%nat) by (rewrite <- Hl1; eapply lookup_lt_Some; eassumption).
    destruct (Hrows j Hj) as (c0 & c1 & _ & H1 & [_ ->]). cbn in H1. congruence.
Qed.

(** ** What a run leaves behind *)

Lemma round_same_game (t : nat) w e w' e' (l0 l1 : nat) :
  two_player_state l0 l1 e ->
  round t w e = (Val tt, w', e') ->
  same_game e e'.
Proof.
  intros Hwf Hr.
  destruct (round_two t w e l0 l1 Hwf)
    as (p0 & p1 & a0 & a1 & j0 & j1 & w1 & Hp & _ & _ & _ & _ & Hr').
  rewrite Hr in Hr'. injection Hr' as -> ->.
  repeat split; cbn. rewrite Hp. reflexivity.
Qed.

Lemma rounds_same_game (k : nat) :
  forall (t : nat) w e w' e' (l0 l1 : nat),
    two_player_state l0 l1 e ->
    rounds k t w e = (Val tt, w', e') ->
    same_game e e' /\ two_player_state l0 l1 e'.
Proof.
  induction k as [|k IH]; intros t w e w' e' l0 l1 Hwf Hr.
  - cbn in Hr. injection Hr as <- <-. split; [repeat split|exact Hwf].
  - destruct (round_two_state t w e l0 l1 Hwf) as (w1 & e1 & Hr1 & Hwf1 & _).
    change (rounds (S k) t w e) with (bind (round t) (fun _ => rounds k (S t)) w e) in Hr.
    unfold bind in Hr. rewrite Hr1 in Hr.
    destruct (IH (S t) w1 e1 w' e' l0 l1 Hwf1 Hr) as [(A & B & C & D & E) Hwf'].
    destruct (round_same_game t w e w1 e1 l0 l1 Hwf Hr1) as (A1 & B1 & C1 & D1 & E1).
    split; [|exact Hwf']. repeat split; congruence.
Qed.

Lemma set_init_beliefs_same_game ib w e w0 e0 (l0 l1 : nat) :
  two_player_state l0 l1 e ->
  set_init_beliefs dirichlet ib w e = (Val tt, w0, e0) ->
  same_game e e0.
Proof.
  intros Hwf Hset.
  destruct (set_init_beliefs_frame _ _ _ _ _ _ Hset) as [(A & B & C & _ & D) _].
  repeat split; try assumption.
  destruct Hwf as (p0 & p1 & ? & ? & Hp & _).
  assert (Hassign : exists init w1, assign_beliefs init w1 e = (Val tt, w0, e0)).
  { unfold set_init_beliefs, bind in Hset. destruct ib as [given|].
    - cbn in Hset. eauto.
    - cbn in Hset. destruct (draw_beliefs_val (belief_sizes e) w e) as (bs & w1 & Hd).
      rewrite Hd in Hset. eauto. }
  destruct Hassign as (init & w1 & Hassign).
  rewrite (assign_beliefs_two init w1 e p0 p1 Hp) in Hassign.
  destruct (init !! 0%nat) as [v0|]; [|discriminate].
  destruct (broadcast_to _ v0) as [c0|]; [|discriminate].
  destruct (init !! 1%nat) as [v1|]; [|discriminate].
  destruct (broadcast_to _ v1) as [c1|]; [|discriminate].
  injection Hassign as <- <-. cbn. rewrite Hp. reflexivity.
Qed.

(** After [simulate] has returned, the engine is the same game with the
    same schedule, best responses and belief sizes, again in the state
    every method expects: only beliefs and current actions have moved.
    Calls can therefore follow one another. *)
Theorem simulate_keeps_engine (ts_length : nat) init_beliefs w e w0 e0 (l0 l1 : nat) :
  two_player_state l0 l1 e ->
  set_init_beliefs dirichlet init_beliefs w e = (Val tt, w0, e0) ->
  exists bufs wn en,
    simulate dirichlet ts_length init_beliefs w e = (Val bufs, wn, en) /\
    same_game e en /\ two_player_state l0 l1 en.
Proof.
  intros Hwf Hset.
  destruct (set_init_beliefs_two_state _ _ _ _ _ _ _ Hwf Hset) as [Hwf0 _].
  destruct (simulate_two ts_length _ w e w0 e0 l0 l1 Hwf Hset)
    as (vs & buf0 & buf1 & wn & en & Hg & Hsim & _).
  destruct (gen_values_created ts_length _ _ _ _ _ _ _ Hset Hwf0)
    as (vs1 & ? & ? & Hg1 & _ & Hr & _).
  rewrite Hg in Hg1. injection Hg1 as <- <- <-.
  destruct (rounds_same_game ts_length 0 w0 e0 wn en l0 l1 Hwf0 Hr)
    as [(A & B & C & D & E) Hwfn].
  destruct (set_init_beliefs_same_game _ _ _ _ _ _ _ Hwf Hset) as (A0 & B0 & C0 & D0 & E0).
  exists [buf0; buf1], wn, en. split; [exact Hsim|]. split; [|exact Hwfn].
  repeat split; congruence.
Qed.

(** Two calls in a row: when the best responses ignore the random state,
    [simulate] with explicit initial beliefs returns, on the engine an
    earlier [simulate] has left behind, the very buffers it returns on the
    engine before that call. *)
Theorem simulate_after_simulate (n1 n2 : nat) init_beliefs (b0 b1 : list Q)
    w e w0 e0 (l0 l1 : nat) :
  two_player_state l0 l1 e ->
  Forall deterministic (best_response <$> players e) ->
  set_init_beliefs dirichlet init_beliefs w e = (Val tt, w0, e0) ->
  length b0 = l0 -> length b1 = l1 ->
  exists bufs1 w1 e1 buf0 buf1 w2 e2 w2' e2',
    simulate dirichlet n1 init_beliefs w e = (Val bufs1, w1, e1) /\
    simulate dirichlet n2 (Some [b0; b1]) w1 e1 = (Val [buf0; buf1], w2, e2) /\
    simulate dirichlet n2 (Some [b0; b1]) w e = (Val [buf0; buf1], w2', e2').
Proof.
  intros Hwf Hdet Hset Hb0 Hb1.
  destruct (set_init_beliefs_two_state _ _ _ _ _ _ _ Hwf Hset) as [Hwf0 _].
  destruct (simulate_two n1 _ w e w0 e0 l0 l1 Hwf Hset)
    as (vs & c0 & c1 & w1 & e1 & Hg & Hsim & _).
  destruct (gen_values_created n1 _ _ _ _ _ _ _ Hset Hwf0)
    as (vs1 & ? & ? & Hg1 & _ & Hr & _).
  rewrite Hg in Hg1. injection Hg1 as <- <- <-.
  destruct (rounds_same_game n1 0 w0 e0 w1 e1 l0 l1 Hwf0 Hr)
    as [(A & B & C & D & E) Hwf1].
  destruct (set_init_beliefs_same_game _ _ _ _ _ _ _ Hwf Hset) as (A0 & B0 & C0 & D0 & E0).
  destruct (simulate_same_buffers n2 b0 b1 w w1 e e1 l0 l1 Hwf Hwf1
              ltac:(congruence) ltac:(congruence) Hb0 Hb1 (or_intror Hdet))
    as (buf0 & buf1 & w2' & e2' & w2 & e2 & Hs & Hs').
  exists [c0; c1], w1, e1, buf0, buf1, w2, e2, w2', e2'.
  split; [exact Hsim|]. split; [exact Hs'|exact Hs].
Qed.

(** ** Beliefs as running averages *)

Lemma lookup_updated (s : Q) (b : list Q) (j i : nat) (x : Q) :
  b !! i = Some x ->
  updated s b j !! i = Some (if (j =? i)%nat then x * (1 - s) + s else x * (1 - s)).
Proof.
  intros Hx. unfold updated, add_at, scale.
  destruct (Nat.eqb_spec j i) as [->|Hne].
  - rewrite list_lookup_alter_eq, list_lookup_fmap, Hx. reflexivity.
  - rewrite list_lookup_alter_ne by exact Hne. rewrite list_lookup_fmap, Hx. reflexivity.
Qed.

Lemma default_step_size_inverse (t : nat) :
  default_step_size t * (inject_Z (Z.of_nat t) + 2) == 1.
Proof.
  rewrite default_step_size_frac. unfold Qeq, Qmult, Qplus, inject_Z.
  cbn [Qnum Qden]. rewrite Pos2Z.inj_mul, Zpos_P_of_succ_nat. lia.
Qed.

(** One update with the default step of round [t]: [t + 2] times the new
    entry is [t + 1] times the old one, plus one where the belief is
    raised. *)
Lemma default_step_average (t : nat) (x : Q) :
  (inject_Z (Z.of_nat t) + 2) * (x * (1 - default_step_size t) + default_step_size t)
    == (inject_Z (Z.of_nat t) + 1) * x + 1 /\
  (inject_Z (Z.of_nat t) + 2) * (x * (1 - default_step_size t))
    == (inject_Z (Z.of_nat t) + 1) * x + 0.
Proof.
  pose proof (default_step_size_inverse t) as H.
  set (s := default_step_size t) in *. set (c := inject_Z (Z.of_nat t)) in *.
  split.
  - assert (E : (c + 2) * (x * (1 - s) + s)
                 == x * (c + 2) - x * (s * (c + 2)) + s * (c + 2)) by ring.
    rewrite E, H. ring.
  - assert (E : (c + 2) * (x * (1 - s))
                 == x * (c + 2) - x * (s * (c + 2))) by ring.
    rewrite E, H. ring.
Qed.

Lemma raised_average (who : nat) (k : nat) :
  forall (t : nat) w e wk ek (l0 l1 : nat) p pk (i : nat) (x0 xk : Q),
    (who < 2)%nat ->
    two_player_state l0 l1 e ->
    step_size e = default_step_size ->
    rounds k t w e = (Val tt, wk, ek) ->
    players e !! who = Some p -> players ek !! who = Some pk ->
    current_belief p !! i = Some x0 -> current_belief pk !! i = Some xk ->
    (inject_Z (Z.of_nat (t + k)) + 1) * xk
      == (inject_Z (Z.of_nat t) + 1) * x0 + hits i (raised who k t w e).
Proof.
  induction k as [|k IH]; intros t w e wk ek l0 l1 p pk i x0 xk Hwho Hwf Hstep Hr Hp Hpk Hx0 Hxk.
  - cbn in Hr. injection Hr as <- <-. rewrite Hp in Hpk. injection Hpk as <-.
    rewrite Hx0 in Hxk. injection Hxk as <-. rewrite Nat.add_0_r. cbn. ring.
  - destruct (round_two t w e l0 l1 Hwf)
      as (p0 & p1 & a0 & a1 & j0 & j1 & w1 & Hps & H0 & H1 & Hj0 & Hj1 & Hround).
    destruct (round_two_state t w e l0 l1 Hwf) as (w1' & e1 & Hround' & Hwf1 & Hs1).
    rewrite Hround in Hround'. injection Hround' as <- He1.
    change (rounds (S k) t w e) with (bind (round t) (fun _ => rounds k (S t)) w e) in Hr.
    unfold bind in Hr. rewrite Hround, He1 in Hr.
    assert (Hraised : exists (j : nat) (x1 : Q) p',
              raised who (S k) t w e = j :: raised who k (S t) w1 e1 /\
              players e1 !! who = Some p' /\
              current_belief p' !! i =
                Some (if (j =? i)%nat
                      then x0 * (1 - default_step_size t) + default_step_size t
                      else x0 * (1 - default_step_size t)) /\
              x1 = (if (j =? i)%nat
                    then x0 * (1 - default_step_size t) + default_step_size t
                    else x0 * (1 - default_step_size t))).
    { cbn [raised]. rewrite Hround, He1. rewrite Hps in Hp |- *. rewrite <- He1. cbn.
      rewrite Hstep.
      destruct who as [|[|who]]; [| |lia]; cbn in Hp |- *; injection Hp as <-.
      - rewrite H0, Hj0. eexists j0, _, _. split; [reflexivity|]. split; [reflexivity|].
        split; [|reflexivity]. cbn. apply lookup_updated. exact Hx0.
      - rewrite H1, Hj1. eexists j1, _, _. split; [reflexivity|]. split; [reflexivity|].
        split; [|reflexivity]. cbn. apply lookup_updated. exact Hx0. }
    destruct Hraised as (j & x1 & p' & -> & Hp' & Hx1 & Ex1). rewrite <- Ex1 in Hx1.
    assert (Hstep1 : step_size e1 = default_step_size) by congruence.
    pose proof (IH (S t) w1 e1 wk ek l0 l1 p' pk i x1 xk Hwho Hwf1 Hstep1 Hr Hp' Hpk Hx1 Hxk)
      as HIH.
    replace (t + S k)%nat with (S t + k)%nat by lia. rewrite HIH.
    cbn [hits].
    assert (Hs : inject_Z (Z.of_nat (S t)) + 1 == inject_Z (Z.of_nat t) + 2).
    { rewrite Nat2Z.inj_succ. unfold Z.succ. rewrite inject_Z_plus. ring. }
    rewrite Hs. destruct (default_step_average t x0) as [Hhit Hmiss].
    subst x1. destruct (j =? i)%nat; [rewrite Hhit|rewrite Hmiss]; ring.
Qed.

(** With the default schedule the beliefs are running averages: after [k]
    rounds, [k + 1] times an entry of a player's belief is the entry it
    started from plus the number of rounds in which the opponent played
    that index.  The belief is the empirical frequency of the opponent's
    actions, the initial belief counting as one observation. *)
Theorem beliefs_are_running_averages (who k : nat) w e wk ek (l0 l1 : nat) p pk
    (i : nat) (x0 xk : Q) :
  (who < 2)%nat ->
  two_player_state l0 l1 e ->
  step_size e = default_step_size ->
  rounds k 0 w e = (Val tt, wk, ek) ->
  players e !! who = Some p -> players ek !! who = Some pk ->
  current_belief p !! i = Some x0 -> current_belief pk !! i = Some xk ->
  length (raised who k 0 w e) = k /\
  (inject_Z (Z.of_nat k) + 1) * xk == x0 + hits i (raised who k 0 w e).
Proof.
  intros Hwho Hwf Hstep Hr Hp Hpk Hx0 Hxk. split.
  - clear Hr Hp Hpk Hx0 Hxk Hstep. revert w e Hwf. generalize 0%nat as t.
    induction k as [|k IH]; intros t w e Hwf; [reflexivity|].
    destruct (round_two t w e l0 l1 Hwf)
      as (p0 & p1 & a0 & a1 & j0 & j1 & w1 & Hps & H0 & H1 & Hj0 & Hj1 & Hround).
    destruct (round_two_state t w e l0 l1 Hwf) as (w1' & e1 & Hround' & Hwf1 & _).
    rewrite Hround in Hround'. injection Hround' as <- He1.
    cbn [raised]. rewrite Hround, He1, Hps. rewrite <- He1. cbn.
    destruct who as [|[|who]]; [| |lia]; cbn.
    + rewrite H0, Hj0. cbn. rewrite He1. f_equal. apply IH. exact Hwf1.
    + rewrite H1, Hj1. cbn. rewrite He1. f_equal. apply IH. exact Hwf1.
  - pose proof (raised_average who k 0 w e wk ek l0 l1 p pk i x0 xk
                  Hwho Hwf Hstep Hr Hp Hpk Hx0 Hxk) as H.
    cbn [Nat.add] in H. rewrite H. cbn. ring.
Qed.

(** ** [replicate] and the arrays it keeps *)

(** The runs of [replicate], one after the other: [runs] lists the state
    before the first run and the state after each run, which is the state
    the next run starts from. *)
Lemma replicate_loop_chain (T n : nat) ib (l0 l1 : nat) :
  (forall w e, two_player_state l0 l1 e ->
     exists w0 e0, set_init_beliefs dirichlet ib w e = (Val tt, w0, e0)) ->
  forall (k j : nat) x out0 out1 w e,
    two_player_state l0 l1 e ->
    (j + k <= n)%nat ->
    buffer_shape n l0 out0 -> buffer_shape n l1 out1 ->
    exists out0' out1' w' e' (runs : list (World * FictitiousPlay World)),
      replicate_loop dirichlet k j T ib x [out0; out1] w e
        = (Val [out0'; out1'], w', e') /\
      buffer_shape n l0 out0' /\ buffer_shape n l1 out1' /\
      (forall j', (j' < j)%nat -> out0' !! j' = out0 !! j' /\ out1' !! j' = out1 !! j') /\
      length runs = S k /\ runs !! 0%nat = Some (w, e) /\ runs !! k = Some (w', e') /\
      (forall i wi ei wn en,
         runs !! i = Some (wi, ei) -> runs !! S i = Some (wn, en) ->
         exists w0 e0,
           two_player_state l0 l1 ei /\
           set_init_beliefs dirichlet ib wi ei = (Val tt, w0, e0) /\
           rounds (S T) 0 w0 e0 = (Val tt, wn, en) /\
           out0' !! (j + i)%nat = belief_values en !! 0%nat /\
           out1' !! (j + i)%nat = belief_values en !! 1%nat).
Proof.
  intros Hseed. induction k as [|k IH]; intros j x out0 out1 w e Hwf Hn Hb0 Hb1.
  - exists out0, out1, w, e, [(w, e)].
    split; [reflexivity|]. split; [assumption|]. split; [assumption|].
    split; [intros j' _; split; reflexivity|].
    split; [reflexivity|]. split; [reflexivity|]. split; [reflexivity|].
    intros i wi ei wn en _ H. destruct i; discriminate.
  - destruct (Hseed w e Hwf) as (w0 & e0 & Hset).
    destruct (set_init_beliefs_two_state _ _ _ _ _ _ _ Hwf Hset) as [Hwf0 _].
    destruct (exhaust_created T ib x w e w0 e0 l0 l1 Hset Hwf0) as (wn & en & Hex & Hr & Hwfn).
    pose proof Hwfn as (p0 & p1 & ? & ? & Hp & _ & H0 & H1 & _).
    assert (Hread : read en [0%nat; 1%nat] = [current_belief p0; current_belief p1]).
    { rewrite (read_two en l0 l1 Hwfn). unfold belief_values. rewrite Hp. reflexivity. }
    destruct (set_row_shape n l0 j (current_belief p0) out0 Hb0 ltac:(lia) H0) as [Hs0 Hb0'].
    destruct (set_row_shape n l1 j (current_belief p1) out1 Hb1 ltac:(lia) H1) as [Hs1 Hb1'].
    destruct (IH (S j) (Some [0%nat; 1%nat]) _ _ wn en Hwfn ltac:(lia) Hb0' Hb1')
      as (out0' & out1' & w' & e' & runs & Hloop & Hs0' & Hs1' & Hold
          & Hlen & Hfirst & Hlast & Hruns).
    exists out0', out1', w', e', ((w, e) :: runs).
    split; [|split; [assumption|split; [assumption|split; [|split; [|split; [|split]]]]]].
    + cbn [replicate_loop]. unfold bind at 1. rewrite Hex.
      cbn - [read replicate_loop set_row]. rewrite Hread.
      cbn - [replicate_loop set_row]. rewrite Hs0, Hs1. exact Hloop.
    + intros j' Hj'. destruct (Hold j' ltac:(lia)) as [-> ->].
      rewrite !list_lookup_insert_ne by lia. split; reflexivity.
    + cbn. congruence.
    + reflexivity.
    + exact Hlast.
    + intros [|i] wi ei wm em Hi HSi.
      * change (runs !! 0%nat = Some (wm, em)) in HSi.
        cbn in Hi. injection Hi as <- <-. rewrite Hfirst in HSi. injection HSi as <- <-.
        exists w0, e0. split; [exact Hwf|]. split; [exact Hset|]. split; [exact Hr|].
        rewrite Nat.add_0_r. destruct (Hold j ltac:(lia)) as [-> ->].
        destruct Hb0 as [Hl0 _], Hb1 as [Hl1 _].
        rewrite !list_lookup_insert_eq by lia.
        unfold belief_values. rewrite Hp. split; reflexivity.
      * change (runs !! i = Some (wi, ei)) in Hi.
        change (runs !! S i = Some (wm, em)) in HSi.
        replace (j + S i)%nat with (S j + i)%nat by lia.
        exact (Hruns i wi ei wm em Hi HSi).
Qed.

(** [replicate] on a two-player engine whose seeding never fails returns
    two buffers of shapes [(num_reps, l0)] and [(num_reps, l1)].  Its runs
    follow one another from the caller's engine and random state, each
    starting where the one before it stopped: run [j] re-seeds the beliefs
    from [init_beliefs], goes through [T + 1] rounds of [play()] and
    [update_beliefs(step_size(t))], [t] from 0, and only then is its row
    written, so that row [j] holds the beliefs after [T + 1] updates of
    run [j]. *)
Theorem replicate_records_after_last_round (T num_reps : nat) ib w e (l0 l1 : nat) :
  two_player_state l0 l1 e ->
  (forall w1 e1, two_player_state l0 l1 e1 ->
     exists w0 e0, set_init_beliefs dirichlet ib w1 e1 = (Val tt, w0, e0)) ->
  exists out0 out1 w' e' (runs : list (World * FictitiousPlay World)),
    replicate dirichlet T num_reps ib w e = (Val [out0; out1], w', e') /\
    buffer_shape num_reps l0 out0 /\ buffer_shape num_reps l1 out1 /\
    length runs = S num_reps /\
    runs !! 0%nat = Some (w, e) /\ runs !! num_reps = Some (w', e') /\
    forall j wj ej wn en,
      runs !! j = Some (wj, ej) -> runs !! S j = Some (wn, en) ->
      exists w0 e0 (states : list (World * FictitiousPlay World)),
        set_init_beliefs dirichlet ib wj ej = (Val tt, w0, e0) /\
        seeded dirichlet ib l0 l1 wj w0 e0 /\
        rounds (S T) 0 w0 e0 = (Val tt, wn, en) /\
        length states = S (S T) /\
        states !! 0%nat = Some (w0, e0) /\ states !! S T = Some (wn, en) /\
        play_update_chain 0 states /\
        out0 !! j = belief_values en !! 0%nat /\
        out1 !! j = belief_values en !! 1%nat.
Proof.
  intros Hwf Hseed.
  assert (Hsizes : belief_sizes e = [l0; l1]).
  { destruct Hwf as (? & ? & ? & ? & _ & _ & _ & _ & Hs & _). exact Hs. }
  destruct (replicate_loop_chain T num_reps ib l0 l1 Hseed num_reps 0 None
              (np_empty2 num_reps l0) (np_empty2 num_reps l1) w e Hwf ltac:(lia)
              (np_empty2_shape num_reps l0) (np_empty2_shape num_reps l1))
    as (out0 & out1 & w' & e' & runs & Hloop & Hb0 & Hb1 & _ & Hlen & Hfirst & Hlast & Hruns).
  exists out0, out1, w', e', runs.
  split; [unfold replicate, bind; cbn - [replicate_loop]; rewrite Hsizes; exact Hloop|].
  split; [exact Hb0|]. split; [exact Hb1|]. split; [exact Hlen|].
  split; [exact Hfirst|]. split; [exact Hlast|].
  intros j wj ej wn en Hj HSj.
  destruct (Hruns j wj ej wn en Hj HSj) as (w0 & e0 & Hwfj & Hset & Hr & Hrow0 & Hrow1).
  destruct (rounds_chain (S T) 0 w0 e0 wn en Hr)
    as (states & Hslen & Hsfirst & Hslast & Hchain & _).
  exists w0, e0, states.
  split; [exact Hset|].
  split; [exact (set_init_beliefs_seeded _ _ _ _ _ _ _ Hwfj Hset)|].
  split; [exact Hr|]. split; [exact Hslen|]. split; [exact Hsfirst|].
  split; [exact Hslast|]. split; [exact Hchain|]. split; assumption.
Qed.

End Props.

(** * The properties at work on the example game *)

Lemma example_engine_state (b0 b1 : list Q) :
  length b0 = 2%nat -> length b1 = 2%nat ->
  two_player_state 2 2 (example_engine b0 b1).
Proof.
  intros H0 H1.
  exists (example_player 0 b0), (example_player 1 b1), 0%Z, 0%Z.
  repeat split; try assumption; intros b w; eexists; reflexivity.
Qed.

Lemma uniform_dirichlet_length (alpha : list Q) (w : unit) :
  length (uniform_dirichlet alpha w).1 = length alpha.
Proof. unfold uniform_dirichlet. cbn. apply length_fmap. Qed.

Lemma update_beliefs_convex_witness :
  let p0 := example_player 0 [1#2; 1#2] in
  let p1 := example_player 1 [1#4; 3#4] in
  let e := example_engine [1#2; 1#2] [1#4; 3#4] in
  players e = [p0; p1] /\
  current_actions e = [0%Z; 0%Z] /\
  (0 <= 0 < Z.of_nat (length (current_belief p0)))%Z /\
  (0 <= 0 < Z.of_nat (length (current_belief p1)))%Z /\
  exists b0' b1',
    update_beliefs (1#2) tt e =
      (Val tt, tt, with_players [with_belief b0' p0; with_belief b1' p1] e) /\
    vec_eq b0' (convex (1#2) [1#2; 1#2] (onehot 2 0)) /\
    vec_eq b1' (convex (1#2) [1#4; 3#4] (onehot 2 0)).
Proof.
  cbv zeta. split; [reflexivity|]. split; [reflexivity|].
  split; [cbn; lia|]. split; [cbn; lia|].
  apply (update_beliefs_convex (1#2) tt (example_engine [1#2; 1#2] [1#4; 3#4])
           (example_player 0 [1#2; 1#2]) (example_player 1 [1#4; 3#4]) 0 0);
    [reflexivity|reflexivity|cbn; lia|cbn; lia].
Defined.

Lemma set_init_beliefs_explicit_witness :
  let p0 := example_player 0 [1#2; 1#2] in
  let p1 := example_player 1 [1#2; 1#2] in
  let e := example_engine [1#2; 1#2] [1#2; 1#2] in
  players e = [p0; p1] /\
  length [3#1; -2#1] = length (current_belief p0) /\
  length [0#1; 0#1] = length (current_belief p1) /\
  exists e',
    set_init_beliefs uniform_dirichlet (Some [[3#1; -2#1]; [0#1; 0#1]]) tt e = (Val tt, tt, e') /\
    belief_values e' = [[3#1; -2#1]; [0#1; 0#1]].
Proof.
  cbv zeta. split; [reflexivity|]. split; [reflexivity|]. split; [reflexivity|].
  destruct (set_init_beliefs_explicit uniform_dirichlet tt
              (example_engine [1#2; 1#2] [1#2; 1#2])
              (example_player 0 [1#2; 1#2]) (example_player 1 [1#2; 1#2])
              [3#1; -2#1] [0#1; 0#1] eq_refl eq_refl eq_refl)
    as [(e' & Hrun & Hvals & _) _].
  exists e'. split; assumption.
Defined.

Lemma simulate_iter_sequence_witness :
  let e := example_engine [1#2; 1#2] [1#2; 1#2] in
  let ib := Some [[1#4; 3#4]; [1#3; 2#3]] in
  let e0 := example_engine [1#4; 3#4] [1#3; 2#3] in
  two_player_state 2 2 e /\
  set_init_beliefs uniform_dirichlet ib tt e = (Val tt, tt, e0) /\
  exists (states : list (unit * FictitiousPlay unit)) vs wn en,
    gen_values uniform_dirichlet 4 (simulate_iter 3 ib) tt e = (Val vs, wn, en) /\
    gen_tuples uniform_dirichlet 4 (simulate_iter 3 ib) tt e
      = (Val (repeat [0%nat; 1%nat] 3), wn, en) /\
    length vs = 3%nat /\
    seeded uniform_dirichlet ib 2 2 tt tt e0 /\
    length states = 4%nat /\
    states !! 0%nat = Some (tt, e0) /\
    states !! 3%nat = Some (wn, en) /\
    play_update_chain 0 states /\
    rounds 3 0 tt e0 = (Val tt, wn, en) /\
    ((0 < 3)%nat -> vs !! 0%nat = Some [[1#4; 3#4]; [1#3; 2#3]]) /\
    (forall t wt et, (t < 3)%nat -> states !! t = Some (wt, et) ->
       vs !! t = Some (belief_values et) /\
       read et [0%nat; 1%nat] = belief_values et) /\
    read en [0%nat; 1%nat] = belief_values en.
Proof.
  cbv zeta.
  split; [apply example_engine_state; reflexivity|]. split; [reflexivity|].
  apply (simulate_iter_sequence uniform_dirichlet 3 (Some [[1#4; 3#4]; [1#3; 2#3]]) tt
           (example_engine [1#2; 1#2] [1#2; 1#2]) tt
           (example_engine [1#4; 3#4] [1#3; 2#3]) 2 2);
    [apply example_engine_state; reflexivity|reflexivity].
Defined.

(** C2 as it is worded fails for the sequence once it is produced.  From
    the explicit beliefs [[1/2, 1/2]], [list(simulate_iter(2, ...))] holds
    two tuples, and both are the players' live arrays: when the generator
    has stopped, element 0 shows [[1/6, 5/6]] and [[5/6, 1/6]], the
    beliefs after two updates, not the initial pair, and element 1 shows
    the same, not the beliefs after one update. *)
Lemma yielded_tuples_show_live_state :
  let e := example_engine [1#2; 1#2] [1#2; 1#2] in
  let ib := Some [[1#2; 1#2]; [1#2; 1#2]] in
  exists tuples first second en c0 c1,
    set_init_beliefs uniform_dirichlet ib tt e = (Val tt, tt, e) /\
    belief_values e = [[1#2; 1#2]; [1#2; 1#2]] /\
    gen_tuples uniform_dirichlet 3 (simulate_iter 2 ib) tt e = (Val tuples, tt, en) /\
    tuples = [first; second] /\
    read en first = [c0; c1] /\ read en second = [c0; c1] /\
    vec_eq c0 [1#6; 5#6] /\ vec_eq c1 [5#6; 1#6] /\
    ~ vec_eq c0 [1#2; 1#2] /\ ~ vec_eq c1 [1#2; 1#2] /\
    ~ vec_eq c0 [1#4; 3#4] /\ ~ vec_eq c1 [3#4; 1#4].
Proof.
  cbv zeta. eexists _, _, _, _, _, _.
  split; [reflexivity|]. split; [reflexivity|].
  split; [vm_compute; reflexivity|]. split; [reflexivity|].
  split; [reflexivity|]. split; [reflexivity|].
  split; [repeat constructor|]. split; [repeat constructor|].
  repeat split; intros H; inversion H as [|? ? ? ? Hq _]; discriminate Hq.
Qed.


Lemma beliefs_stay_distributions_witness :
  let e := example_engine [1#2; 1#2] [1#4; 3#4] in
  let ib := Some [[1#2; 1#2]; [1#4; 3#4]] in
  (0 <= 1#3 <= 1 /\
   exists c0 c1,
     update_beliefs (1#3) tt e =
       (Val tt, tt, with_players [with_belief c0 (example_player 0 [1#2; 1#2]);
                                  with_belief c1 (example_player 1 [1#4; 3#4])] e) /\
     is_distribution c0 /\ is_distribution c1) /\
  (two_player_state 2 2 e /\
   set_init_beliefs uniform_dirichlet ib tt e = (Val tt, tt, e) /\
   Forall is_distribution (belief_values e) /\
   exists vs wn en,
     gen_values uniform_dirichlet 6 (simulate_iter 5 ib) tt e = (Val vs, wn, en) /\
     length vs = 5%nat /\
     Forall (Forall is_distribution) vs).
Proof.
  cbv zeta.
  assert (Hd0 : is_distribution [1#2; 1#2]).
  { split; [repeat constructor; discriminate|reflexivity]. }
  assert (Hd1 : is_distribution [1#4; 3#4]).
  { split; [repeat constructor; discriminate|reflexivity]. }
  assert (Hs : 0 <= 1#3 <= 1) by (split; discriminate).
  destruct (beliefs_stay_distributions uniform_dirichlet) as [Hone Hrun].
  split.
  - split; [exact Hs|].
    destruct (Hone (1#3) tt (example_engine [1#2; 1#2] [1#4; 3#4])
                (example_player 0 [1#2; 1#2]) (example_player 1 [1#4; 3#4])
                0%Z 0%Z 0%nat 0%nat eq_refl eq_refl eq_refl eq_refl Hs)
      as (c0 & c1 & Hu & H0 & H1).
    exists c0, c1. split; [exact Hu|]. split; [exact (H0 Hd0)|exact (H1 Hd1)].
  - split; [apply example_engine_state; reflexivity|]. split; [reflexivity|].
    assert (Hd : Forall is_distribution
                   (belief_values (example_engine [1#2; 1#2] [1#4; 3#4]))).
    { constructor; [exact Hd0|constructor; [exact Hd1|constructor]]. }
    split; [exact Hd|].
    apply (Hrun 5%nat (Some [[1#2; 1#2]; [1#4; 3#4]]) tt
             (example_engine [1#2; 1#2] [1#4; 3#4]) tt
             (example_engine [1#2; 1#2] [1#4; 3#4]) 2%nat 2%nat);
      [apply example_engine_state; reflexivity|reflexivity|reflexivity|exact Hd].
Defined.

Lemma init_error_exactly_witness :
  (exists e w',
     init uniform_dirichlet toy_NormalFormGame_new (DataGame example_game) tt = (Val e, w') /\
     g e = example_game /\ N e = 2%nat /\ belief_sizes e = [2%nat; 2%nat] /\
     current_actions e = [0%Z; 0%Z]) /\
  (exists msg,
     init uniform_dirichlet toy_NormalFormGame_new
       (DataArray {| shape := [4%nat]; flat := [1; 2; 3; 4] |}) tt
     = (Exc (ValueError msg), tt)) /\
  init uniform_dirichlet toy_NormalFormGame_new
    (DataArray {| shape := [2%nat; 3%nat]; flat := [1; 2; 3; 4; 5; 6] |}) tt
  = (Exc (ExternalError "a symmetric two-player game needs a square matrix"), tt) /\
  init uniform_dirichlet column_NormalFormGame_new
    (DataArray {| shape := [3%nat; 1%nat]; flat := [1; 2; 3] |}) tt
  = (Exc IndexError, tt).
Proof.
  split; [|split; [|split]].
  - destruct (init_error_exactly uniform_dirichlet toy_NormalFormGame_new
                (DataGame example_game) tt) as (_ & _ & _ & _ & Hok & _).
    apply (Hok example_game 2%nat 2%nat
             {| gp_best_response := constant_response 0 |}
             {| gp_best_response := constant_response 1 |}
             eq_refl eq_refl eq_refl eq_refl uniform_dirichlet_length).
  - destruct (init_error_exactly uniform_dirichlet toy_NormalFormGame_new
                (DataArray {| shape := [4%nat]; flat := [1; 2; 3; 4] |}) tt)
      as ([_ Herr] & Hall & _).
    destruct Herr as [msg Hmsg]; [cbn; lia|].
    exists msg. exact (Hall msg Hmsg).
  - destruct (init_error_exactly uniform_dirichlet toy_NormalFormGame_new
                (DataArray {| shape := [2%nat; 3%nat]; flat := [1; 2; 3; 4; 5; 6] |}) tt)
      as (_ & _ & Hext & _).
    apply (Hext _ _ eq_refl); [left; reflexivity|reflexivity].
  - destruct (init_error_exactly uniform_dirichlet column_NormalFormGame_new
                (DataArray {| shape := [3%nat; 1%nat]; flat := [1; 2; 3] |}) tt)
      as (_ & _ & _ & Hidx & _).
    apply (Hidx {| g_N := 1;
                   g_players := [ {| gp_best_response := constant_response 0 |} ];
                   nums_actions := [3%nat] |}); reflexivity.
Defined.

(** C5 as it is worded fails outside its two conditions.  A matrix of
    shape (2, 3) has two dimensions and the constructor refuses it; a
    matrix of shape (3, 1) has two dimensions, the constructor returns a
    game of one player for it, and construction stops with IndexError at
    [nums_actions[1]].  Neither construction succeeds. *)
Lemma init_fails_outside_validation :
  let wide := {| shape := [2%nat; 3%nat]; flat := [1; 2; 3; 4; 5; 6] |} in
  let column := {| shape := [3%nat; 1%nat]; flat := [1; 2; 3] |} in
  (ndim wide = 2%nat /\
   exists msg,
     column_NormalFormGame_new wide = inl msg /\
     init uniform_dirichlet column_NormalFormGame_new (DataArray wide) tt
     = (Exc (ExternalError msg), tt)) /\
  (ndim column = 2%nat /\
   exists game,
     column_NormalFormGame_new column = inr game /\
     init uniform_dirichlet column_NormalFormGame_new (DataArray column) tt
     = (Exc IndexError, tt)) /\
  (forall a, a = wide \/ a = column ->
     ~ exists e w', init uniform_dirichlet column_NormalFormGame_new (DataArray a) tt
                    = (Val e, w')).
Proof.
  cbv zeta. split; [|split].
  - split; [reflexivity|]. eexists. split; reflexivity.
  - split; [reflexivity|]. eexists. split; reflexivity.
  - intros a [-> | ->] (e & w' & H); discriminate H.
Qed.

Lemma init_rank2_no_square_check_witness :
  let wide := {| shape := [2%nat; 3%nat]; flat := [1; 2; 3; 4; 5; 6] |} in
  let column := {| shape := [3%nat; 1%nat]; flat := [1; 2; 3] |} in
  (ndim wide = 2%nat /\
   not_value_error (init uniform_dirichlet toy_NormalFormGame_new (DataArray wide) tt).1 /\
   init uniform_dirichlet toy_NormalFormGame_new (DataArray wide) tt
   = (Exc (ExternalError "a symmetric two-player game needs a square matrix"), tt)) /\
  (ndim column = 2%nat /\
   not_value_error (init uniform_dirichlet column_NormalFormGame_new (DataArray column) tt).1 /\
   init uniform_dirichlet column_NormalFormGame_new (DataArray column) tt
   = (Exc IndexError, tt)).
Proof.
  cbv zeta. split.
  - split; [reflexivity|].
    destruct (init_rank2_no_square_check uniform_dirichlet toy_NormalFormGame_new
                {| shape := [2%nat; 3%nat]; flat := [1; 2; 3; 4; 5; 6] |} tt eq_refl)
      as (Hno & _ & Hext & _).
    split; [exact Hno|]. apply Hext. reflexivity.
  - split; [reflexivity|].
    destruct (init_rank2_no_square_check uniform_dirichlet column_NormalFormGame_new
                {| shape := [3%nat; 1%nat]; flat := [1; 2; 3] |} tt eq_refl)
      as (Hno & _ & _ & Hidx & _).
    split; [exact Hno|].
    apply (Hidx {| g_N := 1;
                   g_players := [ {| gp_best_response := constant_response 0 |} ];
                   nums_actions := [3%nat] |}); reflexivity.
Defined.

(** C9 as it is worded fails for a matrix with a single column.  The
    array of shape (3, 1) is not square and has two dimensions; the game
    constructor accepts it, as a game of one player with three actions;
    construction then fails outside the constructor, with IndexError at
    [nums_actions[1]]. *)
Lemma init_rank2_fails_after_constructor :
  let column := {| shape := [3%nat; 1%nat]; flat := [1; 2; 3] |} in
  ndim column = 2%nat /\ shape column = [3%nat; 1%nat] /\
  column_NormalFormGame_new column =
    inr {| g_N := 1;
           g_players := [ {| gp_best_response := constant_response 0 |} ];
           nums_actions := [3%nat] |} /\
  init uniform_dirichlet column_NormalFormGame_new (DataArray column) tt
  = (Exc IndexError, tt).
Proof. cbv zeta. repeat split. Qed.

Lemma default_step_size_schedule_witness :
  (exists e w',
     init uniform_dirichlet toy_NormalFormGame_new (DataGame example_game) tt = (Val e, w') /\
     step_size e = default_step_size) /\
  (0 < 1#10 /\ exists T : nat, forall t, (T <= t)%nat -> default_step_size t < 1#10).
Proof.
  destruct (default_step_size_schedule uniform_dirichlet toy_NormalFormGame_new)
    as (Hinst & _ & _ & _ & _ & _ & Hvan).
  split.
  - assert (H : exists e w',
               init uniform_dirichlet toy_NormalFormGame_new (DataGame example_game) tt
               = (Val e, w')) by (vm_compute; eexists _, _; reflexivity).
    destruct H as (e & w' & H). exists e, w'. split; [exact H|].
    exact (Hinst _ _ _ _ H).
  - split; [reflexivity|]. apply Hvan. reflexivity.
Defined.

Lemma live_state_after_run_witness :
  let e := example_engine [1#2; 1#2] [1#2; 1#2] in
  let ib := Some [[1#2; 1#2]; [1#2; 1#2]] in
  two_player_state 2 2 e /\
  set_init_beliefs uniform_dirichlet ib tt e = (Val tt, tt, e) /\
  exists (states : list (unit * FictitiousPlay unit)) vs tuples refs buf0 buf1
         wl el wp ep wn en b0 b1 (a0 a1 : Z) (j0 j1 : nat),
    simulate uniform_dirichlet 2 ib tt e = (Val [buf0; buf1], wn, en) /\
    gen_values uniform_dirichlet 3 (simulate_iter 2 ib) tt e = (Val vs, wn, en) /\
    gen_tuples uniform_dirichlet 3 (simulate_iter 2 ib) tt e = (Val tuples, wn, en) /\
    length states = 3%nat /\
    states !! 0%nat = Some (tt, e) /\
    states !! 1%nat = Some (wl, el) /\
    states !! 2%nat = Some (wn, en) /\
    play_update_chain 0 states /\
    belief_values el = [b0; b1] /\
    last vs = Some [b0; b1] /\ last buf0 = Some b0 /\ last buf1 = Some b1 /\
    play wl el = (Val tt, wp, ep) /\
    current_actions ep = [a0; a1] /\ belief_values ep = [b0; b1] /\
    update_beliefs (step_size ep 1) wp ep = (Val tt, wn, en) /\
    py_index (length b0) a1 = Some j0 /\ py_index (length b1) a0 = Some j1 /\
    belief_values en =
      [updated (step_size ep 1) b0 j0; updated (step_size ep 1) b1 j1] /\
    length tuples = 2%nat /\ last tuples = Some refs /\
    read el refs = [b0; b1] /\
    read en refs = belief_values en.
Proof.
  cbv zeta.
  split; [apply example_engine_state; reflexivity|]. split; [reflexivity|].
  apply (live_state_after_run uniform_dirichlet 1 (Some [[1#2; 1#2]; [1#2; 1#2]]) tt
           (example_engine [1#2; 1#2] [1#2; 1#2]) tt
           (example_engine [1#2; 1#2] [1#2; 1#2]) 2 2);
    [apply example_engine_state; reflexivity|reflexivity].
Defined.

(** C10 as it is worded fails in two ways.  Where the beliefs are already
    the point masses on the opponents' answers (player 1 always answers 1
    and player 0 always answers 0, beliefs [[0, 1]] and [[1, 0]]) every
    round leaves the beliefs where they are, and after [simulate(3)] the
    live beliefs equal the last recorded rows.  And whatever the beliefs,
    the last element [simulate_iter] yielded is the pair of live arrays:
    from [[1/2, 1/2]], once [simulate_iter(2)] is exhausted it shows the
    live state, [[1/6, 5/6]] and [[5/6, 1/6]] after two updates, not the
    beliefs after one update. *)
Lemma live_state_can_equal_last_row :
  (let e := example_engine [0; 1] [1; 0] in
   exists buf0 buf1 en r0 r1 c0 c1,
     simulate uniform_dirichlet 3 (Some [[0; 1]; [1; 0]]) tt e = (Val [buf0; buf1], tt, en) /\
     last buf0 = Some r0 /\ last buf1 = Some r1 /\
     belief_values en = [c0; c1] /\
     vec_eq c0 r0 /\ vec_eq c1 r1) /\
  (let e := example_engine [1#2; 1#2] [1#2; 1#2] in
   let ib := Some [[1#2; 1#2]; [1#2; 1#2]] in
   exists tuples refs en c0 c1,
     gen_tuples uniform_dirichlet 3 (simulate_iter 2 ib) tt e = (Val tuples, tt, en) /\
     last tuples = Some refs /\
     read en refs = belief_values en /\
     read en refs = [c0; c1] /\
     vec_eq c0 [1#6; 5#6] /\ vec_eq c1 [5#6; 1#6] /\
     ~ vec_eq c0 [1#4; 3#4] /\ ~ vec_eq c1 [3#4; 1#4]).
Proof.
  cbv zeta. split.
  - eexists _, _, _, _, _, _, _.
    split; [vm_compute; reflexivity|].
    split; [reflexivity|]. split; [reflexivity|]. split; [reflexivity|].
    split; repeat constructor.
  - eexists _, _, _, _, _.
    split; [vm_compute; reflexivity|]. split; [reflexivity|].
    split; [reflexivity|]. split; [reflexivity|].
    split; [repeat constructor|]. split; [repeat constructor|].
    split; intros H; inversion H as [|? ? ? ? Hq _]; discriminate Hq.
Qed.

(** C3 at a concrete input.  With [T = 1] and two repetitions from the
    explicit beliefs [[1/2, 1/2]], the belief pair of round 1 (one update)
    is [[1/4, 3/4]], [[3/4, 1/4]], which is what row 1 of [simulate(2)]
    holds; [replicate] instead reads the yielded arrays after the generator
    has run its last round, and records the pair after two updates,
    [[1/6, 5/6]], [[5/6, 1/6]], in every row. *)
Theorem replicate_records_live_state :
  let e := example_engine [1#2; 1#2] [1#2; 1#2] in
  let ib := Some [[1#2; 1#2]; [1#2; 1#2]] in
  exists out0 out1 buf0 buf1 en en',
    replicate uniform_dirichlet 1 2 ib tt e = (Val [out0; out1], tt, en) /\
    Forall (fun row => vec_eq row [1#6; 5#6]) out0 /\ length out0 = 2%nat /\
    Forall (fun row => vec_eq row [5#6; 1#6]) out1 /\ length out1 = 2%nat /\
    simulate uniform_dirichlet 2 ib tt e = (Val [buf0; buf1], tt, en') /\
    (exists r0, buf0 !! 1%nat = Some r0 /\ vec_eq r0 [1#4; 3#4] /\
                Forall (fun row => ~ vec_eq row r0) out0) /\
    (exists r1, buf1 !! 1%nat = Some r1 /\ vec_eq r1 [3#4; 1#4] /\
                Forall (fun row => ~ vec_eq row r1) out1).
Proof.
  cbv zeta. eexists _, _, _, _, _, _.
  split; [vm_compute; reflexivity|].
  split; [repeat constructor|]. split; [reflexivity|].
  split; [repeat constructor|]. split; [reflexivity|].
  split; [vm_compute; reflexivity|].
  split; eexists; (split; [reflexivity|]); (split; [repeat constructor|]).
  all: repeat constructor; intros H; inversion H as [|? ? ? ? Hq _]; discriminate Hq.
Qed.

(** ** The further properties on the example game *)

Lemma example_engine_deterministic (b0 b1 : list Q) :
  Forall deterministic (best_response <$> players (example_engine b0 b1)).
Proof. repeat constructor; intros b w w'; reflexivity. Qed.

Lemma uniform_dirichlet_two (n : nat) (w : unit) :
  n = 2%nat \/ n = 2%nat -> is_distribution (uniform_dirichlet (np_ones n) w).1.
Proof.
  intros [-> | ->]; (split; [repeat constructor; discriminate|reflexivity]).
Qed.

Lemma play_sets_actions_only_witness :
  let e := example_engine [1#2; 1#2] [1#4; 3#4] in
  let big := {| best_response := constant_response (2 ^ 63); current_belief := [1#4; 3#4] |} in
  let e_big := with_players [example_player 0 [1#2; 1#2]; big] e in
  (players e = [example_player 0 [1#2; 1#2]; example_player 1 [1#4; 3#4]] /\
   current_actions e = [0%Z; 0%Z] /\
   int64_fits 0 /\ int64_fits 1 /\
   exists e', play_int64 tt e = (Val tt, tt, e') /\ play tt e = (Val tt, tt, e') /\
              current_actions e' = [0%Z; 1%Z] /\ players e' = players e) /\
  (players e_big = [example_player 0 [1#2; 1#2]; big] /\
   current_actions e_big = [0%Z; 0%Z] /\
   int64_fits 0 /\ ~ int64_fits (2 ^ 63) /\
   play_int64 tt e_big = (Exc OverflowError, tt, with_actions [0%Z; 0%Z] e_big)).
Proof.
  cbv zeta.
  assert (F0 : int64_fits 0) by (unfold int64_fits; lia).
  assert (F1 : int64_fits 1) by (unfold int64_fits; lia).
  assert (Fb : ~ int64_fits (2 ^ 63)) by (unfold int64_fits; lia).
  split.
  - split; [reflexivity|]. split; [reflexivity|]. split; [exact F0|]. split; [exact F1|].
    destruct (play_sets_actions_only tt (example_engine [1#2; 1#2] [1#4; 3#4])
                (example_player 0 [1#2; 1#2]) (example_player 1 [1#4; 3#4]) 0 0
                eq_refl eq_refl)
      as (r0 & r1 & w1 & w2 & H0 & H1 & Hfit & _).
    cbn in H0, H1. injection H0 as <- <-. injection H1 as <- <-.
    destruct (Hfit F0 F1) as (e' & Hrun & Hplay & _ & Hacts & Hps & _).
    exists e'. repeat split; assumption.
  - split; [reflexivity|]. split; [reflexivity|]. split; [exact F0|]. split; [exact Fb|].
    destruct (play_sets_actions_only tt
                (with_players
                   [example_player 0 [1#2; 1#2];
                    {| best_response := constant_response (2 ^ 63);
                       current_belief := [1#4; 3#4] |}]
                   (example_engine [1#2; 1#2] [1#4; 3#4]))
                (example_player 0 [1#2; 1#2])
                {| best_response := constant_response (2 ^ 63);
                   current_belief := [1#4; 3#4] |} 0 0
                eq_refl eq_refl)
      as (r0 & r1 & w1 & w2 & H0 & H1 & _ & _ & Hsecond).
    cbn in H0, H1. injection H0 as <- <-. injection H1 as <- <-.
    exact (Hsecond F0 Fb).
Defined.

Lemma update_beliefs_index_error_witness :
  let p0 := example_player 0 [1#2; 1#2] in
  let p1 := example_player 1 [1#4; 3#4] in
  let e := with_actions [0%Z; 5%Z] (example_engine [1#2; 1#2] [1#4; 3#4]) in
  let e' := with_actions [5%Z; 1%Z] (example_engine [1#2; 1#2] [1#4; 3#4]) in
  (players e = [p0; p1] /\ current_actions e = [0%Z; 5%Z] /\
   py_index (length (current_belief p0)) 5 = None /\
   update_beliefs (1#2) tt e =
     (Exc IndexError, tt,
      with_players [with_belief (scale (1 - (1#2)) [1#2; 1#2]) p0; p1] e)) /\
  (players e' = [p0; p1] /\ current_actions e' = [5%Z; 1%Z] /\
   py_index (length (current_belief p0)) 1 = Some 1%nat /\
   py_index (length (current_belief p1)) 5 = None /\
   update_beliefs (1#2) tt e' =
     (Exc IndexError, tt,
      with_players [with_belief (updated (1#2) [1#2; 1#2] 1) p0;
                    with_belief (scale (1 - (1#2)) [1#4; 3#4]) p1] e')).
Proof.
  cbv zeta. split.
  - split; [reflexivity|]. split; [reflexivity|]. split; [reflexivity|].
    apply (update_beliefs_index_error (1#2) tt
             (with_actions [0%Z; 5%Z] (example_engine [1#2; 1#2] [1#4; 3#4]))
             (example_player 0 [1#2; 1#2]) (example_player 1 [1#4; 3#4]) 0 5
             eq_refl eq_refl).
    reflexivity.
  - split; [reflexivity|]. split; [reflexivity|]. split; [reflexivity|].
    split; [reflexivity|].
    apply (update_beliefs_index_error (1#2) tt
             (with_actions [5%Z; 1%Z] (example_engine [1#2; 1#2] [1#4; 3#4]))
             (example_player 0 [1#2; 1#2]) (example_player 1 [1#4; 3#4]) 5 1
             eq_refl eq_refl); reflexivity.
Defined.

Lemma update_beliefs_negative_action_witness :
  let p0 := example_player 0 [1#2; 1#2] in
  let p1 := example_player 1 [1#4; 3#4] in
  let e := with_actions [(-2)%Z; (-1)%Z] (example_engine [1#2; 1#2] [1#4; 3#4]) in
  players e = [p0; p1] /\ current_actions e = [(-2)%Z; (-1)%Z] /\
  (- Z.of_nat (length (current_belief p0)) <= -1 < 0)%Z /\
  (- Z.of_nat (length (current_belief p1)) <= -2 < 0)%Z /\
  exists c0 c1,
    update_beliefs (1#2) tt e =
      (Val tt, tt, with_players [with_belief c0 p0; with_belief c1 p1] e) /\
    vec_eq c0 (convex (1#2) [1#2; 1#2] (onehot 2 1)) /\
    vec_eq c1 (convex (1#2) [1#4; 3#4] (onehot 2 0)).
Proof.
  cbv zeta. split; [reflexivity|]. split; [reflexivity|].
  split; [cbn; lia|]. split; [cbn; lia|].
  apply (update_beliefs_negative_action (1#2) tt
           (with_actions [(-2)%Z; (-1)%Z] (example_engine [1#2; 1#2] [1#4; 3#4]))
           (example_player 0 [1#2; 1#2]) (example_player 1 [1#4; 3#4]) (-2) (-1)
           eq_refl eq_refl); cbn; lia.
Defined.

Lemma update_beliefs_sum_witness :
  let p0 := example_player 0 [1#2; 1#2] in
  let p1 := example_player 1 [1#4; 3#4] in
  let e := example_engine [1#2; 1#2] [1#4; 3#4] in
  players e = [p0; p1] /\ current_actions e = [0%Z; 0%Z] /\
  py_index (length (current_belief p0)) 0 = Some 0%nat /\
  py_index (length (current_belief p1)) 0 = Some 0%nat /\
  exists c0 c1,
    update_beliefs (3#1) tt e =
      (Val tt, tt, with_players [with_belief c0 p0; with_belief c1 p1] e) /\
    sumQ c0 == 1 /\ sumQ c1 == 1.
Proof.
  cbv zeta. split; [reflexivity|]. split; [reflexivity|].
  split; [reflexivity|]. split; [reflexivity|].
  destruct (update_beliefs_sum (3#1) tt (example_engine [1#2; 1#2] [1#4; 3#4])
              (example_player 0 [1#2; 1#2]) (example_player 1 [1#4; 3#4]) 0 0 0 0
              eq_refl eq_refl eq_refl eq_refl)
    as (c0 & c1 & Hu & _ & _ & _ & _ & H0 & H1).
  exists c0, c1. split; [exact Hu|]. split; [apply H0|apply H1]; reflexivity.
Defined.

Lemma update_beliefs_extreme_steps_witness :
  let p0 := example_player 0 [1#2; 1#2] in
  let p1 := example_player 1 [1#4; 3#4] in
  let e := with_actions [0%Z; 1%Z] (example_engine [1#2; 1#2] [1#4; 3#4]) in
  players e = [p0; p1] /\ current_actions e = [0%Z; 1%Z] /\
  py_index (length (current_belief p0)) 1 = Some 1%nat /\
  py_index (length (current_belief p1)) 0 = Some 0%nat /\
  (exists c0 c1,
     update_beliefs 0 tt e =
       (Val tt, tt, with_players [with_belief c0 p0; with_belief c1 p1] e) /\
     vec_eq c0 [1#2; 1#2] /\ vec_eq c1 [1#4; 3#4]) /\
  (exists c0 c1,
     update_beliefs 1 tt e =
       (Val tt, tt, with_players [with_belief c0 p0; with_belief c1 p1] e) /\
     vec_eq c0 (onehot 2 1) /\ vec_eq c1 (onehot 2 0)).
Proof.
  cbv zeta. split; [reflexivity|]. split; [reflexivity|].
  split; [reflexivity|]. split; [reflexivity|].
  apply (update_beliefs_extreme_steps tt
           (with_actions [0%Z; 1%Z] (example_engine [1#2; 1#2] [1#4; 3#4]))
           (example_player 0 [1#2; 1#2]) (example_player 1 [1#4; 3#4]) 0 1 1 0
           eq_refl eq_refl eq_refl eq_refl).
Defined.

Lemma set_init_beliefs_bad_arguments_witness :
  let p0 := example_player 0 [1#2; 1#2] in
  let p1 := example_player 1 [1#4; 3#4] in
  let e := example_engine [1#2; 1#2] [1#4; 3#4] in
  players e = [p0; p1] /\
  set_init_beliefs uniform_dirichlet (Some []) tt e = (Exc IndexError, tt, e) /\
  (broadcast_to (length (current_belief p0)) [0; 1] = Some [0; 1] /\
   set_init_beliefs uniform_dirichlet (Some [[0; 1]]) tt e =
     (Exc IndexError, tt, with_players [with_belief [0; 1] p0; p1] e)) /\
  (length [1#3; 1#3; 1#3] <> length (current_belief p0) /\
   length [1#3; 1#3; 1#3] <> 1%nat /\
   set_init_beliefs uniform_dirichlet (Some [[1#3; 1#3; 1#3]; [1; 0]]) tt e =
     (Exc BroadcastError, tt, e)).
Proof.
  cbv zeta.
  destruct (set_init_beliefs_bad_arguments uniform_dirichlet tt
              (example_engine [1#2; 1#2] [1#4; 3#4])
              (example_player 0 [1#2; 1#2]) (example_player 1 [1#4; 3#4]) eq_refl)
    as (Hempty & Hshort & Hlen & _).
  split; [reflexivity|]. split; [exact Hempty|]. split.
  - split; [reflexivity|]. apply Hshort. reflexivity.
  - split; [cbn; lia|]. split; [cbn; lia|]. apply Hlen; cbn; lia.
Defined.

Lemma set_init_beliefs_draws_witness :
  let p0 := example_player 0 [1#4; 3#4] in
  let p1 := example_player 1 [1#4; 3#4] in
  let e := example_engine [1#4; 3#4] [1#4; 3#4] in
  players e = [p0; p1] /\ belief_sizes e = [2%nat; 2%nat] /\
  length (uniform_dirichlet (np_ones 2) tt).1 = length (current_belief p0) /\
  length (uniform_dirichlet (np_ones 2) (uniform_dirichlet (np_ones 2) tt).2).1
    = length (current_belief p1) /\
  exists e',
    set_init_beliefs uniform_dirichlet None tt e = (Val tt, tt, e') /\
    belief_values e' = [[1 / inject_Z 2; 1 / inject_Z 2]; [1 / inject_Z 2; 1 / inject_Z 2]].
Proof.
  cbv zeta. split; [reflexivity|]. split; [reflexivity|].
  split; [reflexivity|]. split; [reflexivity|].
  destruct (set_init_beliefs_draws uniform_dirichlet tt
              (example_engine [1#4; 3#4] [1#4; 3#4])
              (example_player 0 [1#4; 3#4]) (example_player 1 [1#4; 3#4]) 2 2
              eq_refl eq_refl eq_refl eq_refl)
    as (e' & Hset & Hvals & _).
  exists e'. split; [exact Hset|exact Hvals].
Defined.

Lemma init_establishes_state_witness :
  resolve_game toy_NormalFormGame_new (DataGame example_game) = inr example_game /\
  g_N example_game = 2%nat /\ nums_actions example_game = [2%nat; 2%nat] /\
  (forall alpha w1, length (uniform_dirichlet alpha w1).1 = length alpha) /\
  (forall b w1, (0 <= (constant_response 0 b w1).1 < Z.of_nat 2)%Z) /\
  (forall b w1, (0 <= (constant_response 1 b w1).1 < Z.of_nat 2)%Z) /\
  exists e w',
    init uniform_dirichlet toy_NormalFormGame_new (DataGame example_game) tt = (Val e, w') /\
    N e = 2%nat /\ belief_sizes e = [2%nat; 2%nat] /\
    current_actions e = [0%Z; 0%Z] /\
    two_player_state 2 2 e /\
    step_size e = default_step_size /\
    Forall is_distribution (belief_values e).
Proof.
  assert (H0 : forall b (w1 : unit), (0 <= (constant_response 0 b w1).1 < Z.of_nat 2)%Z)
    by (intros b w1; cbn; lia).
  assert (H1 : forall b (w1 : unit), (0 <= (constant_response 1 b w1).1 < Z.of_nat 2)%Z)
    by (intros b w1; cbn; lia).
  split; [reflexivity|]. split; [reflexivity|]. split; [reflexivity|].
  split; [exact uniform_dirichlet_length|]. split; [exact H0|]. split; [exact H1|].
  destruct (init_establishes_state uniform_dirichlet toy_NormalFormGame_new
              (DataGame example_game) tt example_game 2 2
              {| gp_best_response := constant_response 0 |}
              {| gp_best_response := constant_response 1 |}
              eq_refl eq_refl eq_refl eq_refl uniform_dirichlet_length H0 H1)
    as (e & w' & Hinit & _ & _ & HN & Hsizes & Hacts & _ & Hwf & Hstep & _ & Hdist).
  exists e, w'. split; [exact Hinit|]. split; [exact HN|]. split; [exact Hsizes|].
  split; [exact Hacts|]. split; [exact Hwf|]. split; [exact Hstep|].
  apply Hdist. exact uniform_dirichlet_two.
Defined.

Lemma init_then_simulate_witness :
  exists e w' buf0 buf1 wn en,
    init uniform_dirichlet toy_NormalFormGame_new (DataGame example_game) tt = (Val e, w') /\
    simulate uniform_dirichlet 4 None w' e = (Val [buf0; buf1], wn, en) /\
    buffer_shape 4 2 buf0 /\ buffer_shape 4 2 buf1 /\
    Forall is_distribution buf0 /\ Forall is_distribution buf1.
Proof.
  apply (init_then_simulate uniform_dirichlet toy_NormalFormGame_new
           (DataGame example_game) tt example_game 2 2 4
           {| gp_best_response := constant_response 0 |}
           {| gp_best_response := constant_response 1 |}
           eq_refl eq_refl eq_refl eq_refl uniform_dirichlet_length uniform_dirichlet_two).
  - intros b w1. cbn. lia.
  - intros b w1. cbn. lia.
Defined.

Lemma example_engine_actions_state (b0 b1 : list Q) (a0 a1 : Z) :
  length b0 = 2%nat -> length b1 = 2%nat ->
  two_player_state 2 2 (with_actions [a0; a1] (example_engine b0 b1)).
Proof.
  intros H0 H1.
  exists (example_player 0 b0), (example_player 1 b1), a0, a1.
  repeat split; try assumption; intros b w; eexists; reflexivity.
Qed.

Lemma explicit_seeding_accepted (b0 b1 : list Q) :
  length b0 = 2%nat -> length b1 = 2%nat ->
  forall (w1 : unit) (e1 : FictitiousPlay unit),
    two_player_state 2 2 e1 ->
    exists w0 e0, set_init_beliefs uniform_dirichlet (Some [b0; b1]) w1 e1 = (Val tt, w0, e0).
Proof.
  intros H0 H1 w1 e1 Hwf.
  destruct (set_init_beliefs_same_players uniform_dirichlet b0 b1 w1 w1 e1 e1 2 2
              Hwf Hwf eq_refl H0 H1) as (e0 & _ & Hset & _).
  exists w1, e0. exact Hset.
Qed.

Lemma simulate_restarts_witness :
  let e := example_engine [1#2; 1#2] [1#2; 1#2] in
  let e' := with_actions [1%Z; 1%Z] (example_engine [0; 1] [1; 0]) in
  two_player_state 2 2 e /\ two_player_state 2 2 e' /\
  best_response <$> players e' = best_response <$> players e /\
  step_size e' = step_size e /\
  length [1#4; 3#4] = 2%nat /\ length [1#3; 2#3] = 2%nat /\
  exists buf0 buf1 wn en wn' en',
    simulate uniform_dirichlet 5 (Some [[1#4; 3#4]; [1#3; 2#3]]) tt e
      = (Val [buf0; buf1], wn, en) /\
    simulate uniform_dirichlet 5 (Some [[1#4; 3#4]; [1#3; 2#3]]) tt e'
      = (Val [buf0; buf1], wn', en').
Proof.
  cbv zeta.
  split; [apply example_engine_state; reflexivity|].
  split; [apply example_engine_actions_state; reflexivity|].
  split; [reflexivity|]. split; [reflexivity|]. split; [reflexivity|]. split; [reflexivity|].
  apply (simulate_restarts uniform_dirichlet 5 [1#4; 3#4] [1#3; 2#3] tt tt
           (example_engine [1#2; 1#2] [1#2; 1#2])
           (with_actions [1%Z; 1%Z] (example_engine [0; 1] [1; 0])) 2 2);
    [apply example_engine_state; reflexivity
    |apply example_engine_actions_state; reflexivity
    |reflexivity|reflexivity|reflexivity|reflexivity|left; reflexivity].
Defined.

Lemma replicate_rows_identical_witness :
  let e := example_engine [1#2; 1#2] [1#2; 1#2] in
  two_player_state 2 2 e /\
  Forall deterministic (best_response <$> players e) /\
  length [1#4; 3#4] = 2%nat /\ length [1#3; 2#3] = 2%nat /\
  exists out0 out1 w' e' c0 c1,
    replicate uniform_dirichlet 3 4 (Some [[1#4; 3#4]; [1#3; 2#3]]) tt e
      = (Val [out0; out1], w', e') /\
    length out0 = 4%nat /\ length out1 = 4%nat /\
    Forall (fun row => row = c0) out0 /\ Forall (fun row => row = c1) out1.
Proof.
  cbv zeta.
  split; [apply example_engine_state; reflexivity|].
  split; [apply example_engine_deterministic|].
  split; [reflexivity|]. split; [reflexivity|].
  destruct (replicate_rows_identical uniform_dirichlet 3 4 [1#4; 3#4] [1#3; 2#3] tt
              (example_engine [1#2; 1#2] [1#2; 1#2]) 2 2
              (example_engine_state [1#2; 1#2] [1#2; 1#2] eq_refl eq_refl)
              (example_engine_deterministic [1#2; 1#2] [1#2; 1#2]) eq_refl eq_refl)
    as (out0 & out1 & w' & e' & e0 & wn & en & c0 & c1 & Hrep & _ & _ & _ & Hl0 & Hl1 & H0 & H1).
  exists out0, out1, w', e', c0, c1. repeat split; assumption.
Defined.

Lemma simulate_keeps_engine_witness :
  let e := example_engine [1#2; 1#2] [1#2; 1#2] in
  let ib := Some [[1#4; 3#4]; [1#3; 2#3]] in
  two_player_state 2 2 e /\
  set_init_beliefs uniform_dirichlet ib tt e
    = (Val tt, tt, example_engine [1#4; 3#4] [1#3; 2#3]) /\
  exists bufs wn en,
    simulate uniform_dirichlet 6 ib tt e = (Val bufs, wn, en) /\
    same_game e en /\ two_player_state 2 2 en.
Proof.
  cbv zeta.
  split; [apply example_engine_state; reflexivity|]. split; [reflexivity|].
  apply (simulate_keeps_engine uniform_dirichlet 6 (Some [[1#4; 3#4]; [1#3; 2#3]]) tt
           (example_engine [1#2; 1#2] [1#2; 1#2]) tt
           (example_engine [1#4; 3#4] [1#3; 2#3]) 2 2);
    [apply example_engine_state; reflexivity|reflexivity].
Defined.

Lemma simulate_after_simulate_witness :
  let e := example_engine [1#2; 1#2] [1#2; 1#2] in
  two_player_state 2 2 e /\
  Forall deterministic (best_response <$> players e) /\
  set_init_beliefs uniform_dirichlet None tt e = (Val tt, tt, e) /\
  length [1#4; 3#4] = 2%nat /\ length [1#3; 2#3] = 2%nat /\
  exists bufs1 w1 e1 buf0 buf1 w2 e2 w2' e2',
    simulate uniform_dirichlet 3 None tt e = (Val bufs1, w1, e1) /\
    simulate uniform_dirichlet 4 (Some [[1#4; 3#4]; [1#3; 2#3]]) w1 e1
      = (Val [buf0; buf1], w2, e2) /\
    simulate uniform_dirichlet 4 (Some [[1#4; 3#4]; [1#3; 2#3]]) tt e
      = (Val [buf0; buf1], w2', e2').
Proof.
  cbv zeta.
  split; [apply example_engine_state; reflexivity|].
  split; [apply example_engine_deterministic|].
  split; [reflexivity|]. split; [reflexivity|]. split; [reflexivity|].
  apply (simulate_after_simulate uniform_dirichlet 3 4 None [1#4; 3#4] [1#3; 2#3] tt
           (example_engine [1#2; 1#2] [1#2; 1#2]) tt
           (example_engine [1#2; 1#2] [1#2; 1#2]) 2 2);
    [apply example_engine_state; reflexivity|apply example_engine_deterministic
    |reflexivity|reflexivity|reflexivity].
Defined.

Lemma replicate_records_after_last_round_witness :
  let e := example_engine [1#2; 1#2] [1#2; 1#2] in
  let ib := Some [[1#4; 3#4]; [1#3; 2#3]] in
  two_player_state 2 2 e /\
  (forall w1 e1, two_player_state 2 2 e1 ->
     exists w0 e0, set_init_beliefs uniform_dirichlet ib w1 e1 = (Val tt, w0, e0)) /\
  exists out0 out1 w' e' (runs : list (unit * FictitiousPlay unit)),
    replicate uniform_dirichlet 2 3 ib tt e = (Val [out0; out1], w', e') /\
    buffer_shape 3 2 out0 /\ buffer_shape 3 2 out1 /\
    length runs = 4%nat /\
    runs !! 0%nat = Some (tt, e) /\ runs !! 3%nat = Some (w', e') /\
    forall j wj ej wn en,
      runs !! j = Some (wj, ej) -> runs !! S j = Some (wn, en) ->
      exists w0 e0 (states : list (unit * FictitiousPlay unit)),
        set_init_beliefs uniform_dirichlet ib wj ej = (Val tt, w0, e0) /\
        seeded uniform_dirichlet ib 2 2 wj w0 e0 /\
        rounds 3 0 w0 e0 = (Val tt, wn, en) /\
        length states = 4%nat /\
        states !! 0%nat = Some (w0, e0) /\ states !! 3%nat = Some (wn, en) /\
        play_update_chain 0 states /\
        out0 !! j = belief_values en !! 0%nat /\
        out1 !! j = belief_values en !! 1%nat.
Proof.
  cbv zeta.
  split; [apply example_engine_state; reflexivity|].
  split; [apply explicit_seeding_accepted; reflexivity|].
  apply (replicate_records_after_last_round uniform_dirichlet 2 3
           (Some [[1#4; 3#4]; [1#3; 2#3]]) tt
           (example_engine [1#2; 1#2] [1#2; 1#2]) 2 2);
    [apply example_engine_state; reflexivity
    |apply explicit_seeding_accepted; reflexivity].
Defined.

Lemma beliefs_are_running_averages_witness :
  let e := example_engine [1#2; 1#2] [1#2; 1#2] in
  exists wk ek p pk (x0 xk : Q),
    (0 < 2)%nat /\ two_player_state 2 2 e /\ step_size e = default_step_size /\
    rounds 3 0 tt e = (Val tt, wk, ek) /\
    players e !! 0%nat = Some p /\ players ek !! 0%nat = Some pk /\
    current_belief p !! 1%nat = Some x0 /\ current_belief pk !! 1%nat = Some xk /\
    raised 0 3 0 tt e = [1%nat; 1%nat; 1%nat] /\
    (inject_Z (Z.of_nat 3) + 1) * xk == x0 + hits 1 (raised 0 3 0 tt e) /\
    xk == 7#8.
Proof.
  cbv zeta.
  destruct (rounds 3 0 tt (example_engine [1#2; 1#2] [1#2; 1#2])) as [[o wk] ek] eqn:Hr.
  assert (Ho : o = Val tt) by (vm_compute in Hr; congruence). subst o.
  destruct (players ek !! 0%nat) as [pk|] eqn:Hpk;
    [|exfalso; vm_compute in Hr; injection Hr as <- <-; discriminate].
  destruct (current_belief pk !! 1%nat) as [xk|] eqn:Hxk;
    [|exfalso; vm_compute in Hr; injection Hr as <- <-;
      cbn in Hpk; injection Hpk as <-; discriminate].
  exists wk, ek, (example_player 0 [1#2; 1#2]), pk, (1#2), xk.
  assert (Hwf : two_player_state 2 2 (example_engine [1#2; 1#2] [1#2; 1#2]))
    by (apply example_engine_state; reflexivity).
  destruct (beliefs_are_running_averages 0 3 tt (example_engine [1#2; 1#2] [1#2; 1#2])
              wk ek 2 2 (example_player 0 [1#2; 1#2]) pk 1 (1#2) xk
              ltac:(lia) Hwf eq_refl Hr eq_refl Hpk eq_refl Hxk) as [_ Havg].
  assert (Hraised : raised 0 3 0 tt (example_engine [1#2; 1#2] [1#2; 1#2])
                    = [1%nat; 1%nat; 1%nat]) by (vm_compute; reflexivity).
  split; [lia|]. split; [exact Hwf|].
  do 6 (split; [first [reflexivity|assumption]|]).
  split; [exact Hraised|]. split; [exact Havg|].
  rewrite Hraised in Havg.
  assert (E1 : hits 1 [1%nat; 1%nat; 1%nat] == 3) by reflexivity.
  assert (E2 : inject_Z (Z.of_nat 3) + 1 == 4) by reflexivity.
  rewrite E1, E2 in Havg. lra.
Defined.
